(** * Dexter: the agent loop and the financial_search router

    A shallow embedding of [Agent.run] (src/agent/agent.ts) and of
    [createFinancialSearch] (src/tools/finance/financial-search.ts),
    together with the run-scoped collaborators they drive: the
    scratchpad, the token counter and the tool executor.

    The loop is an async generator.  It is embedded as a function from the
    state of the outside world to the trace the generator produces when it
    is consumed to the end: every [yield] is a [Yield] item, every call of
    the model a [ModelCall] item. *)

From Stdlib Require Import ZArith Ascii String List Bool Lia QArith.
From stdpp Require Import base option list gmap strings pretty.
From Equations Require Import Equations.
From Equations.Prop Require Import Logic.

Set Warnings "-register-all".
Local Open Scope string_scope.
Local Open Scope list_scope.
Local Open Scope nat_scope.

(** ** JavaScript values *)

Module Js.

(** The values that travel through tool calls: JSON data, plus
    [undefined].  Numbers are restricted to integers. *)
Inductive JsValue : Type :=
| JUndefined
| JNull
| JBool (b : bool)
| JNum (n : Z)
| JStr (s : string)
| JArr (xs : list JsValue)
| JObj (fields : list (string * JsValue)).

(** [Record<string, unknown>]: the fields of an object, in insertion order. *)
Definition JsObject : Type := list (string * JsValue).

(** [o.k] on an object: the first binding of [k], else [undefined]. *)
Fixpoint getField (k : string) (o : JsObject) : JsValue :=
  match o with
  | [] => JUndefined
  | (k', v) :: rest => if String.eqb k k' then v else getField k rest
  end.

(** The outcome of an expression that may throw; the message is
    [error instanceof Error ? error.message : String(error)]. *)
Inductive Outcome (A : Type) : Type :=
| Returns (a : A)
| Throws (message : string).
Arguments Returns {A} a.
Arguments Throws {A} message.

(** [v.k] on any value: reading a property of [null] or [undefined]
    throws a TypeError, primitives and arrays have no such property.  The
    message of the TypeError is the engine's: [typeErrorMessage k v] for
    the property [k] read on [v]. *)
Definition getProp (typeErrorMessage : string -> JsValue -> string)
    (k : string) (v : JsValue) : Outcome JsValue :=
  match v with
  | JUndefined | JNull => Throws (typeErrorMessage k v)
  | JObj fields => Returns (getField k fields)
  | _ => Returns JUndefined
  end.

(** ToBoolean. *)
Definition truthy (v : JsValue) : bool :=
  match v with
  | JUndefined | JNull => false
  | JBool b => b
  | JNum n => negb (n =? 0)%Z
  | JStr s => negb (String.eqb s "")
  | JArr _ | JObj _ => true
  end.

(** ToString, as a template literal applies it.  How a number is printed
    (Number::toString: in full, or with an exponent from 1e21 on) is the
    engine's: [numberToString]. *)
Fixpoint toString (numberToString : Z -> string) (v : JsValue) : string :=
  match v with
  | JUndefined => "undefined"
  | JNull => "null"
  | JBool true => "true"
  | JBool false => "false"
  | JNum n => numberToString n
  | JStr s => s
  | JArr xs =>
      String.concat ","
        (map (fun x => match x with
                       | JUndefined | JNull => ""
                       | _ => toString numberToString x
                       end) xs)
  | JObj _ => "[object Object]"
  end.

(** [a || b]. *)
Definition orElse (a b : JsValue) : JsValue := if truthy a then a else b.

(** What [Array.prototype.flatMap] appends for one callback result. *)
Definition flatten1 (v : JsValue) : list JsValue :=
  match v with
  | JArr xs => xs
  | _ => [v]
  end.

End Js.
Export Js.

(** ** Messages of the model *)

(** A tool call requested by the model ([ToolCall] of langchain). *)
Record ToolCall : Type := mkToolCall {
  tc_name : string;
  tc_args : JsObject;
  tc_id : option string
}.

(** An [AIMessage]: its content and the tool calls it carries. *)
Record AIMessage : Type := mkAIMessage {
  content : string;
  tool_calls : list ToolCall
}.

(** [response: AIMessage | string]. *)
Inductive Response : Type :=
| RString (s : string)
| RMessage (m : AIMessage).

Record TokenUsage : Type := mkTokenUsage {
  promptTokens : Z;
  completionTokens : Z;
  totalTokens : Z
}.

(** What [callLlm] resolves to, or the message of what it throws. *)
Definition LlmResult : Type := Outcome (Response * option TokenUsage).

(** ** TokenCounter *)

Module TokenCounter.

(** Modelled from the spec: the TokenCounter class (src/agent/token-counter.ts
    is not among the sources).  Cumulative usage since creation. *)
Definition t : Type := TokenUsage.

(** Modelled from the spec: a fresh TokenCounter has recorded nothing. *)
Definition empty : t := mkTokenUsage 0 0 0.

(** Modelled from the spec: [add(usage?)] adds a usage sample; a missing
    sample is a no-op. *)
Definition add (usage : option TokenUsage) (c : t) : t :=
  match usage with
  | None => c
  | Some u =>
      mkTokenUsage (promptTokens c + promptTokens u)
                   (completionTokens c + completionTokens u)
                   (totalTokens c + totalTokens u)
  end.

(** Modelled from the spec: [getUsage()] is the cumulative usage. *)
Definition getUsage (c : t) : TokenUsage := c.

(** Modelled from the spec: [getTokensPerSecond(elapsedMs)] is
    [totalTokens / (elapsedMs/1000)], and [0] if [elapsedMs <= 0] or no
    tokens were recorded.  The quotient is kept exact. *)
Definition getTokensPerSecond (c : t) (elapsedMs : Z) : Q :=
  if ((elapsedMs <=? 0) || (totalTokens c =? 0))%Z then 0%Q
  else (inject_Z (totalTokens c) / (inject_Z elapsedMs / inject_Z 1000))%Q.

End TokenCounter.

(** ** Scratchpad *)

Module Scratchpad.

(** The result of a tool call, as recorded: a payload or a failure. *)
Inductive ToolOutcome : Type :=
| Success (payload : string)
| Failure (description : string).

(** [{tool, args, result|error}]. *)
Record ToolCallRecord : Type := mkRecord {
  tool : string;
  args : JsObject;
  outcome : ToolOutcome
}.

(** Modelled from the spec: an entry of the Scratchpad class
    (src/agent/scratchpad.ts is not among the sources): a thinking note, or
    a tool-use record with a flag telling whether its full payload is still
    retained for the prompt. *)
Inductive Entry : Type :=
| ThinkingNote (text : string)
| ToolUse (r : ToolCallRecord) (retained : bool).

(** Modelled from the spec: the scratchpad is the ordered sequence of its
    entries, oldest first. *)
Definition t : Type := list Entry.

(** Modelled from the spec: a fresh scratchpad has no entry. *)
Definition empty : t := [].

(** Modelled from the spec: [addThinking(text)] appends a thinking note. *)
Definition addThinking (text : string) (sp : t) : t :=
  (sp ++ [ThinkingNote text])%list.

(** Modelled from the spec: [addToolResult(name, args, outcome)] appends a
    tool-use record, its payload retained. *)
Definition addToolResult (name : string) (a : JsObject) (o : ToolOutcome)
    (sp : t) : t :=
  (sp ++ [ToolUse (mkRecord name a o) true])%list.

(** Modelled from the spec: the thinking notes, in order. *)
Fixpoint thinkingNotes (sp : t) : list string :=
  match sp with
  | [] => []
  | ThinkingNote text :: rest => text :: thinkingNotes rest
  | ToolUse _ _ :: rest => thinkingNotes rest
  end.

(** Modelled from the spec: [getToolCallRecords()], the complete,
    never-pruned list of tool-call records. *)
Fixpoint getToolCallRecords (sp : t) : list ToolCallRecord :=
  match sp with
  | [] => []
  | ThinkingNote _ :: rest => getToolCallRecords rest
  | ToolUse r _ :: rest => r :: getToolCallRecords rest
  end.

(** Modelled from the spec: the tool-use records whose full payload is
    currently retained, in chronological order. *)
Fixpoint retainedRecords (sp : t) : list ToolCallRecord :=
  match sp with
  | [] => []
  | ToolUse r true :: rest => r :: retainedRecords rest
  | _ :: rest => retainedRecords rest
  end.

(** Modelled from the spec: [getToolResults()], the concatenation of the
    retained full payloads, each formatted by [render]. *)
Definition getToolResults (render : ToolCallRecord -> string) (sp : t)
    : string :=
  String.concat "" (map render (retainedRecords sp)).

(** Modelled from the spec: [formatToolUsageForPrompt()], the compact
    listing of all tool calls ever made, each formatted by [render]. *)
Definition formatToolUsageForPrompt (render : ToolCallRecord -> string)
    (sp : t) : string :=
  String.concat "" (map render (getToolCallRecords sp)).

(** Modelled from the spec: discard the full payload of the [n] oldest
    records that still retain it. *)
Fixpoint discardOldest (n : nat) (sp : t) : t :=
  match n, sp with
  | O, _ => sp
  | S _, [] => []
  | S m, ToolUse r true :: rest => ToolUse r false :: discardOldest m rest
  | S _, e :: rest => e :: discardOldest n rest
  end.

(** Modelled from the spec: [clearOldestToolResults(keepCount)] retains the
    full payload of only the most recent [keepCount] tool-use records and
    returns the number of records whose full payload was discarded. *)
Definition clearOldestToolResults (keepCount : nat) (sp : t) : nat * t :=
  let toClear := length (retainedRecords sp) - keepCount in
  (toClear, discardOldest toClear sp).

(** Modelled from the spec: sequence order reflects chronological
    occurrence, and pruning discards the oldest payloads, so the records
    that retain their payload are the most recent tool-use records. *)
Definition retainsMostRecent (sp : t) : Prop :=
  retainedRecords sp
  = skipn (length (getToolCallRecords sp) - length (retainedRecords sp))
          (getToolCallRecords sp).

End Scratchpad.

(** ** RunContext and events *)

Record RunContext : Type := mkRunContext {
  query : string;
  iteration : nat;
  startTime : Z;
  scratchpad : Scratchpad.t;
  tokenCounter : TokenCounter.t
}.

Definition withIteration (n : nat) (ctx : RunContext) : RunContext :=
  mkRunContext (query ctx) n (startTime ctx) (scratchpad ctx)
               (tokenCounter ctx).

Definition withScratchpad (sp : Scratchpad.t) (ctx : RunContext)
    : RunContext :=
  mkRunContext (query ctx) (iteration ctx) (startTime ctx) sp
               (tokenCounter ctx).

Definition withTokenCounter (c : TokenCounter.t) (ctx : RunContext)
    : RunContext :=
  mkRunContext (query ctx) (iteration ctx) (startTime ctx) (scratchpad ctx) c.

(** The events of the tool executor: per-call progress, or a denial. *)
Inductive ToolExecutionEvent : Type :=
| ToolProgress (tool : string) (result : Scratchpad.ToolOutcome)
| ToolDeniedBy (tool : string) (args : JsObject).

Record DoneEvent : Type := mkDone {
  answer : string;
  toolCalls : list Scratchpad.ToolCallRecord;
  iterations : nat;
  totalTime : Z;
  tokenUsage : option TokenUsage;
  tokensPerSecond : option Q
}.

(** [AgentEvent], by its [type] tag. *)
Inductive AgentEvent : Type :=
| thinking (message : string)
| tool_progress (tool : string) (result : Scratchpad.ToolOutcome)
| tool_denied (tool : string) (args : JsObject)
| context_cleared (clearedCount keptCount : nat)
| done (d : DoneEvent).

Definition ofToolEvent (e : ToolExecutionEvent) : AgentEvent :=
  match e with
  | ToolProgress name r => tool_progress name r
  | ToolDeniedBy name a => tool_denied name a
  end.

(** [event.type === 'tool_denied'] *)
Definition isToolDenied (e : AgentEvent) : bool :=
  match e with tool_denied _ _ => true | _ => false end.

Definition isDone (e : AgentEvent) : bool :=
  match e with done _ => true | _ => false end.

Definition isContextCleared (e : AgentEvent) : bool :=
  match e with context_cleared _ _ => true | _ => false end.

(** What the generator does, in order: it calls the model (with the value
    [ctx.iteration] has then), or it yields an event. *)
Inductive Step : Type :=
| ModelCall (iteration : nat) (prompt : string)
| Yield (e : AgentEvent).

Definition Trace : Type := list Step.

Fixpoint events (tr : Trace) : list AgentEvent :=
  match tr with
  | [] => []
  | ModelCall _ _ :: rest => events rest
  | Yield e :: rest => e :: events rest
  end.

Fixpoint modelCalls (tr : Trace) : list (nat * string) :=
  match tr with
  | [] => []
  | ModelCall i p :: rest => (i, p) :: modelCalls rest
  | Yield _ :: rest => modelCalls rest
  end.

(** The shapes of a trace. *)

Definition isDoneStep (s : Step) : bool :=
  match s with Yield e => isDone e | ModelCall _ _ => false end.

Definition isDeniedStep (s : Step) : bool :=
  match s with Yield e => isToolDenied e | ModelCall _ _ => false end.

Definition isModelCall (s : Step) : bool :=
  match s with ModelCall _ _ => true | Yield _ => false end.

(** A trace of a run that is still going on: no [done] and no
    [tool_denied] in it. *)
Definition ongoing (tr : Trace) : bool :=
  forallb (fun s => negb (isDoneStep s) && negb (isDeniedStep s)) tr.

(** A trace of a run that has returned: it ends with its only [done]; a
    [tool_denied], if there is one, comes just before that [done], whose
    answer is then empty. *)
Definition finished (tr : Trace) : Prop :=
  exists pre d,
    tr = pre ++ [Yield (done d)]
    /\ (ongoing pre = true
        \/ exists pre' toolName a,
             pre = pre' ++ [Yield (tool_denied toolName a)]
             /\ ongoing pre' = true
             /\ answer d = "").

(** The trace ends with a [done] that reports [i] iterations. *)
Definition endsAt (i : nat) (tr : Trace) : Prop :=
  exists pre d, tr = pre ++ [Yield (done d)] /\ iterations d = i.

(** ** The collaborators of the loop *)

(** A tool of the catalog, as the loop sees it. *)
Record StructuredTool : Type := mkTool {
  name : string;
  description : string
}.

(** The options [callLlm] receives; the abort [signal] belongs to the
    outside world. *)
Record LlmOptions : Type := mkLlmOptions {
  opt_model : string;
  opt_systemPrompt : string;
  opt_tools : option (list StructuredTool)
}.

(** A prior conversation turn: the user's message and the answer. *)
Definition HistoryTurn : Type := (string * string)%type.

(** [InMemoryChatHistory], through the two methods the loop calls. *)
Record InMemoryChatHistory : Type := mkHistory {
  hasMessages : bool;
  getRecentTurns : list HistoryTurn
}.

(** The functions and constants the loop imports and that are not among the
    sources, over the state [W] of the outside world (the model provider,
    the tools, the clock).  Each is a parameter of the development. *)
Record Collaborators (W : Type) : Type := mkCollaborators {
  (** model/llm.js *)
  callLlm : string -> LlmOptions -> W -> LlmResult * W;
  (** [Date.now()] *)
  dateNow : W -> Z * W;
  (** utils/ai-message.js *)
  extractTextContent : AIMessage -> string;
  hasToolCalls : AIMessage -> bool;
  (** [String.prototype.trim] *)
  trim : string -> string;
  (** utils/errors.js *)
  isContextOverflowError : string -> bool;
  formatUserFacingError : string -> string;
  (** utils/tokens.js *)
  estimateTokens : string -> Z;
  CONTEXT_THRESHOLD : Z;
  KEEP_TOOL_USES : nat;
  (** agent/prompts.js and utils/history-context.js *)
  buildIterationPrompt : string -> string -> string -> string;
  buildHistoryContext : list HistoryTurn -> string -> string;
  (** how the scratchpad formats a record in its two projections *)
  renderToolResult : Scratchpad.ToolCallRecord -> string;
  renderToolUsage : Scratchpad.ToolCallRecord -> string
}.
Arguments callLlm {W} _ _ _ _.
Arguments dateNow {W} _ _.
Arguments extractTextContent {W} _ _.
Arguments hasToolCalls {W} _ _.
Arguments trim {W} _ _.
Arguments isContextOverflowError {W} _ _.
Arguments formatUserFacingError {W} _ _.
Arguments estimateTokens {W} _ _.
Arguments CONTEXT_THRESHOLD {W} _.
Arguments KEEP_TOOL_USES {W} _.
Arguments buildIterationPrompt {W} _ _ _ _.
Arguments buildHistoryContext {W} _ _ _.
Arguments renderToolResult {W} _ _.
Arguments renderToolUsage {W} _ _.

(** [AgentToolExecutor.executeAll(response, ctx)]: the events the generator
    yields, each with the scratchpad and the world as they are when it is
    yielded, and the scratchpad and the world when the generator ends. *)
Definition ExecRun (W : Type) : Type :=
  (list (ToolExecutionEvent * (Scratchpad.t * W)) * (Scratchpad.t * W))%type.

Definition Executor (W : Type) : Type :=
  AIMessage -> RunContext -> W -> ExecRun W.

(** ** Agent *)

Definition DEFAULT_MODEL : string := "gpt-5.2".
Definition DEFAULT_MAX_ITERATIONS : Z := 10.
Definition MAX_OVERFLOW_RETRIES : nat := 2.
Definition OVERFLOW_KEEP_TOOL_USES : nat := 3.

Record AgentConfig : Type := mkAgentConfig {
  cfg_model : option string;
  cfg_maxIterations : option Z
}.

(** The fields of the agent the loop reads.  [maxIterations] is a count of
    iterations: an integer, of either sign; a budget that is a fraction or
    infinite is outside this model. *)
Record Agent (W : Type) : Type := mkAgent {
  model : string;
  maxIterations : Z;
  tools : list StructuredTool;
  toolExecutor : Executor W;
  systemPrompt : string
}.
Arguments model {W} _.
Arguments maxIterations {W} _.
Arguments tools {W} _.
Arguments toolExecutor {W} _.
Arguments systemPrompt {W} _.

(** The constructor; [executor] stands for [new AgentToolExecutor(...)]. *)
Definition newAgent {W : Type} (config : AgentConfig)
    (tools : list StructuredTool) (systemPrompt : string)
    (executor : Executor W) : Agent W :=
  mkAgent W (default DEFAULT_MODEL (cfg_model config))
          (default DEFAULT_MAX_ITERATIONS (cfg_maxIterations config))
          tools executor systemPrompt.

(** What the retry loop around the model call ends with: it breaks with a
    response, or the run has yielded its [done] and returned. *)
Inductive ModelLoopResult (W : Type) : Type :=
| Responded (tr : Trace) (response : Response) (usage : option TokenUsage)
    (overflowRetries : nat) (currentPrompt : string) (ctx : RunContext)
    (w : W)
| Failed (tr : Trace) (w : W).
Arguments Responded {W} _ _ _ _ _ _ _.
Arguments Failed {W} _ _.

(** What one pass of the main loop ends with: the run has returned, or the
    loop goes on with a new prompt. *)
Inductive PassResult (W : Type) : Type :=
| Return (tr : Trace) (w : W)
| Next (tr : Trace) (overflowRetries : nat) (currentPrompt : string)
    (sp : Scratchpad.t) (tc : TokenCounter.t) (w : W).
Arguments Return {W} _ _.
Arguments Next {W} _ _ _ _ _ _.

(** What the [for await] over the executor's events ends with. *)
Inductive BatchResult (W : Type) : Type :=
| Denied (tr : Trace) (sp : Scratchpad.t) (w : W)
| Completed (tr : Trace) (sp : Scratchpad.t) (w : W).
Arguments Denied {W} _ _ _.
Arguments Completed {W} _ _ _.

Definition prepend {W : Type} (tr : Trace) (r : Trace * W) : Trace * W :=
  (tr ++ fst r, snd r).

Definition prependLoop {W : Type} (tr : Trace) (r : ModelLoopResult W)
    : ModelLoopResult W :=
  match r with
  | Responded tr' response usage n p ctx w =>
      Responded (tr ++ tr') response usage n p ctx w
  | Failed tr' w => Failed (tr ++ tr') w
  end.

(** What the retry loop has done, whichever way it ended. *)
Definition loopTrace {W : Type} (r : ModelLoopResult W) : Trace :=
  match r with
  | Responded tr _ _ _ _ _ _ => tr
  | Failed tr _ => tr
  end.

(** What the loops have produced is well formed: the trace of a run that
    goes on is [ongoing], the trace of a run that has returned is
    [finished]. *)
Definition loopOk {W : Type} (r : ModelLoopResult W) : Prop :=
  match r with
  | Responded tr _ _ _ _ _ _ => ongoing tr = true
  | Failed tr _ => finished tr
  end.

Definition passOk {W : Type} (r : PassResult W) : Prop :=
  match r with
  | Return tr _ => finished tr
  | Next tr _ _ _ _ _ => ongoing tr = true
  end.

Section AgentRun.

Context {W : Type} (X : Collaborators W) (A : Agent W).

(** Modelled from the spec: [createRunContext(query)] (src/agent/run-context.ts
    is not among the sources): the query, iteration 0, the start time, a
    fresh scratchpad and a fresh token counter. *)
Definition createRunContext (q : string) (w : W) : RunContext * W :=
  let (now, w1) := dateNow X w in
  (mkRunContext q 0 now Scratchpad.empty TokenCounter.empty, w1).

(** The [done] event every exit of the loop builds from the context. *)
Definition doneEvent (text : string) (ctx : RunContext) (now : Z)
    : AgentEvent :=
  let totalTime := (now - startTime ctx)%Z in
  done (mkDone text
          (Scratchpad.getToolCallRecords (scratchpad ctx))
          (iteration ctx)
          totalTime
          (Some (TokenCounter.getUsage (tokenCounter ctx)))
          (Some (TokenCounter.getTokensPerSecond (tokenCounter ctx)
                   totalTime))).

Definition callModel (prompt : string) (w : W) : LlmResult * W :=
  callLlm X prompt
    (mkLlmOptions (model A) (systemPrompt A) (Some (tools A))) w.

Definition iterationPrompt (q : string) (sp : Scratchpad.t) : string :=
  buildIterationPrompt X q
    (Scratchpad.getToolResults (renderToolResult X) sp)
    (Scratchpad.formatToolUsageForPrompt (renderToolUsage X) sp).

(** The exit of the [catch] block: the call that failed, then [done] with
    the formatted error. *)
Definition failWith (errorMessage : string) (prompt : string)
    (ctx : RunContext) (w : W) : ModelLoopResult W :=
  let (now, w1) := dateNow X w in
  Failed [ModelCall (iteration ctx) prompt;
          Yield (doneEvent ("Error: " +:+ formatUserFacingError X errorMessage)
                   ctx now)] w1.

(** The [while (true)] around the model call. *)
Equations? callModelLoop (q : string) (overflowRetries : nat)
    (currentPrompt : string) (ctx : RunContext) (w : W)
    : ModelLoopResult W
    by wf (MAX_OVERFLOW_RETRIES - overflowRetries) lt :=
  callModelLoop q overflowRetries currentPrompt ctx w
    with callModel currentPrompt w := {
    | (Returns (response, usage), w1) :=
        Responded [ModelCall (iteration ctx) currentPrompt]
                  response usage 0 currentPrompt ctx w1;
    | (Throws errorMessage, w1)
        with inspect (isContextOverflowError X errorMessage
                      && (overflowRetries <? MAX_OVERFLOW_RETRIES)%nat) := {
        | exist _ true H
            with Scratchpad.clearOldestToolResults OVERFLOW_KEEP_TOOL_USES
                   (scratchpad ctx) := {
            | (clearedCount, sp) with (0 <? clearedCount)%nat := {
                | true :=
                    prependLoop
                      [ModelCall (iteration ctx) currentPrompt;
                       Yield (context_cleared clearedCount
                                OVERFLOW_KEEP_TOOL_USES)]
                      (callModelLoop q (S overflowRetries)
                         (iterationPrompt q sp) (withScratchpad sp ctx) w1);
                | false :=
                    failWith errorMessage currentPrompt
                      (withScratchpad sp ctx) w1 } };
        | exist _ false H :=
            failWith errorMessage currentPrompt ctx w1 } }.
Proof.
  apply andb_prop in H as [_ H]. apply Nat.ltb_lt in H.
  unfold MAX_OVERFLOW_RETRIES in *. lia.
Qed.

(** [handleDirectResponse] *)
Definition handleDirectResponse (responseText : string) (ctx : RunContext)
    (w : W) : Trace * W :=
  let (now, w1) := dateNow X w in
  ([Yield (doneEvent responseText ctx now)], w1).

(** [manageContextThreshold]: the events it yields and the scratchpad it
    leaves. *)
Definition manageContextThreshold (ctx : RunContext)
    : Trace * Scratchpad.t :=
  let fullToolResults :=
    Scratchpad.getToolResults (renderToolResult X) (scratchpad ctx) in
  let estimatedContextTokens :=
    estimateTokens X (systemPrompt A +:+ query ctx +:+ fullToolResults) in
  if (CONTEXT_THRESHOLD X <? estimatedContextTokens)%Z then
    let (clearedCount, sp) :=
      Scratchpad.clearOldestToolResults (KEEP_TOOL_USES X) (scratchpad ctx) in
    if (0 <? clearedCount)%nat then
      ([Yield (context_cleared clearedCount (KEEP_TOOL_USES X))], sp)
    else ([], sp)
  else ([], scratchpad ctx).

(** [buildInitialPrompt] *)
Definition buildInitialPrompt (q : string)
    (inMemoryChatHistory : option InMemoryChatHistory) : string :=
  match inMemoryChatHistory with
  | None => q
  | Some h =>
      if negb (hasMessages h) then q
      else
        let recentTurns := getRecentTurns h in
        if (length recentTurns =? 0)%nat then q
        else buildHistoryContext X recentTurns q
  end.

(** The [for await] over the events of the executor: each is yielded, and
    the first [tool_denied] stops the consumption. *)
Fixpoint forAwait (evs : list (ToolExecutionEvent * (Scratchpad.t * W)))
    (final : Scratchpad.t * W) : BatchResult W :=
  match evs with
  | [] => Completed [] (fst final) (snd final)
  | (e, st) :: rest =>
      if isToolDenied (ofToolEvent e) then
        Denied [Yield (ofToolEvent e)] (fst st) (snd st)
      else
        match forAwait rest final with
        | Denied tr sp w => Denied (Yield (ofToolEvent e) :: tr) sp w
        | Completed tr sp w => Completed (Yield (ofToolEvent e) :: tr) sp w
        end
  end.

(** [typeof response === 'string' ? response : extractTextContent(response)] *)
Definition responseTextOf (response : Response) : string :=
  match response with
  | RString s => s
  | RMessage m => extractTextContent X m
  end.

(** [typeof response !== 'string' && hasToolCalls(response)] *)
Definition carriesToolCalls (response : Response) : bool :=
  match response with
  | RString _ => false
  | RMessage m => hasToolCalls X m
  end.

(** Emit thinking if there are also tool calls (skip whitespace-only
    responses): the event yielded, if any, and the context it leaves. *)
Definition emitThinking (response : Response) (responseText : string)
    (ctx : RunContext) : Trace * RunContext :=
  if negb (String.eqb (trim X responseText) "") && carriesToolCalls response
  then
    let trimmedText := trim X responseText in
    ([Yield (thinking trimmedText)],
     withScratchpad (Scratchpad.addThinking trimmedText (scratchpad ctx)) ctx)
  else ([], ctx).

(** The body of the main loop after the model has responded. *)
Definition afterResponse (q : string) (tr : Trace) (response : Response)
    (usage : option TokenUsage) (overflowRetries : nat) (ctx : RunContext)
    (w : W) : PassResult W :=
  let ctx1 :=
    withTokenCounter (TokenCounter.add usage (tokenCounter ctx)) ctx in
  let responseText := responseTextOf response in
  let (trThinking, ctx2) := emitThinking response responseText ctx1 in
  match response with
  | RString _ =>
      let (trDone, w1) := handleDirectResponse responseText ctx2 w in
      Return (tr ++ trThinking ++ trDone) w1
  | RMessage m =>
      if negb (hasToolCalls X m) then
        let (trDone, w1) := handleDirectResponse responseText ctx2 w in
        Return (tr ++ trThinking ++ trDone) w1
      else
        match
          forAwait (fst (toolExecutor A m ctx2 w))
                   (snd (toolExecutor A m ctx2 w))
        with
        | Denied trTools sp w1 =>
            let (now, w2) := dateNow X w1 in
            Return (tr ++ trThinking ++ trTools
                    ++ [Yield (doneEvent "" (withScratchpad sp ctx2) now)]) w2
        | Completed trTools sp w1 =>
            let (trCleared, sp1) :=
              manageContextThreshold (withScratchpad sp ctx2) in
            Next (tr ++ trThinking ++ trTools ++ trCleared) overflowRetries
                 (iterationPrompt q sp1) sp1 (tokenCounter ctx2) w1
        end
  end.

(** One pass of the main loop, [ctx.iteration] already incremented. *)
Definition pass (q : string) (overflowRetries : nat) (currentPrompt : string)
    (ctx : RunContext) (w : W) : PassResult W :=
  match callModelLoop q overflowRetries currentPrompt ctx w with
  | Failed tr w1 => Return tr w1
  | Responded tr response usage retries _ ctx1 w1 =>
      afterResponse q tr response usage retries ctx1 w1
  end.

(** The answer of the exit below the loop. *)
Definition maximumIterationsMessage : string :=
  "Reached maximum iterations (" +:+ pretty (maxIterations A)
  +:+ "). I was unable to complete the research in the allotted steps.".

(** The exit below the loop: the iteration budget is spent. *)
Definition maxIterationsReached (ctx : RunContext) (w : W) : Trace * W :=
  let (now, w1) := dateNow X w in
  ([Yield (doneEvent maximumIterationsMessage ctx now)], w1).

(** [while (ctx.iteration < this.maxIterations)] and what follows it. *)
Equations? mainLoop (q : string) (overflowRetries : nat)
    (currentPrompt : string) (ctx : RunContext) (w : W) : Trace * W
    by wf (Z.to_nat (maxIterations A - Z.of_nat (iteration ctx))) lt :=
  mainLoop q overflowRetries currentPrompt ctx w
    with inspect (Z.of_nat (iteration ctx) <? maxIterations A)%Z := {
    | exist _ true H
        with pass q overflowRetries currentPrompt
               (withIteration (S (iteration ctx)) ctx) w := {
        | Return tr w1 := (tr, w1);
        | Next tr retries prompt sp tc w1 :=
            prepend tr
              (mainLoop q retries prompt
                 (withTokenCounter tc
                    (withScratchpad sp
                       (withIteration (S (iteration ctx)) ctx))) w1) };
    | exist _ false H := maxIterationsReached ctx w }.
Proof.
  apply Z.ltb_lt in H. simpl. lia.
Qed.

(** [Agent.run(query, inMemoryHistory)], consumed to its end. *)
Definition run (q : string) (inMemoryHistory : option InMemoryChatHistory)
    (w : W) : Trace * W :=
  let (startTime0, w1) := dateNow X w in
  if (length (tools A) =? 0)%nat then
    let (now, w2) := dateNow X w1 in
    ([Yield (done (mkDone
                     "No tools available. Please check your API key configuration."
                     [] 0 (now - startTime0)%Z None None))], w2)
  else
    let (ctx, w2) := createRunContext q w1 in
    let currentPrompt := buildInitialPrompt q inMemoryHistory in
    mainLoop q 0 currentPrompt ctx w2.

(** The model always answers with tool calls, and their execution is never
    denied. *)
Definition alwaysRequestsTools : Prop :=
  forall prompt w,
  exists m usage w1,
    callModel prompt w = (Returns (RMessage m, usage), w1)
    /\ hasToolCalls X m = true
    /\ forall ctx w2,
         Forall (fun e => isToolDenied (ofToolEvent (fst e)) = false)
                (fst (toolExecutor A m ctx w2)).

End AgentRun.

(** What a pass has done, whichever way it ended. *)
Definition passTrace {W : Type} (r : PassResult W) : Trace :=
  match r with
  | Return tr _ => tr
  | Next tr _ _ _ _ _ => tr
  end.

(** What a consumer of the events can rely on, step by step. *)

Section AgentSteps.

Context {W : Type} (X : Collaborators W) (A : Agent W).

(** A step of the pass whose iteration counter is [i]: a model call or a
    [done] carries [i]; a [thinking] message is not empty; a
    [context_cleared] reports at least one discarded record and one of the
    two keep-counts. *)
Definition stepAt (i : nat) (s : Step) : Prop :=
  match s with
  | ModelCall j _ => j = i
  | Yield (thinking m) => m <> ""
  | Yield (context_cleared c k) =>
      0 < c /\ (k = OVERFLOW_KEEP_TOOL_USES \/ k = KEEP_TOOL_USES X)
  | Yield (done d) => iterations d = i
  | Yield _ => True
  end.

(** A step of a loop entered with the iteration counter at [lo]: the
    counter of a model call lies in [lo+1 .. maxIterations]; that of a
    [done] is [lo] itself when the loop is left at once, and in
    [lo+1 .. maxIterations] otherwise. *)
Definition stepWithin (lo : nat) (s : Step) : Prop :=
  match s with
  | ModelCall j _ => lo < j /\ (Z.of_nat j <= maxIterations A)%Z
  | Yield (thinking m) => m <> ""
  | Yield (context_cleared c k) =>
      0 < c /\ (k = OVERFLOW_KEEP_TOOL_USES \/ k = KEEP_TOOL_USES X)
  | Yield (done d) =>
      iterations d = lo
      \/ (lo < iterations d /\ (Z.of_nat (iterations d) <= maxIterations A)%Z)
  | Yield _ => True
  end.

End AgentSteps.

(** ** The loop over any pruning

    src/agent/scratchpad.ts is not among the sources, and the loop depends
    on how the scratchpad prunes only through what
    [ctx.scratchpad.clearOldestToolResults(keepCount)] returns and leaves:
    the number of discarded payloads and the pruned scratchpad.  Here that
    method is a parameter, [prune]; the definitions are those of
    [Agent.run] above, with [prune] where they have
    [Scratchpad.clearOldestToolResults]. *)

Section AnyPruning.

Context {W : Type} (X : Collaborators W) (A : Agent W)
  (prune : nat -> Scratchpad.t -> nat * Scratchpad.t).

(** The [while (true)] around the model call. *)
Equations? callModelLoopBy (q : string) (overflowRetries : nat)
    (currentPrompt : string) (ctx : RunContext) (w : W)
    : ModelLoopResult W
    by wf (MAX_OVERFLOW_RETRIES - overflowRetries) lt :=
  callModelLoopBy q overflowRetries currentPrompt ctx w
    with callModel X A currentPrompt w := {
    | (Returns (response, usage), w1) :=
        Responded [ModelCall (iteration ctx) currentPrompt]
                  response usage 0 currentPrompt ctx w1;
    | (Throws errorMessage, w1)
        with inspect (isContextOverflowError X errorMessage
                      && (overflowRetries <? MAX_OVERFLOW_RETRIES)%nat) := {
        | exist _ true H
            with prune OVERFLOW_KEEP_TOOL_USES (scratchpad ctx) := {
            | (clearedCount, sp) with (0 <? clearedCount)%nat := {
                | true :=
                    prependLoop
                      [ModelCall (iteration ctx) currentPrompt;
                       Yield (context_cleared clearedCount
                                OVERFLOW_KEEP_TOOL_USES)]
                      (callModelLoopBy q (S overflowRetries)
                         (iterationPrompt X q sp) (withScratchpad sp ctx) w1);
                | false :=
                    failWith X errorMessage currentPrompt
                      (withScratchpad sp ctx) w1 } };
        | exist _ false H :=
            failWith X errorMessage currentPrompt ctx w1 } }.
Proof.
  apply andb_prop in H as [_ H]. apply Nat.ltb_lt in H.
  unfold MAX_OVERFLOW_RETRIES in *. lia.
Qed.

(** [manageContextThreshold] *)
Definition manageContextThresholdBy (ctx : RunContext)
    : Trace * Scratchpad.t :=
  let fullToolResults :=
    Scratchpad.getToolResults (renderToolResult X) (scratchpad ctx) in
  let estimatedContextTokens :=
    estimateTokens X (systemPrompt A +:+ query ctx +:+ fullToolResults) in
  if (CONTEXT_THRESHOLD X <? estimatedContextTokens)%Z then
    let (clearedCount, sp) := prune (KEEP_TOOL_USES X) (scratchpad ctx) in
    if (0 <? clearedCount)%nat then
      ([Yield (context_cleared clearedCount (KEEP_TOOL_USES X))], sp)
    else ([], sp)
  else ([], scratchpad ctx).

(** The body of the main loop after the model has responded. *)
Definition afterResponseBy (q : string) (tr : Trace) (response : Response)
    (usage : option TokenUsage) (overflowRetries : nat) (ctx : RunContext)
    (w : W) : PassResult W :=
  let ctx1 :=
    withTokenCounter (TokenCounter.add usage (tokenCounter ctx)) ctx in
  let responseText := responseTextOf X response in
  let (trThinking, ctx2) := emitThinking X response responseText ctx1 in
  match response with
  | RString _ =>
      let (trDone, w1) := handleDirectResponse X responseText ctx2 w in
      Return (tr ++ trThinking ++ trDone) w1
  | RMessage m =>
      if negb (hasToolCalls X m) then
        let (trDone, w1) := handleDirectResponse X responseText ctx2 w in
        Return (tr ++ trThinking ++ trDone) w1
      else
        match
          forAwait (fst (toolExecutor A m ctx2 w))
                   (snd (toolExecutor A m ctx2 w))
        with
        | Denied trTools sp w1 =>
            let (now, w2) := dateNow X w1 in
            Return (tr ++ trThinking ++ trTools
                    ++ [Yield (doneEvent "" (withScratchpad sp ctx2) now)]) w2
        | Completed trTools sp w1 =>
            let (trCleared, sp1) :=
              manageContextThresholdBy (withScratchpad sp ctx2) in
            Next (tr ++ trThinking ++ trTools ++ trCleared) overflowRetries
                 (iterationPrompt X q sp1) sp1 (tokenCounter ctx2) w1
        end
  end.

(** One pass of the main loop, [ctx.iteration] already incremented. *)
Definition passBy (q : string) (overflowRetries : nat)
    (currentPrompt : string) (ctx : RunContext) (w : W) : PassResult W :=
  match callModelLoopBy q overflowRetries currentPrompt ctx w with
  | Failed tr w1 => Return tr w1
  | Responded tr response usage retries _ ctx1 w1 =>
      afterResponseBy q tr response usage retries ctx1 w1
  end.

(** [while (ctx.iteration < this.maxIterations)] and what follows it. *)
Equations? mainLoopBy (q : string) (overflowRetries : nat)
    (currentPrompt : string) (ctx : RunContext) (w : W) : Trace * W
    by wf (Z.to_nat (maxIterations A - Z.of_nat (iteration ctx))) lt :=
  mainLoopBy q overflowRetries currentPrompt ctx w
    with inspect (Z.of_nat (iteration ctx) <? maxIterations A)%Z := {
    | exist _ true H
        with passBy q overflowRetries currentPrompt
               (withIteration (S (iteration ctx)) ctx) w := {
        | Return tr w1 := (tr, w1);
        | Next tr retries prompt sp tc w1 :=
            prepend tr
              (mainLoopBy q retries prompt
                 (withTokenCounter tc
                    (withScratchpad sp
                       (withIteration (S (iteration ctx)) ctx))) w1) };
    | exist _ false H := maxIterationsReached X A ctx w }.
Proof.
  apply Z.ltb_lt in H. simpl. lia.
Qed.

(** [Agent.run(query, inMemoryHistory)], consumed to its end. *)
Definition runBy (q : string) (inMemoryHistory : option InMemoryChatHistory)
    (w : W) : Trace * W :=
  let (startTime0, w1) := dateNow X w in
  if (length (tools A) =? 0)%nat then
    let (now, w2) := dateNow X w1 in
    ([Yield (done (mkDone
                     "No tools available. Please check your API key configuration."
                     [] 0 (now - startTime0)%Z None None))], w2)
  else
    let (ctx, w2) := createRunContext X q w1 in
    let currentPrompt := buildInitialPrompt X q inMemoryHistory in
    mainLoopBy q 0 currentPrompt ctx w2.

End AnyPruning.

(** ** ToolExecutor *)

Module ToolExecutor.

(** Modelled from the spec: the answers of the approval callback,
    [approved | denied | remember-for-session]. *)
Inductive ApprovalDecision : Type :=
| approved
| denied
| remember_for_session.

(** Modelled from the spec: a tool of the registry, [name -> invocable(args)
    -> result | throws], with its [requiresApproval] flag.  A cancelled call
    is one whose invocation throws. *)
Record RegisteredTool (W : Type) : Type := mkRegistered {
  requiresApproval : bool;
  invoke : JsObject -> W -> Outcome string * W
}.
Arguments requiresApproval {W} _.
Arguments invoke {W} _ _ _.

(** Modelled from the spec: what the executor is built from (the
    AgentToolExecutor class, src/agent/tool-executor.ts, is not among the
    sources): the tool registry and the optional approval callback. *)
Record Config (W : Type) : Type := mkConfig {
  toolMap : gmap string (RegisteredTool W);
  requestToolApproval :
    option (string -> JsObject -> W -> ApprovalDecision * W)
}.
Arguments toolMap {W} _.
Arguments requestToolApproval {W} _.

(** Modelled from the spec: the world of a run with this executor: the set
    of tool names approved for the remainder of the session, shared between
    runs, and the rest of the outside world. *)
Record World (W : Type) : Type := mkWorld {
  sessionApprovedTools : gset string;
  outside : W
}.
Arguments mkWorld {W} _ _.
Arguments sessionApprovedTools {W} _.
Arguments outside {W} _.

Section Executor.

Context {W : Type} (cfg : Config W).

(** Modelled from the spec: step 2 of the executor's contract.  A tool that
    requires approval runs only if it is session-pre-approved or approved by
    the callback for this call; without a callback it is denied. *)
Definition approve (toolName : string) (t : RegisteredTool W)
    (a : JsObject) (w : World W) : bool * World W :=
  if negb (requiresApproval t) then (true, w)
  else if bool_decide (toolName ∈ sessionApprovedTools w) then (true, w)
  else
    match requestToolApproval cfg with
    | None => (false, w)
    | Some ask =>
        match ask toolName a (outside w) with
        | (approved, o) => (true, mkWorld (sessionApprovedTools w) o)
        | (denied, o) => (false, mkWorld (sessionApprovedTools w) o)
        | (remember_for_session, o) =>
            (true, mkWorld ({[toolName]} ∪ sessionApprovedTools w) o)
        end
    end.

(** Modelled from the spec: steps 1 to 4 of the executor's contract, for
    each call in the order received: an unregistered name is recorded as a
    failure and the batch goes on; a denial yields [tool_denied] and stops
    the whole batch; otherwise the tool is invoked, its outcome recorded
    and a progress event yielded. *)
Fixpoint executeCalls (calls : list ToolCall) (sp : Scratchpad.t)
    (w : World W) : ExecRun (World W) :=
  match calls with
  | [] => ([], (sp, w))
  | tc :: rest =>
      match toolMap cfg !! tc_name tc with
      | None =>
          let o := Scratchpad.Failure "tool not found" in
          let sp1 := Scratchpad.addToolResult (tc_name tc) (tc_args tc) o sp in
          let r := executeCalls rest sp1 w in
          ((ToolProgress (tc_name tc) o, (sp1, w)) :: fst r, snd r)
      | Some t =>
          match approve (tc_name tc) t (tc_args tc) w with
          | (false, w1) =>
              ([(ToolDeniedBy (tc_name tc) (tc_args tc), (sp, w1))], (sp, w1))
          | (true, w1) =>
              let res := invoke t (tc_args tc) (outside w1) in
              let o :=
                match fst res with
                | Returns payload => Scratchpad.Success payload
                | Throws message => Scratchpad.Failure message
                end in
              let w2 := mkWorld (sessionApprovedTools w1) (snd res) in
              let sp1 :=
                Scratchpad.addToolResult (tc_name tc) (tc_args tc) o sp in
              let r := executeCalls rest sp1 w2 in
              ((ToolProgress (tc_name tc) o, (sp1, w2)) :: fst r, snd r)
          end
      end
  end.

(** Modelled from the spec: [executeAll(response, ctx)] runs the tool calls
    of the response against the scratchpad of the run. *)
Definition executeAll : Executor (World W) :=
  fun response ctx w => executeCalls (tool_calls response) (scratchpad ctx) w.

End Executor.

End ToolExecutor.

(** ** financial_search *)

Module FinancialSearch.

#[local] Instance outcome_ret : MRet Outcome := fun _ a => Returns a.
#[local] Instance outcome_bind : MBind Outcome := fun _ _ f m =>
  match m with
  | Returns a => f a
  | Throws e => Throws e
  end.

(** [s.split(sep)] for a one-character separator. *)
Fixpoint split (sep : ascii) (s : string) : list string :=
  match s with
  | EmptyString => [EmptyString]
  | String c rest =>
      if Ascii.eqb c sep then EmptyString :: split sep rest
      else
        match split sep rest with
        | [] => [String c EmptyString]
        | w :: ws => String c w :: ws
        end
  end.

(** Format snake_case tool name to Title Case for progress messages.
    [capitalize] is the callback of the [map],
    [w => w.charAt(0).toUpperCase() + w.slice(1)], whose string methods
    are the engine's. *)
Definition formatSubToolName (capitalize : string -> string) (n : string)
    : string :=
  String.concat " " (map capitalize (split "_"%char n)).

(** A property name that is not empty and does not begin with an
    underscore, as the names of the finance tools are ([get_stock_price],
    [get_key_ratios], ...). *)
Definition ordinaryName (n : string) : bool :=
  match n with
  | EmptyString => false
  | String c _ => negb (Ascii.eqb c "_")
  end.

(** [o[k] = v] on an object, for a key other than [__proto__]: an own
    property keeps its place, a new one goes last. *)
Fixpoint setField (k : string) (v : JsValue) (o : JsObject) : JsObject :=
  match o with
  | [] => [(k, v)]
  | (k', v') :: rest =>
      if String.eqb k k' then (k, v) :: rest
      else (k', v') :: setField k v rest
  end.

(** A finance tool: its name and what [tool.invoke(args)] resolves to or
    throws. *)
Record FinanceTool : Type := mkFinanceTool {
  ft_name : string;
  ft_invoke : JsObject -> Outcome JsValue
}.

(** What one sub-tool call is turned into; [error] is [null] or a message. *)
Record SubResult : Type := mkSubResult {
  tool : string;
  args : JsObject;
  data : JsValue;
  sourceUrls : JsValue;
  error : option string
}.

Section Func.

(** The tools imported from the sibling modules, the router call
    [callLlm(input.query, {model, systemPrompt: buildRouterPrompt(), tools:
    FINANCE_TOOLS})], the JSON primitives and [formatToolResult] of
    tools/types.js are parameters, and so is what the engine decides: the
    capitalisation of a word, the message of a TypeError and the printing
    of a number. *)
Context {W : Type}
  (FINANCE_TOOLS : list FinanceTool)
  (callRouter : string -> string -> W -> Outcome Response * W)
  (JSON_stringify : JsValue -> string)
  (JSON_parse : string -> Outcome JsValue)
  (formatToolResult : JsValue -> list JsValue -> string)
  (capitalize : string -> string)
  (typeErrorMessage : string -> JsValue -> string)
  (numberToString : Z -> string).

(** [new Map(FINANCE_TOOLS.map(t => [t.name, t]))]: a later entry replaces
    an earlier one of the same name. *)
Definition FINANCE_TOOL_MAP : gmap string FinanceTool :=
  list_to_map (rev (map (fun t => (ft_name t, t)) FINANCE_TOOLS)).

(** The body of the [try] block. *)
Definition invokeSubTool (tc : ToolCall) : Outcome (JsValue * JsValue) :=
  t ← match FINANCE_TOOL_MAP !! tc_name tc with
      | None => Throws ("Tool '" +:+ tc_name tc +:+ "' not found")
      | Some t => Returns t
      end;
  rawResult ← ft_invoke t (tc_args tc);
  let result :=
    match rawResult with
    | JStr s => s
    | _ => JSON_stringify rawResult
    end in
  parsed ← JSON_parse result;
  d ← getProp typeErrorMessage "data" parsed;
  urls ← getProp typeErrorMessage "sourceUrls" parsed;
  mret (d, orElse urls (JArr [])).

(** The [try]/[catch] around one tool call. *)
Definition runSubTool (tc : ToolCall) : SubResult :=
  match invokeSubTool tc with
  | Returns (d, urls) => mkSubResult (tc_name tc) (tc_args tc) d urls None
  | Throws message =>
      mkSubResult (tc_name tc) (tc_args tc) JNull (JArr []) (Some message)
  end.

(** [r.error === null] *)
Definition succeeded (r : SubResult) : bool :=
  match error r with None => true | Some _ => false end.

(** Use tool name as key, or tool_ticker for multiple calls to same tool. *)
Definition resultKey (r : SubResult) : string :=
  let ticker := getField "ticker" (args r) in
  if truthy ticker then tool r +:+ "_" +:+ toString numberToString ticker
  else tool r.

Definition errorEntry (r : SubResult) : JsValue :=
  JObj [("tool", JStr (tool r));
        ("args", JObj (args r));
        ("error", match error r with Some e => JStr e | None => JNull end)].

(** [combinedData[key] = result.data] *)
Definition addData (o : JsObject) (r : SubResult) : JsObject :=
  setField (resultKey r) (data r) o.

(** Step 4: the combined data structure. *)
Definition combineResults (results : list SubResult) : JsObject :=
  let successfulResults := List.filter succeeded results in
  let failedResults := List.filter (fun r => negb (succeeded r)) results in
  let combinedData := fold_left addData successfulResults [] in
  if (0 <? length failedResults)%nat then
    setField "_errors" (JArr (map errorEntry failedResults)) combinedData
  else combinedData.

Definition allUrls (results : list SubResult) : list JsValue :=
  concat (map (fun r => flatten1 (sourceUrls r)) results).

(** [func] of the financial_search tool: what it resolves to or throws,
    and the messages it passes to [onProgress]. *)
Definition func (model : string) (input_query : string) (w : W)
    : Outcome string * list string * W :=
  match callRouter model input_query w with
  | (Throws message, w1) => (Throws message, ["Searching..."], w1)
  | (Returns response, w1) =>
      let toolCalls :=
        match response with
        | RString _ => []
        | RMessage aiMessage => tool_calls aiMessage
        end in
      if (length toolCalls =? 0)%nat then
        (Returns (formatToolResult
                    (JObj [("error", JStr "No tools selected for query")]) []),
         ["Searching..."], w1)
      else
        let toolNames :=
          map (fun tc => formatSubToolName capitalize (tc_name tc))
              toolCalls in
        let results := map runSubTool toolCalls in
        (Returns (formatToolResult (JObj (combineResults results))
                    (allUrls results)),
         ["Searching...";
          "Fetching from " +:+ String.concat ", " toolNames +:+ "..."],
         w1)
  end.

End Func.

End FinancialSearch.

(** The character [c] occurs in [s]: [s.includes(c)]. *)
Fixpoint includesChar (c : ascii) (s : string) : bool :=
  match s with
  | EmptyString => false
  | String c' rest => Ascii.eqb c c' || includesChar c rest
  end.

(** The length of [words.join(sep)] for a one-character separator. *)
Fixpoint joinedLength (words : list string) : nat :=
  match words with
  | [] => 0
  | [w] => String.length w
  | w :: rest => String.length w + 1 + joinedLength rest
  end.

(** [Object.keys(o)] *)
Definition keys (o : JsObject) : list string := map fst o.

(** ** get_stock_price *)

Module StockPrice.

#[local] Instance stock_ret : MRet Outcome := fun _ a => Returns a.
#[local] Instance stock_bind : MBind Outcome := fun _ _ f m =>
  match m with
  | Returns a => f a
  | Throws e => Throws e
  end.

(** [v ?? d] *)
Definition nullish (v d : JsValue) : JsValue :=
  match v with
  | JUndefined | JNull => d
  | _ => v
  end.

(** The fields of a Yahoo quote the tool reads; a field the quote lacks is
    [undefined]. *)
Record Quote : Type := mkQuote {
  regularMarketPrice : JsValue;
  regularMarketChange : JsValue;
  regularMarketChangePercent : JsValue;
  marketCap : JsValue;
  sharesOutstanding : JsValue;
  currency : JsValue;
  marketState : JsValue;
  regularMarketTime : JsValue;
  regularMarketVolume : JsValue
}.

(** The three variables of [process.env] the fallback looks at. *)
Record Env : Type := mkEnv {
  EXASEARCH_API_KEY : option string;
  PERPLEXITY_API_KEY : option string;
  TAVILY_API_KEY : option string
}.

(** [if (process.env.KEY)]: set, and not the empty string. *)
Definition configured (key : option string) : bool :=
  match key with
  | Some k => negb (String.eqb k "")
  | None => false
  end.

(** The search tools of search/index.js, through their [invoke]. *)
Record Providers : Type := mkProviders {
  exaSearch : JsObject -> Outcome JsValue;
  perplexitySearch : JsObject -> Outcome JsValue;
  tavilySearch : JsObject -> Outcome JsValue
}.

Inductive LogLevel : Type := warn | info | error.

Section Tool.

(** [yahooFinance.quote], the environment, the search providers, the JSON
    primitives, [formatToolResult] of tools/types.js, the two string
    methods and the message of the engine's TypeError are parameters. *)
Context
  (quote : string -> Outcome Quote)
  (env : Env)
  (providers : Providers)
  (JSON_stringify : JsValue -> string)
  (JSON_parse : string -> Outcome JsValue)
  (formatToolResult : JsValue -> JsValue -> string)
  (trim toUpperCase : string -> string)
  (typeErrorMessage : string -> JsValue -> string).

(** [parseToolResult]: what does not parse is kept as the data. *)
Definition parseToolResult (rawResult : string) : JsValue :=
  match JSON_parse rawResult with
  | Returns parsed => parsed
  | Throws _ => JObj [("data", JStr rawResult)]
  end.

(** The body of each of the three [if] blocks of [fallbackViaWebSearch]:
    the data and the source URLs of one provider's answer. *)
Definition searchWith (search : JsObject -> Outcome JsValue)
    (query : string) : Outcome (JsValue * JsValue) :=
  result ← search [("query", JStr query)];
  let parsed :=
    parseToolResult (match result with
                     | JStr s => s
                     | _ => JSON_stringify result
                     end) in
  d ← getProp typeErrorMessage "data" parsed;
  urls ← getProp typeErrorMessage "sourceUrls" parsed;
  mret (d, orElse urls (JArr [])).

(** [fallbackViaWebSearch] *)
Definition fallbackViaWebSearch (ticker : string)
    : Outcome (JsValue * JsValue) :=
  let query := ticker +:+ " stock price today" in
  if configured (EXASEARCH_API_KEY env) then
    searchWith (exaSearch providers) query
  else if configured (PERPLEXITY_API_KEY env) then
    searchWith (perplexitySearch providers) query
  else if configured (TAVILY_API_KEY env) then
    searchWith (tavilySearch providers) query
  else Throws "No web search provider configured for fallback".

(** The payload of the Yahoo path. *)
Definition yahooPayload (ticker : string) (q : Quote) : JsObject :=
  [("ticker", JStr ticker);
   ("provider", JStr "yahoo_finance");
   ("regular_market_price", nullish (regularMarketPrice q) JNull);
   ("regular_market_change", nullish (regularMarketChange q) JNull);
   ("regular_market_change_percent",
    nullish (regularMarketChangePercent q) JNull);
   ("market_cap", nullish (marketCap q) JNull);
   ("shares_outstanding", nullish (sharesOutstanding q) JNull);
   ("currency", nullish (currency q) JNull);
   ("market_state", nullish (marketState q) JNull);
   ("regular_market_time", nullish (regularMarketTime q) JNull);
   ("regular_market_volume", nullish (regularMarketVolume q) JNull)].

(** The payload of the fallback path. *)
Definition fallbackPayload (ticker : string) (d : JsValue) : JsObject :=
  [("ticker", JStr ticker);
   ("provider", JStr "web_search_fallback");
   ("query", JStr (ticker +:+ " stock price today"));
   ("result", d)].

(** [func] of get_stock_price: what it resolves to or throws, and what it
    logs. *)
Definition func (input_ticker : string)
    : Outcome string * list (LogLevel * string) :=
  let ticker := toUpperCase (trim input_ticker) in
  match quote ticker with
  | Returns q =>
      let sourceUrl := "https://finance.yahoo.com/quote/" +:+ ticker in
      (Returns (formatToolResult (JObj (yahooPayload ticker q))
                  (JArr [JStr sourceUrl])), [])
  | Throws yahooMessage =>
      let warned :=
        (warn, "[Stock Price] Yahoo Finance failed for " +:+ ticker +:+ ": "
               +:+ yahooMessage) in
      match fallbackViaWebSearch ticker with
      | Returns (d, urls) =>
          (Returns (formatToolResult (JObj (fallbackPayload ticker d)) urls),
           [warned;
            (info, "[Stock Price] using web search fallback for "
                   +:+ ticker)])
      | Throws fallbackMessage =>
          (Throws ("Failed to fetch current stock price for " +:+ ticker
                   +:+ ". Yahoo Finance error: " +:+ yahooMessage
                   +:+ ". Fallback error: " +:+ fallbackMessage),
           [warned;
            (error, "[Stock Price] fallback failed for " +:+ ticker +:+ ": "
                    +:+ fallbackMessage)])
      end
  end.

(** get_stock_price as financial_search invokes it.  The schema wants a
    string as [ticker]; [schemaError] is the message of what [invoke]
    throws otherwise. *)
Definition getStockPrice (schemaError : string)
    : FinancialSearch.FinanceTool :=
  FinancialSearch.mkFinanceTool "get_stock_price"
    (fun input =>
       match getField "ticker" input with
       | JStr t =>
           match fst (func t) with
           | Returns text => Returns (JStr text)
           | Throws message => Throws message
           end
       | _ => Throws schemaError
       end).

End Tool.

End StockPrice.

(** ** A concrete world

    A scripted model, a clock that advances by one millisecond per reading,
    and a registry of two tools, one of which requires approval.  The
    examples below run the loop in this world. *)

Module Demo.

Import ToolExecutor.

Record Outside : Type := mkOutside {
  script : list LlmResult;
  clock : Z
}.

Definition World : Type := ToolExecutor.World Outside.

Definition tick (w : World) : Z * World :=
  (clock (outside w),
   mkWorld (sessionApprovedTools w)
     (mkOutside (script (outside w)) (clock (outside w) + 1))).

(** The model answers with the next entry of its script, and with an empty
    text once the script is exhausted. *)
Definition scripted (prompt : string) (o : LlmOptions) (w : World)
    : LlmResult * World :=
  match script (outside w) with
  | [] => (Returns (RString "", None), w)
  | r :: rest =>
      (r, mkWorld (sessionApprovedTools w)
            (mkOutside rest (clock (outside w))))
  end.

Definition priceCall : ToolCall := mkToolCall "get_price" [] None.
Definition writeCall : ToolCall := mkToolCall "write_file" [] None.

(** A model that always requests the harmless tool. *)
Definition alwaysCallsTool (prompt : string) (o : LlmOptions) (w : World)
    : LlmResult * World :=
  (Returns (RMessage (mkAIMessage "" [priceCall]), None), w).

Definition overflowMessage : string := "context_length_exceeded".

Definition isSpace (c : ascii) : bool :=
  let n := Ascii.nat_of_ascii c in
  ((n =? 32) || ((9 <=? n) && (n <=? 13)))%nat.

Fixpoint trimStart (s : string) : string :=
  match s with
  | String c rest => if isSpace c then trimStart rest else s
  | EmptyString => EmptyString
  end.

Fixpoint trimEnd (s : string) : string :=
  match s with
  | EmptyString => EmptyString
  | String c rest =>
      match trimEnd rest with
      | EmptyString => if isSpace c then EmptyString else String c EmptyString
      | r => String c r
      end
  end.

Definition renderRecord (r : Scratchpad.ToolCallRecord) : string :=
  match Scratchpad.outcome r with
  | Scratchpad.Success payload => Scratchpad.tool r +:+ ": " +:+ payload +:+ ";"
  | Scratchpad.Failure d => Scratchpad.tool r +:+ " failed: " +:+ d +:+ ";"
  end.

Definition collaborators
    (llm : string -> LlmOptions -> World -> LlmResult * World)
    (threshold : Z) : Collaborators World :=
  mkCollaborators World
    llm tick content
    (fun m => negb (length (tool_calls m) =? 0)%nat)
    (fun s => trimEnd (trimStart s))
    (String.eqb overflowMessage)
    (fun e => e)
    (fun s => Z.of_nat (String.length s))
    threshold
    5
    (fun q results usage => q +:+ " | " +:+ results +:+ " | " +:+ usage)
    (fun turns q => q)
    renderRecord
    (fun r => Scratchpad.tool r +:+ ";").

Definition registry : gmap string (RegisteredTool Outside) :=
  <["get_price" := mkRegistered Outside false
                     (fun _ o => (Returns "42", o))]>
  (<["write_file" := mkRegistered Outside true
                       (fun _ o => (Returns "written", o))]> ∅).

(** No approval callback is provided. *)
Definition executorConfig : Config Outside := mkConfig Outside registry None.

Definition catalog : list StructuredTool :=
  [mkTool "get_price" "current price"; mkTool "write_file" "writes a file"].

Definition agent (maxIterations : Z) (tools : list StructuredTool)
    : Agent World :=
  newAgent (mkAgentConfig None (Some maxIterations)) tools "system"
           (executeAll executorConfig).

Definition world (s : list LlmResult) : World :=
  mkWorld ∅ (mkOutside s 1000).

Definition overflow : LlmResult := Throws overflowMessage.

Definition requests (calls : list ToolCall) : LlmResult :=
  Returns (RMessage (mkAIMessage "" calls), None).

Definition answers (text : string) : LlmResult :=
  Returns (RMessage (mkAIMessage text []), Some (mkTokenUsage 7 3 10)).

(** A scratchpad holding five records with their full payloads. *)
Definition fiveRecords : Scratchpad.t :=
  map (fun n => Scratchpad.ToolUse
                  (Scratchpad.mkRecord "get_price" [] (Scratchpad.Success n))
                  true)
      ["1"; "2"; "3"; "4"; "5"].

(** A scratchpad holding six records with their full payloads. *)
Definition sixRecords : Scratchpad.t :=
  fiveRecords
  ++ [Scratchpad.ToolUse
        (Scratchpad.mkRecord "get_price" [] (Scratchpad.Success "6")) true].

(** A scratchpad that prunes gradually: a call discards the oldest retained
    payload, and only that one, as long as more than [keepCount] payloads
    are retained. *)
Definition pruneGradually (keepCount : nat) (sp : Scratchpad.t)
    : nat * Scratchpad.t :=
  if (keepCount <? length (Scratchpad.retainedRecords sp))%nat
  then (1, Scratchpad.discardOldest 1 sp)
  else (0, sp).

(** The context of a first pass over a given scratchpad. *)
Definition contextOver (sp : Scratchpad.t) : RunContext :=
  mkRunContext "q" 1 1000 sp TokenCounter.empty.

(** Three finance tools are called: one answers, one is not registered,
    one throws. *)
Definition quote : JsValue :=
  JObj [("data", JObj [("price", JNum 101)]);
        ("sourceUrls", JArr [JStr "https://finance.yahoo.com/quote/AAPL"])].

Definition parse (s : string) : Outcome JsValue :=
  if String.eqb s "quote" then Returns quote
  else Throws "Unexpected token".

Definition financeTools : list FinancialSearch.FinanceTool :=
  [FinancialSearch.mkFinanceTool "get_stock_price"
     (fun _ => Returns (JStr "quote"));
   FinancialSearch.mkFinanceTool "get_key_ratios"
     (fun _ => Throws "rate limited")].

Definition apple : JsObject := [("ticker", JStr "AAPL")].

Definition stockPriceCall : ToolCall := mkToolCall "get_stock_price" apple None.
Definition unknownCall : ToolCall := mkToolCall "get_unknown" [] None.
Definition keyRatiosCall : ToolCall := mkToolCall "get_key_ratios" apple None.

Definition financeCalls : list ToolCall :=
  [stockPriceCall; unknownCall; keyRatiosCall].

Definition router (model q : string) (w : unit) : Outcome Response * unit :=
  (Returns (RMessage (mkAIMessage "" financeCalls)), w).

Definition showResult (d : JsValue) (urls : list JsValue) : string :=
  "result".

(** The engine of the examples: ASCII capitalisation, the wording V8 gives
    a TypeError, numbers printed in full. *)
Definition upperChar (c : ascii) : ascii :=
  let n := Ascii.nat_of_ascii c in
  if ((97 <=? n) && (n <=? 122))%nat then Ascii.ascii_of_nat (n - 32) else c.

Definition capitalize (w : string) : string :=
  match w with
  | EmptyString => EmptyString
  | String c rest => String (upperChar c) rest
  end.

Definition printNumber (n : Z) : string := pretty n.

Definition typeError (k : string) (v : JsValue) : string :=
  "Cannot read properties of " +:+ toString printNumber v
  +:+ " (reading '" +:+ k +:+ "')".

End Demo.

(** ** A concrete stock-price tool

    Yahoo knows AAPL only; the examples below configure the search
    providers one way or another. *)

Module DemoStock.

Import StockPrice.

Fixpoint upper (s : string) : string :=
  match s with
  | EmptyString => EmptyString
  | String c rest => String (Demo.upperChar c) (upper rest)
  end.

Definition normalise (s : string) : string :=
  upper (Demo.trimEnd (Demo.trimStart s)).

Definition appleQuote : Quote :=
  mkQuote (JNum 101) (JNum 2) JUndefined (JNum 3000000) JUndefined
          (JStr "USD") (JStr "REGULAR") JUndefined (JNum 5000).

Definition yahoo (ticker : string) : Outcome Quote :=
  if String.eqb ticker "AAPL" then Returns appleQuote
  else Throws "Quote not found".

Definition noKeys : Env := mkEnv None (Some "") None.
Definition exaKey : Env := mkEnv (Some "exa-key") None (Some "tavily-key").

(** Exa answers with plain text, Perplexity with JSON, Tavily fails. *)
Definition searchProviders : Providers :=
  mkProviders (fun _ => Returns (JStr "MSFT trades at 410"))
              (fun _ => Returns (JStr "quote"))
              (fun _ => Throws "tavily is down").

(** Exa fails. *)
Definition failingProviders : Providers :=
  mkProviders (fun _ => Throws "exa is down")
              (fun _ => Returns (JStr "quote"))
              (fun _ => Returns (JStr "quote")).

Definition showResult (d urls : JsValue) : string := "result".

Definition stockPrice (env : Env) (providers : Providers)
    (input_ticker : string) : Outcome string * list (LogLevel * string) :=
  func yahoo env providers (fun _ => "") Demo.parse showResult
       (fun s => Demo.trimEnd (Demo.trimStart s)) upper Demo.typeError
       input_ticker.

Definition stockPriceTool (env : Env) (providers : Providers)
    : FinancialSearch.FinanceTool :=
  getStockPrice yahoo env providers (fun _ => "") Demo.parse showResult
    (fun s => Demo.trimEnd (Demo.trimStart s)) upper Demo.typeError
    "Received tool input did not match expected schema".

(** A call of the finance tools of [Demo]. *)
Definition run1 : ToolCall -> FinancialSearch.SubResult :=
  FinancialSearch.runSubTool Demo.financeTools (fun _ => "") Demo.parse
    Demo.typeError.

Definition microsoftCall : ToolCall :=
  mkToolCall "get_stock_price" [("ticker", JStr "msft")] None.

End DemoStock.

(** * Properties *)

(** ** Scratchpad: pruning *)

Module ScratchpadFacts.

Import Scratchpad.

Lemma retained_discardOldest (n : nat) (sp : Scratchpad.t) :
  length (retainedRecords (discardOldest n sp))
  = length (retainedRecords sp) - n.
Proof.
  revert n. induction sp as [|e sp IH]; intros n.
  - destruct n; reflexivity.
  - destruct n as [|n]; [simpl; lia|].
    destruct e as [text|r [|]]; simpl; rewrite IH; simpl; lia.
Qed.

Lemma discardOldest_zero (sp : Scratchpad.t) : discardOldest 0 sp = sp.
Proof. destruct sp; reflexivity. Qed.

Lemma thinkingNotes_discardOldest (n : nat) (sp : Scratchpad.t) :
  thinkingNotes (discardOldest n sp) = thinkingNotes sp.
Proof.
  revert n. induction sp as [|e sp IH]; intros n.
  - destruct n; reflexivity.
  - destruct n as [|n]; [reflexivity|].
    destruct e as [text|r [|]]; simpl; rewrite IH; reflexivity.
Qed.

Lemma records_discardOldest (n : nat) (sp : Scratchpad.t) :
  getToolCallRecords (discardOldest n sp) = getToolCallRecords sp.
Proof.
  revert n. induction sp as [|e sp IH]; intros n.
  - destruct n; reflexivity.
  - destruct n as [|n]; [reflexivity|].
    destruct e as [text|r [|]]; simpl; rewrite IH; reflexivity.
Qed.

(** What is retained after discarding the [n] oldest payloads is what was
    retained before, without its first [n] records. *)
Lemma retainedRecords_discardOldest (n : nat) (sp : Scratchpad.t) :
  retainedRecords (discardOldest n sp) = skipn n (retainedRecords sp).
Proof.
  revert n. induction sp as [|e sp IH]; intros n.
  - destruct n; reflexivity.
  - destruct n as [|n]; [reflexivity|].
    destruct e as [text|r [|]]; simpl; rewrite IH; reflexivity.
Qed.

Lemma cleared_count (k : nat) (sp : Scratchpad.t) :
  fst (clearOldestToolResults k sp) = length (retainedRecords sp) - k.
Proof. reflexivity. Qed.

Lemma cleared_twice (k : nat) (sp : Scratchpad.t) :
  fst (clearOldestToolResults k (snd (clearOldestToolResults k sp))) = 0.
Proof.
  unfold clearOldestToolResults; simpl.
  rewrite retained_discardOldest. lia.
Qed.

Lemma cleared_nothing (k : nat) (sp : Scratchpad.t) :
  fst (clearOldestToolResults k sp) = 0 ->
  snd (clearOldestToolResults k sp) = sp.
Proof.
  unfold clearOldestToolResults; simpl. intros ->. apply discardOldest_zero.
Qed.

Lemma retainedRecords_app (a b : Scratchpad.t) :
  retainedRecords (a ++ b) = retainedRecords a ++ retainedRecords b.
Proof.
  induction a as [|[text|r [|]] a IH]; simpl; [reflexivity | exact IH | |].
  - now rewrite IH.
  - exact IH.
Qed.

Lemma getToolCallRecords_app (a b : Scratchpad.t) :
  getToolCallRecords (a ++ b) = getToolCallRecords a ++ getToolCallRecords b.
Proof.
  induction a as [|[text|r f] a IH]; simpl; [reflexivity | exact IH |].
  now rewrite IH.
Qed.

Lemma retained_le_records (sp : Scratchpad.t) :
  length (retainedRecords sp) <= length (getToolCallRecords sp).
Proof.
  induction sp as [|[text|r [|]] sp IH]; simpl; lia.
Qed.

(** The scratchpad keeps the payloads of its most recent records: this
    holds of a fresh scratchpad and each operation preserves it. *)
Lemma retainsMostRecent_empty : retainsMostRecent empty.
Proof. reflexivity. Qed.

Lemma retainsMostRecent_addThinking (text : string) (sp : Scratchpad.t) :
  retainsMostRecent sp -> retainsMostRecent (addThinking text sp).
Proof.
  unfold retainsMostRecent, addThinking.
  rewrite retainedRecords_app, getToolCallRecords_app. simpl.
  now rewrite !app_nil_r.
Qed.

Lemma retainsMostRecent_addToolResult (n : string) (a : JsObject)
    (o : ToolOutcome) (sp : Scratchpad.t) :
  retainsMostRecent sp -> retainsMostRecent (addToolResult n a o sp).
Proof.
  unfold retainsMostRecent, addToolResult. intros Hsp.
  pose proof (retained_le_records sp) as Hle.
  rewrite retainedRecords_app, getToolCallRecords_app. simpl.
  rewrite !length_app. simpl.
  replace (length (getToolCallRecords sp) + 1
           - (length (retainedRecords sp) + 1))
    with (length (getToolCallRecords sp) - length (retainedRecords sp))
    by lia.
  rewrite skipn_app, <- Hsp.
  replace (length (getToolCallRecords sp) - length (retainedRecords sp)
           - length (getToolCallRecords sp)) with 0 by lia.
  reflexivity.
Qed.

Lemma retainsMostRecent_clearOldestToolResults (k : nat)
    (sp : Scratchpad.t) :
  retainsMostRecent sp ->
  retainsMostRecent (snd (clearOldestToolResults k sp)).
Proof.
  unfold retainsMostRecent, clearOldestToolResults. cbn [snd]. intros Hsp.
  pose proof (retained_le_records sp) as Hle.
  rewrite retainedRecords_discardOldest, records_discardOldest.
  rewrite length_skipn.
  remember (length (retainedRecords sp)) as h eqn:Hh. rewrite Hsp.
  rewrite skipn_skipn. f_equal. lia.
Qed.

(** C8. [clearOldestToolResults(k)] is idempotent: called twice in a row
    with the same [k] it clears nothing the second time; it clears nothing
    when no more than [k] records hold their full payload (in particular
    when fewer than [k] do); and pruning leaves the thinking notes, the
    tool-call records and the compact tool-usage summary as they were. *)
Theorem clearOldestToolResults_idempotent (k : nat) (sp : Scratchpad.t)
    (render : ToolCallRecord -> string) :
  fst (clearOldestToolResults k (snd (clearOldestToolResults k sp))) = 0
  /\ (length (retainedRecords sp) <= k ->
      fst (clearOldestToolResults k sp) = 0
      /\ snd (clearOldestToolResults k sp) = sp)
  /\ thinkingNotes (snd (clearOldestToolResults k sp)) = thinkingNotes sp
  /\ getToolCallRecords (snd (clearOldestToolResults k sp))
     = getToolCallRecords sp
  /\ formatToolUsageForPrompt render (snd (clearOldestToolResults k sp))
     = formatToolUsageForPrompt render sp.
Proof.
  split; [apply cleared_twice|].
  split.
  - intros Hle.
    assert (H0 : fst (clearOldestToolResults k sp) = 0)
      by (rewrite cleared_count; lia).
    split; [exact H0 | now apply cleared_nothing].
  - unfold formatToolUsageForPrompt, clearOldestToolResults; simpl.
    rewrite thinkingNotes_discardOldest, records_discardOldest.
    repeat split.
Qed.

(** A scratchpad holding two full payloads and a note, pruned to three. *)
Lemma clearOldestToolResults_idempotent_witness :
  let sp := [ToolUse (mkRecord "a" [] (Success "1")) true;
             ThinkingNote "n";
             ToolUse (mkRecord "b" [] (Failure "x")) true] in
  length (retainedRecords sp) <= 3
  /\ fst (clearOldestToolResults 3 sp) = 0
  /\ snd (clearOldestToolResults 3 sp) = sp.
Proof.
  split; [simpl; lia|].
  apply (clearOldestToolResults_idempotent 3 _ (fun r => tool r)).
  simpl; lia.
Defined.

End ScratchpadFacts.

(** ** Traces *)

Lemma ongoing_app (tr1 tr2 : Trace) :
  ongoing (tr1 ++ tr2) = ongoing tr1 && ongoing tr2.
Proof. apply forallb_app. Qed.

Lemma finished_app (tr1 tr2 : Trace) :
  ongoing tr1 = true -> finished tr2 -> finished (tr1 ++ tr2).
Proof.
  intros H1 (pre & d & -> & Hpre).
  exists (tr1 ++ pre), d. split; [now rewrite app_assoc|].
  destruct Hpre as [Hpre | (pre' & n & a & -> & Hpre' & Hd)].
  - left. now rewrite ongoing_app, H1, Hpre.
  - right. exists (tr1 ++ pre'), n, a.
    split; [now rewrite app_assoc|].
    split; [now rewrite ongoing_app, H1, Hpre' | exact Hd].
Qed.

Lemma finished_done (d : DoneEvent) : finished [Yield (done d)].
Proof. exists [], d. split; [reflexivity | now left]. Qed.

Lemma events_app (tr1 tr2 : Trace) :
  events (tr1 ++ tr2) = events tr1 ++ events tr2.
Proof.
  induction tr1 as [|[i p|e] tr1 IH]; simpl; [reflexivity | exact IH |].
  now rewrite IH.
Qed.

Lemma modelCalls_app (tr1 tr2 : Trace) :
  modelCalls (tr1 ++ tr2) = modelCalls tr1 ++ modelCalls tr2.
Proof.
  induction tr1 as [|[i p|e] tr1 IH]; simpl; [reflexivity | | exact IH].
  now rewrite IH.
Qed.

Lemma ongoing_events (tr : Trace) :
  ongoing tr = true ->
  forallb (fun e => negb (isDone e) && negb (isToolDenied e)) (events tr)
  = true.
Proof.
  induction tr as [|[i p|e] tr IH]; simpl; [reflexivity | exact IH |].
  intros [He Htr]%andb_prop. now rewrite He, IH.
Qed.

(** In a finished trace, whatever follows a [tool_denied] is the final
    [done], with an empty answer. *)
Lemma finished_after_denied (tr pre post : Trace) (toolName : string)
    (a : JsObject) :
  finished tr ->
  tr = pre ++ Yield (tool_denied toolName a) :: post ->
  exists d, post = [Yield (done d)] /\ answer d = "".
Proof.
  intros (pre0 & d & -> & Hpre) Heq.
  destruct Hpre as [Hpre | (pre' & n & a' & -> & Hpre' & Hd)].
  - exfalso. revert pre Heq Hpre.
    induction pre0 as [|s pre0 IH]; intros pre Heq Hpre.
    + destruct pre as [|s' pre]; [discriminate|].
      destruct pre; discriminate.
    + destruct pre as [|s' pre]; simpl in *.
      * injection Heq as -> _. discriminate.
      * injection Heq as _ Heq. apply andb_prop in Hpre as [_ Hpre].
        exact (IH pre Heq Hpre).
  - exists d. split; [|exact Hd].
    rewrite <- app_assoc in Heq. simpl in Heq.
    revert pre Heq Hpre'.
    induction pre' as [|s pre' IH]; intros pre Heq Hpre'.
    + destruct pre as [|s' pre]; simpl in *.
      * now injection Heq as _ _ <-.
      * injection Heq as _ Heq.
        destruct pre as [|s'' pre]; [discriminate|].
        destruct pre; discriminate.
    + destruct pre as [|s' pre]; simpl in *.
      * injection Heq as -> _. discriminate.
      * injection Heq as _ Heq. apply andb_prop in Hpre' as [_ Hpre'].
        exact (IH pre Heq Hpre').
Qed.

(** ** The agent loop *)

Section AgentFacts.

Context {W : Type} (X : Collaborators W) (A : Agent W).

(** *** The loops, unfolded once *)

Lemma callModelLoop_eq (q : string) (overflowRetries : nat)
    (currentPrompt : string) (ctx : RunContext) (w : W) :
  callModelLoop X A q overflowRetries currentPrompt ctx w =
  match callModel X A currentPrompt w with
  | (Returns (response, usage), w1) =>
      Responded [ModelCall (iteration ctx) currentPrompt]
                response usage 0 currentPrompt ctx w1
  | (Throws errorMessage, w1) =>
      if isContextOverflowError X errorMessage
         && (overflowRetries <? MAX_OVERFLOW_RETRIES)%nat
      then
        let (clearedCount, sp) :=
          Scratchpad.clearOldestToolResults OVERFLOW_KEEP_TOOL_USES
            (scratchpad ctx) in
        if (0 <? clearedCount)%nat then
          prependLoop
            [ModelCall (iteration ctx) currentPrompt;
             Yield (context_cleared clearedCount OVERFLOW_KEEP_TOOL_USES)]
            (callModelLoop X A q (S overflowRetries)
               (iterationPrompt X q sp) (withScratchpad sp ctx) w1)
        else failWith X errorMessage currentPrompt (withScratchpad sp ctx) w1
      else failWith X errorMessage currentPrompt ctx w1
  end.
Proof.
  funelim (callModelLoop X A q overflowRetries currentPrompt ctx w);
    clear Heqcall;
    repeat match goal with
           | E : callModel _ _ _ _ = _ |- _ => rewrite E
           | E : andb _ _ = _ |- _ => rewrite E
           | E : Nat.ltb 0 _ = _ |- _ =>
               unfold Scratchpad.clearOldestToolResults; rewrite E
           end;
    reflexivity.
Qed.

Lemma mainLoop_eq (q : string) (overflowRetries : nat)
    (currentPrompt : string) (ctx : RunContext) (w : W) :
  mainLoop X A q overflowRetries currentPrompt ctx w =
  if (Z.of_nat (iteration ctx) <? maxIterations A)%Z then
    match pass X A q overflowRetries currentPrompt
            (withIteration (S (iteration ctx)) ctx) w with
    | Return tr w1 => (tr, w1)
    | Next tr retries prompt sp tc w1 =>
        prepend tr
          (mainLoop X A q retries prompt
             (withTokenCounter tc
                (withScratchpad sp
                   (withIteration (S (iteration ctx)) ctx))) w1)
    end
  else maxIterationsReached X A ctx w.
Proof.
  funelim (mainLoop X A q overflowRetries currentPrompt ctx w);
    clear Heqcall;
    repeat match goal with
           | E : Z.ltb _ _ = _ |- _ => rewrite E
           | E : pass _ _ _ _ _ _ _ = _ |- _ => rewrite E
           end;
    reflexivity.
Qed.

(** *** Every trace is well formed *)

Lemma failWith_ok (errorMessage prompt : string) (ctx : RunContext) (w : W) :
  loopOk (failWith X errorMessage prompt ctx w).
Proof.
  unfold failWith. destruct (dateNow X w) as [now w1]. simpl.
  apply (finished_app [ModelCall (iteration ctx) prompt]);
    [reflexivity | apply finished_done].
Qed.

Lemma prependLoop_ok (tr : Trace) (r : ModelLoopResult W) :
  ongoing tr = true -> loopOk r -> loopOk (prependLoop tr r).
Proof.
  intros Htr. destruct r as [tr' ? ? ? ? ? ?|tr' ?]; simpl.
  - intros H. now rewrite ongoing_app, Htr, H.
  - now apply finished_app.
Qed.

Lemma callModelLoop_ok (q : string) (overflowRetries : nat)
    (currentPrompt : string) (ctx : RunContext) (w : W) :
  loopOk (callModelLoop X A q overflowRetries currentPrompt ctx w).
Proof.
  funelim (callModelLoop X A q overflowRetries currentPrompt ctx w);
    try apply failWith_ok.
  - reflexivity.
  - apply prependLoop_ok; [reflexivity | assumption].
Qed.

Lemma forAwait_ok (evs : list (ToolExecutionEvent * (Scratchpad.t * W)))
    (final : Scratchpad.t * W) :
  match forAwait evs final with
  | Denied tr _ _ =>
      exists pre toolName a,
        tr = pre ++ [Yield (tool_denied toolName a)] /\ ongoing pre = true
  | Completed tr _ _ => ongoing tr = true
  end.
Proof.
  induction evs as [|[e st] evs IH]; simpl; [reflexivity|].
  destruct e as [n o|n a]; simpl.
  - destruct (forAwait evs final) as [tr sp w|tr sp w].
    + destruct IH as (pre & n' & a & -> & Hpre).
      exists (Yield (tool_progress n o) :: pre), n', a. now split.
    + exact IH.
  - exists [], n, a. now split.
Qed.

Lemma manageContextThreshold_ongoing (ctx : RunContext) :
  ongoing (fst (manageContextThreshold X A ctx)) = true.
Proof.
  unfold manageContextThreshold.
  destruct (_ <? _)%Z; [|reflexivity].
  destruct (Scratchpad.clearOldestToolResults _ _) as [c sp].
  destruct (0 <? c)%nat; reflexivity.
Qed.

Lemma emitThinking_ongoing (response : Response) (text : string)
    (ctx : RunContext) :
  ongoing (fst (emitThinking X response text ctx)) = true.
Proof. unfold emitThinking. now destruct (_ && _). Qed.

Lemma handleDirectResponse_finished (text : string) (ctx : RunContext)
    (w : W) :
  finished (fst (handleDirectResponse X text ctx w)).
Proof.
  unfold handleDirectResponse. destruct (dateNow X w) as [now w1].
  apply finished_done.
Qed.

Lemma afterResponse_ok (q : string) (tr : Trace) (response : Response)
    (usage : option TokenUsage) (overflowRetries : nat) (ctx : RunContext)
    (w : W) :
  ongoing tr = true ->
  passOk (afterResponse X A q tr response usage overflowRetries ctx w).
Proof.
  intros Htr. unfold afterResponse. cbv zeta.
  set (ctx1 := withTokenCounter _ ctx).
  pose proof (emitThinking_ongoing response (responseTextOf X response) ctx1)
    as Hth.
  destruct (emitThinking _ _ _ _) as [trThinking ctx2]. cbn [fst] in Hth.
  assert (Hdirect : forall text,
             passOk (let (trDone, w1) := handleDirectResponse X text ctx2 w in
                     Return (tr ++ trThinking ++ trDone) w1)).
  { intros text. pose proof (handleDirectResponse_finished text ctx2 w) as Hd.
    destruct (handleDirectResponse _ _ _ _) as [trDone w1]. cbn [passOk].
    apply finished_app; [exact Htr|]. now apply finished_app. }
  destruct response as [s|m]; [apply Hdirect|].
  destruct (hasToolCalls X m); cbn [negb]; [|apply Hdirect].
  pose proof (forAwait_ok (fst (toolExecutor A m ctx2 w))
                (snd (toolExecutor A m ctx2 w))) as Hfa.
  destruct (forAwait _ _) as [trTools sp w1|trTools sp w1].
  - destruct (dateNow X w1) as [now w2]. cbn [passOk].
    destruct Hfa as (pre & n & a & -> & Hpre).
    eexists (tr ++ trThinking ++ pre ++ [Yield (tool_denied n a)]), _.
    split.
    { unfold doneEvent. now rewrite <- !app_assoc. }
    right. exists (tr ++ trThinking ++ pre), n, a.
    split; [now rewrite <- !app_assoc|].
    split; [now rewrite !ongoing_app, Htr, Hth, Hpre | reflexivity].
  - pose proof (manageContextThreshold_ongoing (withScratchpad sp ctx2))
      as Hm.
    destruct (manageContextThreshold _ _ _) as [trCleared sp1].
    cbn [fst] in Hm. cbn [passOk].
    now rewrite !ongoing_app, Htr, Hth, Hfa, Hm.
Qed.

Lemma pass_ok (q : string) (overflowRetries : nat) (currentPrompt : string)
    (ctx : RunContext) (w : W) :
  passOk (pass X A q overflowRetries currentPrompt ctx w).
Proof.
  unfold pass.
  pose proof (callModelLoop_ok q overflowRetries currentPrompt ctx w) as H.
  destruct (callModelLoop _ _ _ _ _ _ _) as [tr resp u r p c w1|tr w1].
  - now apply afterResponse_ok.
  - exact H.
Qed.

Lemma maxIterationsReached_finished (ctx : RunContext) (w : W) :
  finished (fst (maxIterationsReached X A ctx w)).
Proof.
  unfold maxIterationsReached. destruct (dateNow X w) as [now w1].
  apply finished_done.
Qed.

Lemma mainLoop_finished (q : string) (overflowRetries : nat)
    (currentPrompt : string) (ctx : RunContext) (w : W) :
  finished (fst (mainLoop X A q overflowRetries currentPrompt ctx w)).
Proof.
  funelim (mainLoop X A q overflowRetries currentPrompt ctx w).
  - apply maxIterationsReached_finished.
  - pose proof (pass_ok q overflowRetries currentPrompt
                  (withIteration (S (iteration ctx)) ctx) w) as Hp.
    rewrite Heq in Hp. exact Hp.
  - pose proof (pass_ok q overflowRetries currentPrompt
                  (withIteration (S (iteration ctx)) ctx) w) as Hp.
    rewrite Heq in Hp. simpl. now apply finished_app.
Qed.

Lemma run_finished (q : string) (h : option InMemoryChatHistory) (w : W) :
  finished (fst (run X A q h w)).
Proof.
  unfold run. destruct (dateNow X w) as [t0 w1].
  destruct (length (tools A) =? 0)%nat.
  - destruct (dateNow X w1) as [now w2]. apply finished_done.
  - destruct (createRunContext X q w1) as [ctx w2].
    apply mainLoop_finished.
Qed.

(** *** Termination of a run *)

(** C5. The events of a run form a finite sequence with exactly one [done]
    event, which is its last event: nothing is emitted after it. *)
Theorem run_ends_with_its_only_done (q : string)
    (h : option InMemoryChatHistory) (w : W) :
  exists es d,
    events (fst (run X A q h w)) = es ++ [done d]
    /\ forallb (fun e => negb (isDone e)) es = true.
Proof.
  destruct (run_finished q h w) as (pre & d & -> & Hpre).
  exists (events pre), d. split; [now rewrite events_app|].
  destruct Hpre as [Hpre | (pre' & n & a & -> & Hpre' & _)].
  - apply ongoing_events in Hpre.
    induction (events pre) as [|e es IH]; [reflexivity|]. simpl in *.
    apply andb_prop in Hpre as [[He _]%andb_prop Hes].
    now rewrite He, IH.
  - rewrite events_app, forallb_app. simpl.
    apply ongoing_events in Hpre'.
    induction (events pre') as [|e es IH]; [reflexivity|]. simpl in *.
    apply andb_prop in Hpre' as [[He _]%andb_prop Hes].
    rewrite He. simpl. now apply IH.
Qed.

(** *** Denial *)

(** The [for await] stops at the first denial: what the executor would
    have yielded after it is never asked for. *)
Lemma forAwait_denied
    (allowed later : list (ToolExecutionEvent * (Scratchpad.t * W)))
    (toolName : string) (a : JsObject) (st final : Scratchpad.t * W) :
  Forall (fun e => isToolDenied (ofToolEvent (fst e)) = false) allowed ->
  forAwait (allowed ++ (ToolDeniedBy toolName a, st) :: later) final
  = Denied (map (fun e => Yield (ofToolEvent (fst e))) allowed
            ++ [Yield (tool_denied toolName a)])
           (fst st) (snd st).
Proof.
  induction 1 as [|[e st'] evs He _ IH]; [reflexivity|].
  cbn [app forAwait map fst]. cbn [fst] in He. now rewrite He, IH.
Qed.

Lemma emitThinking_context (response : Response) (text : string)
    (ctx : RunContext) :
  let ctx' := snd (emitThinking X response text ctx) in
  iteration ctx' = iteration ctx
  /\ startTime ctx' = startTime ctx
  /\ tokenCounter ctx' = tokenCounter ctx
  /\ modelCalls (fst (emitThinking X response text ctx)) = [].
Proof. unfold emitThinking. now destruct (_ && _). Qed.

(** C4. When the tool executor signals denial for a call of the batch the
    model has asked for, the run yields what the executor had yielded
    before, then [tool_denied], then at once its terminal [done] with the
    empty string as answer and the tool-call records as they are at the
    denial, and returns: the events the executor would have yielded next
    are not consumed and no model call follows, so that the pass has
    called the model once.  In every run, what follows a [tool_denied] is
    that [done] and nothing else. *)
Theorem denial_ends_run (q : string) (overflowRetries : nat)
    (currentPrompt : string) (ctx : RunContext) (w : W)
    (m : AIMessage) (usage : option TokenUsage) (w1 : W)
    (allowed later : list (ToolExecutionEvent * (Scratchpad.t * W)))
    (toolName : string) (a : JsObject) (sp : Scratchpad.t) (w2 : W)
    (now : Z) (w3 : W) :
  (Z.of_nat (iteration ctx) < maxIterations A)%Z ->
  callModel X A currentPrompt w = (Returns (RMessage m, usage), w1) ->
  hasToolCalls X m = true ->
  let counter := TokenCounter.add usage (tokenCounter ctx) in
  let before :=
    emitThinking X (RMessage m) (extractTextContent X m)
      (withTokenCounter counter (withIteration (S (iteration ctx)) ctx)) in
  fst (toolExecutor A m (snd before) w1)
  = allowed ++ (ToolDeniedBy toolName a, (sp, w2)) :: later ->
  Forall (fun e => isToolDenied (ofToolEvent (fst e)) = false) allowed ->
  dateNow X w2 = (now, w3) ->
  let tr := fst (mainLoop X A q overflowRetries currentPrompt ctx w) in
  mainLoop X A q overflowRetries currentPrompt ctx w
  = (ModelCall (S (iteration ctx)) currentPrompt
     :: fst before
     ++ map (fun e => Yield (ofToolEvent (fst e))) allowed
     ++ [Yield (tool_denied toolName a);
         Yield (done (mkDone ""
                  (Scratchpad.getToolCallRecords sp)
                  (S (iteration ctx))
                  (now - startTime ctx)
                  (Some (TokenCounter.getUsage counter))
                  (Some (TokenCounter.getTokensPerSecond counter
                           (now - startTime ctx)))))],
     w3)
  /\ modelCalls tr = [(S (iteration ctx), currentPrompt)]
  /\ (forall q' h w' pre post toolName' a',
        fst (run X A q' h w') = pre ++ Yield (tool_denied toolName' a') :: post ->
        exists d, post = [Yield (done d)] /\ answer d = "").
Proof.
  intros Hlt Hcall Hcalls counter before Hevents Hallowed Hnow tr.
  assert (Hrun :
    mainLoop X A q overflowRetries currentPrompt ctx w
    = (ModelCall (S (iteration ctx)) currentPrompt
       :: fst before
       ++ map (fun e => Yield (ofToolEvent (fst e))) allowed
       ++ [Yield (tool_denied toolName a);
           Yield (done (mkDone ""
                    (Scratchpad.getToolCallRecords sp)
                    (S (iteration ctx))
                    (now - startTime ctx)
                    (Some (TokenCounter.getUsage counter))
                    (Some (TokenCounter.getTokensPerSecond counter
                             (now - startTime ctx)))))],
       w3)).
  { rewrite mainLoop_eq. apply Z.ltb_lt in Hlt. rewrite Hlt.
    unfold pass. rewrite callModelLoop_eq, Hcall.
    unfold afterResponse. cbv zeta. cbn [responseTextOf].
    cbn [iteration withIteration tokenCounter].
    fold counter. fold before.
    destruct (emitThinking_context (RMessage m) (extractTextContent X m)
                (withTokenCounter counter
                   (withIteration (S (iteration ctx)) ctx)))
      as (Hiteration & Hstart & Hcounter & _).
    fold before in Hiteration, Hstart, Hcounter.
    destruct before as [trThinking ctx2] eqn:Hbefore.
    cbn [fst snd] in *. rewrite Hcalls. cbn [negb].
    rewrite Hevents, (forAwait_denied allowed later toolName a (sp, w2))
      by exact Hallowed.
    cbn [fst snd]. rewrite Hnow. unfold doneEvent.
    cbn [scratchpad withScratchpad iteration startTime tokenCounter].
    rewrite Hiteration, Hstart, Hcounter. cbn.
    now rewrite <- !app_assoc. }
  split; [exact Hrun|]. split.
  - subst tr. rewrite Hrun. cbn [fst modelCalls].
    rewrite !modelCalls_app.
    destruct (emitThinking_context (RMessage m) (extractTextContent X m)
                (withTokenCounter counter
                   (withIteration (S (iteration ctx)) ctx)))
      as (_ & _ & _ & Hthinking).
    fold before in Hthinking. rewrite Hthinking.
    assert (Hnone : modelCalls
                      (map (fun e => Yield (ofToolEvent (fst e))) allowed)
                    = []).
    { clear. induction allowed as [|e evs IH]; [reflexivity | exact IH]. }
    now rewrite Hnone.
  - intros q' h w' pre post toolName' a' Heq.
    exact (finished_after_denied _ pre post toolName' a'
             (run_finished q' h w') Heq).
Qed.

(** C9. With an empty tool catalog the run emits exactly one event, a
    [done] with the "No tools available" answer, no tool call and zero
    iterations, and the model is never called. *)
Theorem run_without_tools (q : string) (h : option InMemoryChatHistory)
    (w : W) :
  tools A = [] ->
  exists d,
    fst (run X A q h w) = [Yield (done d)]
    /\ answer d
       = "No tools available. Please check your API key configuration."
    /\ toolCalls d = []
    /\ iterations d = 0
    /\ modelCalls (fst (run X A q h w)) = [].
Proof.
  intros Htools. unfold run. rewrite Htools. simpl.
  destruct (dateNow X w) as [t0 w1]. destruct (dateNow X w1) as [t1 w2].
  eexists. repeat split.
Qed.

(** *** The model call and its failures *)

Lemma withScratchpad_same (ctx : RunContext) :
  withScratchpad (scratchpad ctx) ctx = ctx.
Proof. now destruct ctx. Qed.

Lemma loopTrace_prependLoop (tr : Trace) (r : ModelLoopResult W) :
  loopTrace (prependLoop tr r) = tr ++ loopTrace r.
Proof. now destruct r. Qed.

(** Every turn of the retry loop begins by calling the model with the
    current prompt. *)
Lemma callModelLoop_calls_first (q : string) (overflowRetries : nat)
    (currentPrompt : string) (ctx : RunContext) (w : W) :
  exists rest,
    loopTrace (callModelLoop X A q overflowRetries currentPrompt ctx w)
    = ModelCall (iteration ctx) currentPrompt :: rest.
Proof.
  rewrite callModelLoop_eq.
  destruct (callModel X A currentPrompt w) as [[[response usage]|e] w1].
  - now eexists.
  - unfold failWith.
    destruct (_ && _);
      [destruct (Scratchpad.clearOldestToolResults _ _) as [c sp];
       destruct (0 <? c)%nat|];
      try (destruct (dateNow X w1)); rewrite ?loopTrace_prependLoop;
      simpl; now eexists.
Qed.

(** What the [catch] block does when it gives up. *)
Lemma callModelLoop_gives_up (q : string) (overflowRetries : nat)
    (currentPrompt : string) (ctx : RunContext) (w : W)
    (errorMessage : string) (w1 : W) :
  callModel X A currentPrompt w = (Throws errorMessage, w1) ->
  isContextOverflowError X errorMessage = false
  \/ MAX_OVERFLOW_RETRIES <= overflowRetries
  \/ fst (Scratchpad.clearOldestToolResults OVERFLOW_KEEP_TOOL_USES
            (scratchpad ctx)) = 0 ->
  callModelLoop X A q overflowRetries currentPrompt ctx w
  = failWith X errorMessage currentPrompt ctx w1.
Proof.
  intros Hcall Hwhy. rewrite callModelLoop_eq, Hcall.
  destruct (isContextOverflowError X errorMessage) eqn:Hov;
    [|reflexivity].
  destruct (overflowRetries <? MAX_OVERFLOW_RETRIES)%nat eqn:Hlt;
    [|reflexivity].
  apply Nat.ltb_lt in Hlt.
  destruct Hwhy as [Hno | [Hge | Hzero]]; [discriminate | lia |].
  pose proof (ScratchpadFacts.cleared_nothing _ _ Hzero) as Hsame.
  destruct (Scratchpad.clearOldestToolResults _ _) as [c sp].
  simpl in *. subst c sp. simpl. now rewrite withScratchpad_same.
Qed.

(** C2. A failed model call.  If the error is a context overflow, fewer
    than two retries were made and pruning to the three most recent
    tool-use records discards something, the loop emits [context_cleared],
    rebuilds the prompt from the pruned scratchpad, counts one more retry
    and calls the model again.  If the error is no overflow, or two retries
    were made, or pruning discards nothing, the run emits its terminal
    [done] with the formatted error and the tool-call history so far, and
    returns. *)
Theorem overflow_retries_or_fails (q : string) (overflowRetries : nat)
    (currentPrompt : string) (ctx : RunContext) (w : W)
    (errorMessage : string) (w1 : W) :
  callModel X A currentPrompt w = (Throws errorMessage, w1) ->
  let pruned :=
    Scratchpad.clearOldestToolResults OVERFLOW_KEEP_TOOL_USES
      (scratchpad ctx) in
  (isContextOverflowError X errorMessage = true ->
   overflowRetries < MAX_OVERFLOW_RETRIES ->
   0 < fst pruned ->
   callModelLoop X A q overflowRetries currentPrompt ctx w
   = prependLoop
       [ModelCall (iteration ctx) currentPrompt;
        Yield (context_cleared (fst pruned) OVERFLOW_KEEP_TOOL_USES)]
       (callModelLoop X A q (S overflowRetries)
          (iterationPrompt X q (snd pruned))
          (withScratchpad (snd pruned) ctx) w1)
   /\ exists rest,
       loopTrace (callModelLoop X A q overflowRetries currentPrompt ctx w)
       = ModelCall (iteration ctx) currentPrompt
         :: Yield (context_cleared (fst pruned) OVERFLOW_KEEP_TOOL_USES)
         :: ModelCall (iteration ctx) (iterationPrompt X q (snd pruned))
         :: rest)
  /\ (isContextOverflowError X errorMessage = false
      \/ MAX_OVERFLOW_RETRIES <= overflowRetries
      \/ fst pruned = 0 ->
      forall now w2,
        dateNow X w1 = (now, w2) ->
        pass X A q overflowRetries currentPrompt ctx w
        = Return
            [ModelCall (iteration ctx) currentPrompt;
             Yield (done (mkDone
                      ("Error: " +:+ formatUserFacingError X errorMessage)
                      (Scratchpad.getToolCallRecords (scratchpad ctx))
                      (iteration ctx)
                      (now - startTime ctx)
                      (Some (TokenCounter.getUsage (tokenCounter ctx)))
                      (Some (TokenCounter.getTokensPerSecond
                               (tokenCounter ctx)
                               (now - startTime ctx)))))]
            w2).
Proof.
  intros Hcall pruned. split.
  - intros Hov Hlt Hpos.
    assert (Hstep :
      callModelLoop X A q overflowRetries currentPrompt ctx w
      = prependLoop
          [ModelCall (iteration ctx) currentPrompt;
           Yield (context_cleared (fst pruned) OVERFLOW_KEEP_TOOL_USES)]
          (callModelLoop X A q (S overflowRetries)
             (iterationPrompt X q (snd pruned))
             (withScratchpad (snd pruned) ctx) w1)).
    { rewrite callModelLoop_eq, Hcall, Hov.
      apply Nat.ltb_lt in Hlt. rewrite Hlt. cbn [andb].
      apply Nat.ltb_lt in Hpos. subst pruned.
      destruct (Scratchpad.clearOldestToolResults _ _) as [c sp].
      cbn [fst snd] in *. now rewrite Hpos. }
    split; [exact Hstep|].
    rewrite Hstep, loopTrace_prependLoop.
    destruct (callModelLoop_calls_first q (S overflowRetries)
                (iterationPrompt X q (snd pruned))
                (withScratchpad (snd pruned) ctx) w1) as [rest ->].
    now exists rest.
  - intros Hwhy now w2 Hnow. unfold pass.
    rewrite (callModelLoop_gives_up q overflowRetries currentPrompt ctx w
               errorMessage w1 Hcall Hwhy).
    unfold failWith. now rewrite Hnow.
Qed.

(** C7. A response that carries no tool calls is the final answer: the run
    emits its text in the terminal [done], with the never-pruned tool-call
    records, the iteration count, the elapsed time and the token
    statistics, and returns.  This holds in particular when the text is not
    empty. *)
Theorem direct_response_is_final_answer (q : string) (overflowRetries : nat)
    (currentPrompt : string) (ctx : RunContext) (w : W)
    (response : Response) (usage : option TokenUsage) (w1 : W)
    (now : Z) (w2 : W) :
  (Z.of_nat (iteration ctx) < maxIterations A)%Z ->
  callModel X A currentPrompt w = (Returns (response, usage), w1) ->
  carriesToolCalls X response = false ->
  dateNow X w1 = (now, w2) ->
  let counter := TokenCounter.add usage (tokenCounter ctx) in
  mainLoop X A q overflowRetries currentPrompt ctx w
  = ([ModelCall (S (iteration ctx)) currentPrompt;
      Yield (done (mkDone
               (responseTextOf X response)
               (Scratchpad.getToolCallRecords (scratchpad ctx))
               (S (iteration ctx))
               (now - startTime ctx)
               (Some (TokenCounter.getUsage counter))
               (Some (TokenCounter.getTokensPerSecond counter
                        (now - startTime ctx)))))],
     w2).
Proof.
  intros Hlt Hcall Hnone Hnow counter.
  rewrite mainLoop_eq. apply Z.ltb_lt in Hlt. rewrite Hlt.
  unfold pass. rewrite callModelLoop_eq, Hcall.
  unfold afterResponse, emitThinking, handleDirectResponse. cbv zeta.
  rewrite Hnone, andb_false_r.
  destruct response as [s|m]; simpl in Hnone |- *.
  - now rewrite Hnow.
  - now rewrite Hnone, Hnow.
Qed.

(** *** The context threshold *)

Lemma manageContextThreshold_below (ctx : RunContext) :
  (estimateTokens X
     (systemPrompt A +:+ query ctx
      +:+ Scratchpad.getToolResults (renderToolResult X) (scratchpad ctx))
   <= CONTEXT_THRESHOLD X)%Z ->
  manageContextThreshold X A ctx = ([], scratchpad ctx).
Proof.
  intros Hle. unfold manageContextThreshold.
  apply Z.ltb_ge in Hle. now rewrite Hle.
Qed.

Lemma manageContextThreshold_above (ctx : RunContext) :
  (CONTEXT_THRESHOLD X
   < estimateTokens X
       (systemPrompt A +:+ query ctx
        +:+ Scratchpad.getToolResults (renderToolResult X)
              (scratchpad ctx)))%Z ->
  let pruned :=
    Scratchpad.clearOldestToolResults (KEEP_TOOL_USES X) (scratchpad ctx) in
  manageContextThreshold X A ctx
  = (if (0 <? fst pruned)%nat
     then [Yield (context_cleared (fst pruned) (KEEP_TOOL_USES X))]
     else [],
     snd pruned).
Proof.
  intros Hlt pruned. unfold manageContextThreshold.
  apply Z.ltb_lt in Hlt. rewrite Hlt. subst pruned.
  destruct (Scratchpad.clearOldestToolResults _ _) as [c sp]. simpl.
  now destruct (0 <? c)%nat.
Qed.

(** C6. After a batch of tool calls that was not denied, the loop
    estimates the tokens of [systemPrompt + query + full tool results].
    Exactly when the estimate exceeds [CONTEXT_THRESHOLD] it prunes the
    scratchpad to [KEEP_TOOL_USES] records, and it emits [context_cleared]
    only if the prune discarded a record; the next prompt is built from
    the scratchpad this leaves. *)
Theorem context_threshold_pruning (ctx : RunContext) :
  let estimate :=
    estimateTokens X
      (systemPrompt A +:+ query ctx
       +:+ Scratchpad.getToolResults (renderToolResult X) (scratchpad ctx)) in
  let pruned :=
    Scratchpad.clearOldestToolResults (KEEP_TOOL_USES X) (scratchpad ctx) in
  ((estimate <= CONTEXT_THRESHOLD X)%Z ->
   manageContextThreshold X A ctx = ([], scratchpad ctx))
  /\ ((CONTEXT_THRESHOLD X < estimate)%Z ->
      snd (manageContextThreshold X A ctx) = snd pruned
      /\ length (Scratchpad.retainedRecords
                   (snd (manageContextThreshold X A ctx)))
         <= KEEP_TOOL_USES X
      /\ (0 < fst pruned ->
          fst (manageContextThreshold X A ctx)
          = [Yield (context_cleared (fst pruned) (KEEP_TOOL_USES X))])
      /\ (fst pruned = 0 ->
          manageContextThreshold X A ctx = ([], scratchpad ctx)))
  /\ (forall q tr m usage overflowRetries w trTools sp w1,
        hasToolCalls X m = true ->
        let before :=
          emitThinking X (RMessage m) (extractTextContent X m)
            (withTokenCounter (TokenCounter.add usage (tokenCounter ctx))
               ctx) in
        forAwait (fst (toolExecutor A m (snd before) w))
                 (snd (toolExecutor A m (snd before) w))
        = Completed trTools sp w1 ->
        let managed :=
          manageContextThreshold X A (withScratchpad sp (snd before)) in
        afterResponse X A q tr (RMessage m) usage overflowRetries ctx w
        = Next (tr ++ fst before ++ trTools ++ fst managed) overflowRetries
               (iterationPrompt X q (snd managed)) (snd managed)
               (tokenCounter (snd before)) w1).
Proof.
  intros estimate pruned. split; [apply manageContextThreshold_below|].
  split.
  - intros Hlt. rewrite (manageContextThreshold_above ctx Hlt).
    fold pruned. cbn [fst snd].
    split; [reflexivity|]. split.
    { subst pruned. unfold Scratchpad.clearOldestToolResults. cbn [snd].
      rewrite ScratchpadFacts.retained_discardOldest. lia. }
    split.
    + intros Hpos. apply Nat.ltb_lt in Hpos. now rewrite Hpos.
    + intros Hzero. rewrite Hzero. simpl Nat.ltb. cbv iota. f_equal.
      exact (ScratchpadFacts.cleared_nothing _ _ Hzero).
  - intros q tr m usage r w trTools sp w1 Hcalls before Hbatch managed.
    unfold afterResponse. cbv zeta. cbn [responseTextOf].
    fold before. destruct before as [trThinking ctx2] eqn:Hbefore.
    cbn [fst snd] in *. rewrite Hcalls. cbn [negb]. rewrite Hbatch.
    fold managed. now destruct managed.
Qed.

(** *** Two overflows in a row *)

(** With the scratchpad of the spec, a call that throws, is retried after
    pruning and throws again is not retried a second time, because pruning
    twice in a row to the same keep-count discards nothing the second
    time: either the first failure already ends the run (no retry was
    due), or the run emits exactly one [context_cleared], calls the model a
    second time and ends with the error of that second failure. *)
Lemma repeated_overflow_with_idempotent_pruning (q : string) (overflowRetries : nat)
    (currentPrompt : string) (ctx : RunContext) (w : W)
    (e1 e2 : string) (w1 w2 : W) :
  let pruned :=
    Scratchpad.clearOldestToolResults OVERFLOW_KEEP_TOOL_USES
      (scratchpad ctx) in
  let retryPrompt := iterationPrompt X q (snd pruned) in
  callModel X A currentPrompt w = (Throws e1, w1) ->
  callModel X A retryPrompt w1 = (Throws e2, w2) ->
  exists tr w3 d,
    pass X A q overflowRetries currentPrompt ctx w = Return tr w3
    /\ (tr = [ModelCall (iteration ctx) currentPrompt; Yield (done d)]
        /\ answer d = "Error: " +:+ formatUserFacingError X e1
        \/
        tr = [ModelCall (iteration ctx) currentPrompt;
              Yield (context_cleared (fst pruned) OVERFLOW_KEEP_TOOL_USES);
              ModelCall (iteration ctx) retryPrompt;
              Yield (done d)]
        /\ 0 < fst pruned
        /\ answer d = "Error: " +:+ formatUserFacingError X e2).
Proof.
  intros pruned retryPrompt Hcall1 Hcall2. unfold pass.
  rewrite callModelLoop_eq, Hcall1.
  destruct (isContextOverflowError X e1
            && (overflowRetries <? MAX_OVERFLOW_RETRIES)%nat).
  - pose proof (ScratchpadFacts.cleared_twice OVERFLOW_KEEP_TOOL_USES
                  (scratchpad ctx)) as Htwice.
    subst retryPrompt pruned. revert Hcall2 Htwice.
    destruct (Scratchpad.clearOldestToolResults OVERFLOW_KEEP_TOOL_USES
                (scratchpad ctx)) as [c sp].
    cbn [fst snd]. intros Hcall2 Htwice.
    destruct (0 <? c)%nat eqn:Hc.
    + rewrite callModelLoop_eq, Hcall2. cbn [withScratchpad scratchpad].
      assert (Hfail :
        (if isContextOverflowError X e2
            && (S overflowRetries <? MAX_OVERFLOW_RETRIES)%nat
         then
           let (clearedCount, sp0) :=
             Scratchpad.clearOldestToolResults OVERFLOW_KEEP_TOOL_USES sp in
           if (0 <? clearedCount)%nat
           then
             prependLoop
               [ModelCall (iteration (withScratchpad sp ctx))
                  (iterationPrompt X q sp);
                Yield (context_cleared clearedCount OVERFLOW_KEEP_TOOL_USES)]
               (callModelLoop X A q (S (S overflowRetries))
                  (iterationPrompt X q sp0)
                  (withScratchpad sp0 (withScratchpad sp ctx)) w2)
           else
             failWith X e2 (iterationPrompt X q sp)
               (withScratchpad sp0 (withScratchpad sp ctx)) w2
         else
           failWith X e2 (iterationPrompt X q sp) (withScratchpad sp ctx) w2)
        = failWith X e2 (iterationPrompt X q sp) (withScratchpad sp ctx) w2).
      { destruct (_ && _); [|reflexivity].
        pose proof (ScratchpadFacts.cleared_nothing
                      OVERFLOW_KEEP_TOOL_USES sp Htwice) as Hsame.
        destruct (Scratchpad.clearOldestToolResults _ sp) as [c2 sp2].
        cbn [fst snd] in *. subst c2 sp2. cbn [Nat.ltb Nat.leb].
        now destruct ctx. }
      cbn [withScratchpad scratchpad iteration] in Hfail |- *.
      rewrite Hfail. unfold failWith.
      destruct (dateNow X w2) as [now w3]. cbn [prependLoop app].
      eexists _, w3, _. split; [reflexivity|].
      right. split; [reflexivity|].
      split; [now apply Nat.ltb_lt | reflexivity].
    + unfold failWith. destruct (dateNow X w1) as [now w3].
      eexists _, w3, _. split; [reflexivity|].
      left. split; reflexivity.
  - unfold failWith. destruct (dateNow X w1) as [now w3].
    eexists _, w3, _. split; [reflexivity|].
    left. split; reflexivity.
Qed.

(** *** The iteration budget *)

Lemma forAwait_completes
    (evs : list (ToolExecutionEvent * (Scratchpad.t * W)))
    (final : Scratchpad.t * W) :
  Forall (fun e => isToolDenied (ofToolEvent (fst e)) = false) evs ->
  exists tr,
    forAwait evs final = Completed tr (fst final) (snd final)
    /\ modelCalls tr = [].
Proof.
  induction 1 as [|[e st] evs He _ IH]; simpl.
  - now exists [].
  - simpl in He. rewrite He. destruct IH as (tr & -> & Htr).
    now exists (Yield (ofToolEvent e) :: tr).
Qed.

Lemma emitThinking_calls (response : Response) (text : string)
    (ctx : RunContext) :
  modelCalls (fst (emitThinking X response text ctx)) = []
  /\ iteration (snd (emitThinking X response text ctx)) = iteration ctx.
Proof. unfold emitThinking. now destruct (_ && _). Qed.

Lemma manageContextThreshold_calls (ctx : RunContext) :
  modelCalls (fst (manageContextThreshold X A ctx)) = [].
Proof.
  unfold manageContextThreshold.
  destruct (_ <? _)%Z; [|reflexivity].
  destruct (Scratchpad.clearOldestToolResults _ _) as [c sp].
  destruct (0 <? c)%nat; reflexivity.
Qed.

(** Under [alwaysRequestsTools] a pass calls the model once and the loop
    goes on. *)
Lemma pass_goes_on (q : string) (overflowRetries : nat)
    (currentPrompt : string) (ctx : RunContext) (w : W) :
  alwaysRequestsTools X A ->
  exists tr prompt sp tc w1,
    pass X A q overflowRetries currentPrompt ctx w
    = Next tr 0 prompt sp tc w1
    /\ modelCalls tr = [(iteration ctx, currentPrompt)].
Proof.
  intros Halways.
  destruct (Halways currentPrompt w) as (m & usage & w1 & Hcall & Hm & Hok).
  unfold pass. rewrite callModelLoop_eq, Hcall.
  unfold afterResponse. cbv zeta.
  set (ctx1 := withTokenCounter _ ctx).
  pose proof (emitThinking_calls (RMessage m)
                (responseTextOf X (RMessage m)) ctx1) as [Hth _].
  destruct (emitThinking _ _ _ _) as [trThinking ctx2]. cbn [fst] in Hth.
  rewrite Hm. cbn [negb].
  destruct (forAwait_completes _ (snd (toolExecutor A m ctx2 w1))
              (Hok ctx2 w1)) as (trTools & -> & Htools).
  pose proof (manageContextThreshold_calls
                (withScratchpad (fst (snd (toolExecutor A m ctx2 w1))) ctx2))
    as Hmanage.
  destruct (manageContextThreshold _ _ _) as [trCleared sp1].
  cbn [fst] in Hmanage.
  eexists _, _, _, _, _. split; [reflexivity|].
  rewrite !modelCalls_app, Hth, Htools, Hmanage. reflexivity.
Qed.

Lemma mainLoop_exhausts (q : string) (k : nat) :
  alwaysRequestsTools X A ->
  forall (overflowRetries : nat) (currentPrompt : string)
         (ctx : RunContext) (w : W),
    (Z.of_nat (iteration ctx) + Z.of_nat k = maxIterations A)%Z ->
    exists pre d,
      fst (mainLoop X A q overflowRetries currentPrompt ctx w)
      = pre ++ [Yield (done d)]
      /\ map fst (modelCalls pre) = seq (S (iteration ctx)) k
      /\ answer d = maximumIterationsMessage A
      /\ iterations d = iteration ctx + k.
Proof.
  intros Halways. induction k as [|k IH]; intros r p ctx w Hbudget.
  - rewrite mainLoop_eq.
    assert (Hge : (Z.of_nat (iteration ctx) <? maxIterations A)%Z = false)
      by (apply Z.ltb_ge; lia).
    rewrite Hge. unfold maxIterationsReached.
    destruct (dateNow X w) as [now w1].
    eexists [], _. split; [reflexivity|].
    repeat split. simpl. lia.
  - rewrite mainLoop_eq.
    assert (Hlt : (Z.of_nat (iteration ctx) <? maxIterations A)%Z = true)
      by (apply Z.ltb_lt; lia).
    rewrite Hlt.
    destruct (pass_goes_on q r p (withIteration (S (iteration ctx)) ctx) w
                Halways) as (tr & p' & sp & tc & w1 & -> & Htr).
    set (ctx' := withTokenCounter tc _).
    destruct (IH 0 p' ctx' w1) as (pre & d & Hrun & Hcalls & Hanswer & Hit).
    { subst ctx'. simpl. lia. }
    exists (tr ++ pre), d. split.
    { unfold prepend. cbn [fst]. rewrite Hrun. now rewrite app_assoc. }
    split.
    { rewrite modelCalls_app, map_app, Htr, Hcalls. reflexivity. }
    split; [exact Hanswer|].
    rewrite Hit. subst ctx'. simpl. lia.
Qed.

(** C1. With [maxIterations = N], [N >= 1], a model that always requests
    tool calls and an executor that never denies them, the run calls the
    model exactly [N] times, the k-th time with the iteration counter at
    [k], and then emits its terminal [done] with the "maximum iterations"
    message and [iterations = N].  The counter starts at 0, is incremented
    once at the top of each pass and stays between 0 and [maxIterations]. *)
Theorem max_iterations_run (N : nat) (q : string)
    (h : option InMemoryChatHistory) (w : W) :
  1 <= N ->
  maxIterations A = Z.of_nat N ->
  tools A <> [] ->
  alwaysRequestsTools X A ->
  iteration (fst (createRunContext X q w)) = 0
  /\ exists pre d,
       fst (run X A q h w) = pre ++ [Yield (done d)]
       /\ map fst (modelCalls (fst (run X A q h w))) = seq 1 N
       /\ length (modelCalls (fst (run X A q h w))) = N
       /\ Forall (fun c => 0 <= fst c <= N) (modelCalls (fst (run X A q h w)))
       /\ answer d
          = "Reached maximum iterations (" +:+ pretty (Z.of_nat N)
            +:+ "). I was unable to complete the research in the allotted steps."
       /\ iterations d = N.
Proof.
  intros HN Hmax Htools Halways. split.
  { unfold createRunContext. now destruct (dateNow X w). }
  unfold run. destruct (dateNow X w) as [t0 w1].
  destruct (tools A) as [|t ts] eqn:Ht; [contradiction|]. cbn [length Nat.eqb].
  unfold createRunContext. destruct (dateNow X w1) as [t1 w2].
  set (ctx := mkRunContext q 0 t1 Scratchpad.empty TokenCounter.empty).
  destruct (mainLoop_exhausts q N Halways 0 (buildInitialPrompt X q h) ctx w2)
    as (pre & d & Hrun & Hcalls & Hanswer & Hit).
  { subst ctx. simpl. lia. }
  assert (Hall : map fst (modelCalls
                   (fst (mainLoop X A q 0 (buildInitialPrompt X q h) ctx w2)))
                 = seq 1 N).
  { rewrite Hrun, modelCalls_app, map_app, Hcalls. simpl.
    now rewrite app_nil_r. }
  exists pre, d. split; [exact Hrun|]. split; [exact Hall|].
  split; [now rewrite <- (length_map fst), Hall, length_seq|].
  split.
  { apply List.Forall_forall. intros c Hc.
    assert (Hin : In (fst c) (seq 1 N)).
    { rewrite <- Hall. now apply in_map. }
    apply in_seq in Hin. lia. }
  split; [|exact Hit].
  rewrite Hanswer. unfold maximumIterationsMessage. now rewrite Hmax.
Qed.

End AgentFacts.

(** ** What every run keeps *)

Lemma steps_events (P : Step -> Prop) (Q : AgentEvent -> Prop) (tr : Trace) :
  (forall e, P (Yield e) -> Q e) ->
  Forall P tr -> Forall Q (events tr).
Proof.
  intros HPQ. induction 1 as [|[i p|e] tr Hs _ IH]; simpl.
  - constructor.
  - exact IH.
  - constructor; [now apply HPQ | exact IH].
Qed.

Lemma steps_modelCalls (P : Step -> Prop) (Q : nat * string -> Prop)
    (tr : Trace) :
  (forall i p, P (ModelCall i p) -> Q (i, p)) ->
  Forall P tr -> Forall Q (modelCalls tr).
Proof.
  intros HPQ. induction 1 as [|[i p|e] tr Hs _ IH]; simpl.
  - constructor.
  - constructor; [now apply HPQ | exact IH].
  - exact IH.
Qed.

Section AgentInvariants.

Context {W : Type} (X : Collaborators W) (A : Agent W).

Lemma failWith_steps (errorMessage prompt : string) (ctx : RunContext)
    (w : W) :
  Forall (stepAt X (iteration ctx))
         (loopTrace (failWith X errorMessage prompt ctx w)).
Proof.
  unfold failWith. destruct (dateNow X w) as [now w1]. simpl.
  repeat constructor.
Qed.

Lemma callModelLoop_steps (q : string) (overflowRetries : nat)
    (currentPrompt : string) (ctx : RunContext) (w : W) :
  Forall (stepAt X (iteration ctx))
         (loopTrace (callModelLoop X A q overflowRetries currentPrompt ctx w))
  /\ match callModelLoop X A q overflowRetries currentPrompt ctx w with
     | Responded _ _ _ retries _ ctx1 _ =>
         retries = 0 /\ iteration ctx1 = iteration ctx
     | Failed _ _ => True
     end.
Proof.
  remember (MAX_OVERFLOW_RETRIES - overflowRetries) as n eqn:Hn.
  revert overflowRetries currentPrompt ctx w Hn.
  induction n as [n IH] using lt_wf_ind. intros r p ctx w Hn.
  rewrite callModelLoop_eq.
  destruct (callModel X A p w) as [[[response usage]|e] w1].
  - split; [repeat constructor | now split].
  - assert (Hfail : forall c,
              iteration c = iteration ctx ->
              Forall (stepAt X (iteration ctx))
                     (loopTrace (failWith X e p c w1))
              /\ match failWith X e p c w1 with
                 | Responded _ _ _ retries _ ctx1 _ =>
                     retries = 0 /\ iteration ctx1 = iteration ctx
                 | Failed _ _ => True
                 end).
    { intros c Hc. split.
      - rewrite <- Hc. apply failWith_steps.
      - unfold failWith. now destruct (dateNow X w1). }
    destruct (isContextOverflowError X e
              && (r <? MAX_OVERFLOW_RETRIES)%nat) eqn:Hretry;
      [|now apply Hfail].
    destruct (Scratchpad.clearOldestToolResults _ _) as [c sp].
    destruct (0 <? c)%nat eqn:Hpos; [|now apply Hfail].
    apply andb_prop in Hretry as [_ Hlt]. apply Nat.ltb_lt in Hlt.
    apply Nat.ltb_lt in Hpos.
    destruct (IH (MAX_OVERFLOW_RETRIES - S r) ltac:(lia) (S r)
                (iterationPrompt X q sp) (withScratchpad sp ctx) w1 eq_refl)
      as [Hsteps Hres].
    cbn [withScratchpad iteration] in Hsteps, Hres.
    split.
    + rewrite loopTrace_prependLoop. apply Forall_app. split; [|exact Hsteps].
      repeat constructor. exact Hpos.
    + destruct (callModelLoop _ _ _ _ _ _ _); [exact Hres | exact I].
Qed.

Lemma forAwait_steps (i : nat)
    (evs : list (ToolExecutionEvent * (Scratchpad.t * W)))
    (final : Scratchpad.t * W) :
  match forAwait evs final with
  | Denied tr _ _ => Forall (stepAt X i) tr /\ modelCalls tr = []
  | Completed tr _ _ => Forall (stepAt X i) tr /\ modelCalls tr = []
  end.
Proof.
  induction evs as [|[e st] evs IH]; simpl; [now split|].
  destruct (isToolDenied (ofToolEvent e)) eqn:He.
  - split; [|reflexivity]. constructor; [|constructor].
    now destruct e.
  - destruct (forAwait evs final) as [tr sp w|tr sp w];
      destruct IH as [IH Hcalls]; (split; [|exact Hcalls]);
      (constructor; [now destruct e | exact IH]).
Qed.

Lemma manageContextThreshold_steps (i : nat) (ctx : RunContext) :
  Forall (stepAt X i) (fst (manageContextThreshold X A ctx)).
Proof.
  unfold manageContextThreshold.
  destruct (_ <? _)%Z; [|constructor].
  destruct (Scratchpad.clearOldestToolResults _ _) as [c sp].
  destruct (0 <? c)%nat eqn:Hc; [|constructor].
  apply Nat.ltb_lt in Hc.
  constructor; [split; [exact Hc | now right] | constructor].
Qed.

Lemma emitThinking_steps (i : nat) (response : Response) (text : string)
    (ctx : RunContext) :
  Forall (stepAt X i) (fst (emitThinking X response text ctx)).
Proof.
  unfold emitThinking.
  destruct (negb (String.eqb (trim X text) "")) eqn:Hne; [|constructor].
  destruct (carriesToolCalls X response); [|constructor].
  repeat constructor. simpl. intros Heq. rewrite Heq in Hne. discriminate.
Qed.

Lemma handleDirectResponse_steps (text : string) (ctx : RunContext) (w : W) :
  Forall (stepAt X (iteration ctx)) (fst (handleDirectResponse X text ctx w))
  /\ modelCalls (fst (handleDirectResponse X text ctx w)) = [].
Proof.
  unfold handleDirectResponse. destruct (dateNow X w) as [now w1].
  split; [repeat constructor | reflexivity].
Qed.

Lemma afterResponse_steps (q : string) (tr : Trace) (response : Response)
    (usage : option TokenUsage) (overflowRetries : nat) (ctx : RunContext)
    (w : W) :
  Forall (stepAt X (iteration ctx)) tr ->
  Forall (stepAt X (iteration ctx))
         (passTrace (afterResponse X A q tr response usage overflowRetries
                       ctx w))
  /\ modelCalls (passTrace (afterResponse X A q tr response usage
                              overflowRetries ctx w))
     = modelCalls tr
  /\ match afterResponse X A q tr response usage overflowRetries ctx w with
     | Next _ retries _ _ _ _ => retries = overflowRetries
     | Return _ _ => True
     end.
Proof.
  intros Htr. unfold afterResponse. cbv zeta.
  set (ctx1 := withTokenCounter _ ctx).
  pose proof (emitThinking_steps (iteration ctx) response
                (responseTextOf X response) ctx1) as Hth.
  pose proof (emitThinking_calls X response (responseTextOf X response) ctx1)
    as [Hthc Hit].
  destruct (emitThinking _ _ _ _) as [trThinking ctx2].
  cbn [fst snd] in Hth, Hthc, Hit.
  assert (Hit2 : iteration ctx2 = iteration ctx) by (rewrite Hit; reflexivity).
  assert (Hdirect : forall text,
    let r := (let (trDone, w1) := handleDirectResponse X text ctx2 w in
              Return (tr ++ trThinking ++ trDone) w1) in
    Forall (stepAt X (iteration ctx)) (passTrace r)
    /\ modelCalls (passTrace r) = modelCalls tr
    /\ match r with
       | Next _ retries _ _ _ _ => retries = overflowRetries
       | Return _ _ => True
       end).
  { intros text. cbv zeta.
    pose proof (handleDirectResponse_steps text ctx2 w) as [Hd Hdc].
    rewrite Hit2 in Hd.
    destruct (handleDirectResponse _ _ _ _) as [trDone w1].
    cbn [fst passTrace] in *.
    split; [|split; [|exact I]].
    - apply Forall_app. split; [exact Htr|].
      apply Forall_app. now split.
    - rewrite !modelCalls_app, Hthc, Hdc. simpl. now rewrite app_nil_r. }
  destruct response as [s|m]; [apply Hdirect|].
  destruct (hasToolCalls X m); cbn [negb]; [|apply Hdirect].
  pose proof (forAwait_steps (iteration ctx) (fst (toolExecutor A m ctx2 w))
                (snd (toolExecutor A m ctx2 w))) as Hfa.
  destruct (forAwait _ _) as [trTools sp w1|trTools sp w1];
    destruct Hfa as [Hfa Hfac].
  - destruct (dateNow X w1) as [now w2]. cbn [passTrace].
    split; [|split; [|exact I]].
    + apply Forall_app. split; [exact Htr|].
      apply Forall_app. split; [exact Hth|].
      apply Forall_app. split; [exact Hfa|].
      repeat constructor. simpl. exact Hit2.
    + rewrite !modelCalls_app, Hthc, Hfac. simpl. now rewrite app_nil_r.
  - pose proof (manageContextThreshold_steps (iteration ctx)
                  (withScratchpad sp ctx2)) as Hm.
    pose proof (manageContextThreshold_calls X A (withScratchpad sp ctx2))
      as Hmc.
    destruct (manageContextThreshold _ _ _) as [trCleared sp1].
    cbn [fst] in Hm, Hmc. cbn [passTrace].
    split; [|split; [|reflexivity]].
    + apply Forall_app. split; [exact Htr|].
      apply Forall_app. split; [exact Hth|].
      apply Forall_app. now split.
    + rewrite !modelCalls_app, Hthc, Hfac, Hmc. simpl. now rewrite app_nil_r.
Qed.

Lemma pass_steps (q : string) (overflowRetries : nat)
    (currentPrompt : string) (ctx : RunContext) (w : W) :
  Forall (stepAt X (iteration ctx))
         (passTrace (pass X A q overflowRetries currentPrompt ctx w))
  /\ modelCalls (passTrace (pass X A q overflowRetries currentPrompt ctx w))
     = modelCalls
         (loopTrace (callModelLoop X A q overflowRetries currentPrompt ctx w))
  /\ match pass X A q overflowRetries currentPrompt ctx w with
     | Next _ retries _ _ _ _ => retries = 0
     | Return _ _ => True
     end.
Proof.
  unfold pass.
  pose proof (callModelLoop_steps q overflowRetries currentPrompt ctx w)
    as [Hsteps Hres].
  destruct (callModelLoop _ _ _ _ _ _ _) as [tr resp u r p c w1|tr w1].
  - cbn [loopTrace] in *. destruct Hres as [-> Hctx].
    rewrite <- Hctx in Hsteps.
    destruct (afterResponse_steps q tr resp u 0 c w1 Hsteps)
      as (Ha & Hb & Hc).
    rewrite Hctx in Ha. split; [exact Ha|]. split; [exact Hb|].
    destruct (afterResponse _ _ _ _ _ _ _ _ _); [exact I | exact Hc].
  - cbn [loopTrace passTrace] in *. now repeat split.
Qed.

Lemma stepAt_within (i : nat) (s : Step) :
  (Z.of_nat (S i) <= maxIterations A)%Z ->
  stepAt X (S i) s -> stepWithin X A i s.
Proof.
  intros Hle. destruct s as [j p|[m|n o|n a|c k|d]]; simpl; try tauto.
  - intros ->. split; [lia | exact Hle].
  - intros ->. right. split; [lia | exact Hle].
Qed.

Lemma stepWithin_weaken (i : nat) (s : Step) :
  (Z.of_nat (S i) <= maxIterations A)%Z ->
  stepWithin X A (S i) s -> stepWithin X A i s.
Proof.
  intros Hle. destruct s as [j p|[m|n o|n a|c k|d]]; simpl; try tauto.
  - intros [Hlt Hmax]. split; [lia | exact Hmax].
  - intros [-> | [Hlt Hmax]]; right; (split; [lia | assumption]).
Qed.

(** After a prune to three records, a failing call is not retried: the
    retry loop calls the model once. *)
Lemma callModelLoop_one_call (q : string) (overflowRetries : nat)
    (currentPrompt : string) (ctx : RunContext) (w : W) :
  length (Scratchpad.retainedRecords (scratchpad ctx))
  <= OVERFLOW_KEEP_TOOL_USES ->
  length (modelCalls
            (loopTrace (callModelLoop X A q overflowRetries currentPrompt
                          ctx w))) = 1.
Proof.
  intros Hfew. rewrite callModelLoop_eq.
  destruct (callModel X A currentPrompt w) as [[[response usage]|e] w1];
    [reflexivity|].
  assert (Hfail : forall c,
            length (modelCalls (loopTrace (failWith X e currentPrompt c w1)))
            = 1).
  { intros c. unfold failWith. now destruct (dateNow X w1). }
  destruct (_ && _); [|apply Hfail].
  unfold Scratchpad.clearOldestToolResults.
  replace (length (Scratchpad.retainedRecords (scratchpad ctx))
           - OVERFLOW_KEEP_TOOL_USES) with 0 by lia.
  apply Hfail.
Qed.

Lemma callModelLoop_two_calls (q : string) (overflowRetries : nat)
    (currentPrompt : string) (ctx : RunContext) (w : W) :
  length (modelCalls
            (loopTrace (callModelLoop X A q overflowRetries currentPrompt
                          ctx w))) <= 2.
Proof.
  rewrite callModelLoop_eq.
  destruct (callModel X A currentPrompt w) as [[[response usage]|e] w1];
    [simpl; lia|].
  assert (Hfail : forall c,
            length (modelCalls (loopTrace (failWith X e currentPrompt c w1)))
            <= 2).
  { intros c. unfold failWith. destruct (dateNow X w1). simpl. lia. }
  destruct (_ && _); [|apply Hfail].
  pose proof (ScratchpadFacts.retained_discardOldest
                (length (Scratchpad.retainedRecords (scratchpad ctx))
                 - OVERFLOW_KEEP_TOOL_USES) (scratchpad ctx)) as Hkept.
  unfold Scratchpad.clearOldestToolResults.
  destruct (0 <? _)%nat; [|apply Hfail].
  rewrite loopTrace_prependLoop, modelCalls_app, length_app.
  rewrite callModelLoop_one_call by (cbn [withScratchpad scratchpad]; lia).
  simpl. lia.
Qed.

Lemma pass_begins (q : string) (overflowRetries : nat)
    (currentPrompt : string) (ctx : RunContext) (w : W) :
  exists rest,
    passTrace (pass X A q overflowRetries currentPrompt ctx w)
    = ModelCall (iteration ctx) currentPrompt :: rest.
Proof.
  unfold pass.
  destruct (callModelLoop_calls_first X A q overflowRetries currentPrompt
              ctx w) as [rest Hfirst].
  destruct (callModelLoop _ _ _ _ _ _ _) as [tr resp u r p c w1|tr w1];
    cbn [loopTrace] in Hfirst; subst tr; [|now exists rest].
  unfold afterResponse. cbv zeta.
  destruct (emitThinking _ _ _ _) as [trThinking ctx2].
  assert (Hdirect : forall text, exists rest0,
    passTrace (let (trDone, w2) := handleDirectResponse X text ctx2 w1 in
               Return ((ModelCall (iteration ctx) currentPrompt :: rest)
                       ++ trThinking ++ trDone) w2)
    = ModelCall (iteration ctx) currentPrompt :: rest0).
  { intros text. destruct (handleDirectResponse _ _ _ _). now eexists. }
  destruct resp as [s|m]; [apply Hdirect|].
  destruct (negb (hasToolCalls X m)); [apply Hdirect|].
  destruct (forAwait _ _) as [trTools sp w2|trTools sp w2].
  - destruct (dateNow X w2). now eexists.
  - destruct (manageContextThreshold _ _ _). now eexists.
Qed.

Lemma mainLoop_keeps (q : string) (k : nat) :
  forall (overflowRetries : nat) (currentPrompt : string)
         (ctx : RunContext) (w : W),
    Z.to_nat (maxIterations A - Z.of_nat (iteration ctx)) = k ->
    Forall (stepWithin X A (iteration ctx))
           (fst (mainLoop X A q overflowRetries currentPrompt ctx w))
    /\ length (modelCalls
                 (fst (mainLoop X A q overflowRetries currentPrompt ctx w)))
       <= 2 * k.
Proof.
  induction k as [|k IH]; intros r p ctx w Hk; rewrite mainLoop_eq.
  - assert (Hge : (Z.of_nat (iteration ctx) <? maxIterations A)%Z = false)
      by (apply Z.ltb_ge; lia).
    rewrite Hge. unfold maxIterationsReached.
    destruct (dateNow X w) as [now w1]. simpl.
    split; [|lia]. constructor; [now left | constructor].
  - assert (Hlt : (Z.of_nat (iteration ctx) <? maxIterations A)%Z = true)
      by (apply Z.ltb_lt; lia).
    rewrite Hlt.
    assert (Hle : (Z.of_nat (S (iteration ctx)) <= maxIterations A)%Z)
      by (apply Z.ltb_lt in Hlt; lia).
    set (ctx1 := withIteration (S (iteration ctx)) ctx).
    destruct (pass_steps q r p ctx1 w) as (Hsteps & Hcalls & _).
    pose proof (callModelLoop_two_calls q r p ctx1 w) as Htwo.
    rewrite <- Hcalls in Htwo.
    assert (Hpass : Forall (stepWithin X A (iteration ctx))
                      (passTrace (pass X A q r p ctx1 w))).
    { eapply List.Forall_impl; [|exact Hsteps].
      intros s. now apply stepAt_within. }
    destruct (pass X A q r p ctx1 w) as [tr w1|tr r' p' sp tc w1];
      cbn [passTrace fst] in *.
    + split; [exact Hpass | lia].
    + destruct (IH r' p' (withTokenCounter tc (withScratchpad sp ctx1)) w1)
        as [Hrest Hcount].
      { subst ctx1. simpl. lia. }
      unfold prepend. cbn [fst]. split.
      * apply Forall_app. split; [exact Hpass|].
        eapply List.Forall_impl; [|exact Hrest].
        intros s. now apply stepWithin_weaken.
      * rewrite modelCalls_app, length_app. lia.
Qed.

Lemma run_keeps (q : string) (h : option InMemoryChatHistory) (w : W) :
  Forall (stepWithin X A 0) (fst (run X A q h w))
  /\ length (modelCalls (fst (run X A q h w)))
     <= 2 * Z.to_nat (maxIterations A).
Proof.
  unfold run. destruct (dateNow X w) as [t0 w1].
  destruct (length (tools A) =? 0)%nat.
  - destruct (dateNow X w1) as [now w2]. simpl.
    split; [|lia]. constructor; [now left | constructor].
  - unfold createRunContext. destruct (dateNow X w1) as [t1 w2].
    apply (mainLoop_keeps q (Z.to_nat (maxIterations A)) 0
             (buildInitialPrompt X q h)
             (mkRunContext q 0 t1 Scratchpad.empty TokenCounter.empty) w2).
    simpl. f_equal. lia.
Qed.

(** X1. A run with a non-empty catalog and at least one iteration allowed
    begins by calling the model, at iteration 1, with the initial prompt:
    the raw query when there is no history, no message in it or no recent
    turn, and the history context built from the recent turns otherwise. *)
Theorem run_begins_with_initial_prompt (q : string)
    (h : option InMemoryChatHistory) (w : W) :
  tools A <> [] ->
  (1 <= maxIterations A)%Z ->
  (exists rest,
     fst (run X A q h w) = ModelCall 1 (buildInitialPrompt X q h) :: rest)
  /\ match h with
     | None => buildInitialPrompt X q h = q
     | Some history =>
         match getRecentTurns history with
         | [] => buildInitialPrompt X q h = q
         | turn :: turns =>
             buildInitialPrompt X q h
             = if hasMessages history
               then buildHistoryContext X (turn :: turns) q
               else q
         end
     end.
Proof.
  intros Htools Hmax. split.
  - unfold run. destruct (dateNow X w) as [t0 w1].
    destruct (tools A) as [|t ts]; [contradiction|]. cbn [length Nat.eqb].
    unfold createRunContext. destruct (dateNow X w1) as [t1 w2].
    rewrite mainLoop_eq. cbn [iteration].
    assert (Hlt : (Z.of_nat 0 <? maxIterations A)%Z = true)
      by (apply Z.ltb_lt; lia).
    rewrite Hlt.
    destruct (pass_begins q 0 (buildInitialPrompt X q h)
                (withIteration 1
                   (mkRunContext q 0 t1 Scratchpad.empty TokenCounter.empty))
                w2) as [rest Hrest].
    destruct (pass _ _ _ _ _ _ _) as [tr w3|tr r p sp tc w3];
      cbn [passTrace] in Hrest; subst tr; now eexists.
  - destruct h as [history|]; [|reflexivity]. unfold buildInitialPrompt.
    destruct (getRecentTurns history) as [|turn turns];
      now destruct (hasMessages history).
Qed.

(** X2. With a non-empty catalog and no iteration allowed
    ([maxIterations <= 0]) the model is never called: the run emits the
    "maximum iterations" [done] at once, with zero iterations and no tool
    call. *)
Theorem run_without_budget (q : string) (h : option InMemoryChatHistory)
    (w : W) :
  tools A <> [] ->
  (maxIterations A <= 0)%Z ->
  exists d,
    fst (run X A q h w) = [Yield (done d)]
    /\ answer d = maximumIterationsMessage A
    /\ iterations d = 0
    /\ toolCalls d = [].
Proof.
  intros Htools Hmax. unfold run. destruct (dateNow X w) as [t0 w1].
  destruct (tools A) as [|t ts]; [contradiction|]. cbn [length Nat.eqb].
  unfold createRunContext. destruct (dateNow X w1) as [t1 w2].
  rewrite mainLoop_eq. cbn [iteration].
  assert (Hge : (Z.of_nat 0 <? maxIterations A)%Z = false)
    by (apply Z.ltb_ge; lia).
  rewrite Hge. unfold maxIterationsReached.
  destruct (dateNow X w2) as [now w3]. eexists. now repeat split.
Qed.

(** X3. In every run the iteration counter stays within the budget: each
    model call is made with the counter at least 1 and below
    [maxIterations + 1], and the [iterations] a [done] reports is 0 or
    below [maxIterations + 1].  For the integer budget of the model this
    is to say: at most [maxIterations]. *)
Theorem iteration_stays_within_budget (q : string)
    (h : option InMemoryChatHistory) (w : W) :
  Forall (fun c => 1 <= fst c /\ (Z.of_nat (fst c) < maxIterations A + 1)%Z)
         (modelCalls (fst (run X A q h w)))
  /\ Forall (fun e => match e with
                      | done d =>
                          iterations d = 0
                          \/ (Z.of_nat (iterations d) < maxIterations A + 1)%Z
                      | _ => True
                      end)
            (events (fst (run X A q h w))).
Proof.
  destruct (run_keeps q h w) as [Hsteps _]. split.
  - eapply steps_modelCalls; [|exact Hsteps].
    intros i p [Hlt Hle]. simpl. split; lia.
  - eapply steps_events; [|exact Hsteps].
    intros [m|n o|n a|c k|d]; simpl; try tauto.
    intros [Hzero | [_ Hle]]; [now left | right; lia].
Qed.

(** X5. A [context_cleared] event is never empty: in every run each one
    reports at least one discarded record, and as kept count either the
    overflow keep-count or the threshold keep-count. *)
Theorem context_cleared_reports_discards (q : string)
    (h : option InMemoryChatHistory) (w : W) :
  Forall (fun e => match e with
                   | context_cleared clearedCount keptCount =>
                       0 < clearedCount
                       /\ (keptCount = OVERFLOW_KEEP_TOOL_USES
                           \/ keptCount = KEEP_TOOL_USES X)
                   | _ => True
                   end)
         (events (fst (run X A q h w))).
Proof.
  destruct (run_keeps q h w) as [Hsteps _].
  eapply steps_events; [|exact Hsteps].
  intros [m|n o|n a|c k|d]; simpl; tauto.
Qed.

(** X6. A [thinking] event never carries an empty message: whitespace-only
    text that accompanies tool calls is skipped. *)
Theorem thinking_is_never_empty (q : string)
    (h : option InMemoryChatHistory) (w : W) :
  Forall (fun e => match e with
                   | thinking message => message <> ""
                   | _ => True
                   end)
         (events (fst (run X A q h w))).
Proof.
  destruct (run_keeps q h w) as [Hsteps _].
  eapply steps_events; [|exact Hsteps].
  intros [m|n o|n a|c k|d]; simpl; tauto.
Qed.

End AgentInvariants.

(** ** The loop over any pruning *)

Section AnyPruningFacts.

Context {W : Type} (X : Collaborators W) (A : Agent W)
  (prune : nat -> Scratchpad.t -> nat * Scratchpad.t).

Lemma callModelLoopBy_eq (q : string) (overflowRetries : nat)
    (currentPrompt : string) (ctx : RunContext) (w : W) :
  callModelLoopBy X A prune q overflowRetries currentPrompt ctx w =
  match callModel X A currentPrompt w with
  | (Returns (response, usage), w1) =>
      Responded [ModelCall (iteration ctx) currentPrompt]
                response usage 0 currentPrompt ctx w1
  | (Throws errorMessage, w1) =>
      if isContextOverflowError X errorMessage
         && (overflowRetries <? MAX_OVERFLOW_RETRIES)%nat
      then
        let (clearedCount, sp) :=
          prune OVERFLOW_KEEP_TOOL_USES (scratchpad ctx) in
        if (0 <? clearedCount)%nat then
          prependLoop
            [ModelCall (iteration ctx) currentPrompt;
             Yield (context_cleared clearedCount OVERFLOW_KEEP_TOOL_USES)]
            (callModelLoopBy X A prune q (S overflowRetries)
               (iterationPrompt X q sp) (withScratchpad sp ctx) w1)
        else failWith X errorMessage currentPrompt (withScratchpad sp ctx) w1
      else failWith X errorMessage currentPrompt ctx w1
  end.
Proof.
  funelim (callModelLoopBy X A prune q overflowRetries currentPrompt ctx w);
    clear Heqcall;
    repeat match goal with
           | E : callModel _ _ _ _ = _ |- _ => rewrite E
           | E : andb _ _ = _ |- _ => rewrite E
           | E : prune _ _ = _ |- _ => rewrite E
           | E : Nat.ltb 0 _ = _ |- _ => rewrite E
           end;
    reflexivity.
Qed.

Lemma mainLoopBy_eq (q : string) (overflowRetries : nat)
    (currentPrompt : string) (ctx : RunContext) (w : W) :
  mainLoopBy X A prune q overflowRetries currentPrompt ctx w =
  if (Z.of_nat (iteration ctx) <? maxIterations A)%Z then
    match passBy X A prune q overflowRetries currentPrompt
            (withIteration (S (iteration ctx)) ctx) w with
    | Return tr w1 => (tr, w1)
    | Next tr retries prompt sp tc w1 =>
        prepend tr
          (mainLoopBy X A prune q retries prompt
             (withTokenCounter tc
                (withScratchpad sp
                   (withIteration (S (iteration ctx)) ctx))) w1)
    end
  else maxIterationsReached X A ctx w.
Proof.
  funelim (mainLoopBy X A prune q overflowRetries currentPrompt ctx w);
    clear Heqcall;
    repeat match goal with
           | E : Z.ltb _ _ = _ |- _ => rewrite E
           | E : passBy _ _ _ _ _ _ _ _ = _ |- _ => rewrite E
           end;
    reflexivity.
Qed.

(** *** The number of model calls *)

Lemma endsAt_app (i : nat) (tr tr' : Trace) :
  endsAt i tr' -> endsAt i (tr ++ tr').
Proof.
  intros (pre & d & -> & Hd). exists (tr ++ pre), d.
  split; [now rewrite app_assoc | exact Hd].
Qed.

Lemma failWith_endsAt (errorMessage prompt : string) (ctx : RunContext)
    (w : W) :
  endsAt (iteration ctx) (loopTrace (failWith X errorMessage prompt ctx w))
  /\ exists tr w1, failWith X errorMessage prompt ctx w = Failed tr w1.
Proof.
  unfold failWith. destruct (dateNow X w) as [now w1]. cbn [loopTrace].
  split; [|now eexists _, _].
  now exists [ModelCall (iteration ctx) prompt], (mkDone
    ("Error: " +:+ formatUserFacingError X errorMessage)
    (Scratchpad.getToolCallRecords (scratchpad ctx)) (iteration ctx)
    (now - startTime ctx)
    (Some (TokenCounter.getUsage (tokenCounter ctx)))
    (Some (TokenCounter.getTokensPerSecond (tokenCounter ctx)
             (now - startTime ctx)))).
Qed.

(** The retry loop calls the model once, and once more for each overflow
    it retries; it breaks with the retry count at 0, or ends the run at
    the iteration of the pass. *)
Lemma callModelLoopBy_calls (q : string) (n : nat) :
  forall (overflowRetries : nat) (currentPrompt : string) (ctx : RunContext)
         (w : W),
    MAX_OVERFLOW_RETRIES - overflowRetries = n ->
    length (modelCalls
              (loopTrace (callModelLoopBy X A prune q overflowRetries
                            currentPrompt ctx w)))
    <= S n
    /\ match callModelLoopBy X A prune q overflowRetries currentPrompt ctx w
       with
       | Responded _ _ _ retries _ ctx1 _ =>
           retries = 0 /\ iteration ctx1 = iteration ctx
       | Failed tr _ => endsAt (iteration ctx) tr
       end.
Proof.
  induction n as [n IH] using lt_wf_ind. intros r p ctx w Hn.
  rewrite callModelLoopBy_eq.
  destruct (callModel X A p w) as [[[response usage]|e] w1];
    [simpl; split; [lia | now split]|].
  assert (Hfail : forall c,
    iteration c = iteration ctx ->
    length (modelCalls (loopTrace (failWith X e p c w1))) <= S n
    /\ match failWith X e p c w1 with
       | Responded _ _ _ retries _ ctx1 _ =>
           retries = 0 /\ iteration ctx1 = iteration ctx
       | Failed tr _ => endsAt (iteration ctx) tr
       end).
  { intros c Hc.
    destruct (failWith_endsAt e p c w1) as [Hend (tr & w2 & Heq)].
    rewrite Heq in Hend |- *. cbn [loopTrace] in *. rewrite <- Hc.
    split; [|exact Hend].
    unfold failWith in Heq. destruct (dateNow X w1).
    injection Heq as <- _. simpl. lia. }
  destruct (isContextOverflowError X e
            && (r <? MAX_OVERFLOW_RETRIES)%nat) eqn:Hretry;
    [|now apply Hfail].
  destruct (prune OVERFLOW_KEEP_TOOL_USES (scratchpad ctx)) as [c sp].
  destruct (0 <? c)%nat; [|now apply Hfail].
  apply andb_prop in Hretry as [_ Hlt]. apply Nat.ltb_lt in Hlt.
  destruct (IH (MAX_OVERFLOW_RETRIES - S r) ltac:(lia) (S r)
              (iterationPrompt X q sp) (withScratchpad sp ctx) w1 eq_refl)
    as [Hcalls Hres].
  cbn [withScratchpad iteration] in Hres.
  split.
  - rewrite loopTrace_prependLoop, modelCalls_app, length_app. simpl. lia.
  - destruct (callModelLoopBy _ _ _ _ _ _ _ _) as [tr ? ? ? ? ? ?|tr ?];
      cbn [prependLoop]; [exact Hres | now apply endsAt_app].
Qed.

Lemma manageContextThresholdBy_calls (ctx : RunContext) :
  modelCalls (fst (manageContextThresholdBy X A prune ctx)) = [].
Proof.
  unfold manageContextThresholdBy.
  destruct (_ <? _)%Z; [|reflexivity].
  destruct (prune _ _) as [c sp].
  destruct (0 <? c)%nat; reflexivity.
Qed.

(** What follows the response adds no model call; the loop goes on with
    the retry count it was given, or the run ends at the iteration of the
    pass. *)
Lemma afterResponseBy_calls (q : string) (tr : Trace) (response : Response)
    (usage : option TokenUsage) (overflowRetries : nat) (ctx : RunContext)
    (w : W) :
  modelCalls (passTrace (afterResponseBy X A prune q tr response usage
                           overflowRetries ctx w))
  = modelCalls tr
  /\ match afterResponseBy X A prune q tr response usage overflowRetries
            ctx w with
     | Next _ retries _ _ _ _ => retries = overflowRetries
     | Return tr' _ => endsAt (iteration ctx) tr'
     end.
Proof.
  unfold afterResponseBy. cbv zeta.
  set (ctx1 := withTokenCounter _ ctx).
  destruct (emitThinking_context X response (responseTextOf X response) ctx1)
    as (Hiteration & _ & _ & Hthinking).
  destruct (emitThinking _ _ _ _) as [trThinking ctx2].
  cbn [fst snd] in Hthinking, Hiteration.
  assert (Hit : iteration ctx2 = iteration ctx) by exact Hiteration.
  assert (Hdirect : forall text,
    let r := (let (trDone, w1) := handleDirectResponse X text ctx2 w in
              Return (tr ++ trThinking ++ trDone) w1) in
    modelCalls (passTrace r) = modelCalls tr
    /\ match r with
       | Next _ retries _ _ _ _ => retries = overflowRetries
       | Return tr' _ => endsAt (iteration ctx) tr'
       end).
  { intros text. cbv zeta. unfold handleDirectResponse.
    destruct (dateNow X w) as [now w1]. cbn [passTrace].
    split.
    - rewrite !modelCalls_app, Hthinking. simpl. now rewrite app_nil_r.
    - do 2 apply endsAt_app. eexists [], _. split; [reflexivity|].
      exact Hit. }
  destruct response as [text|m]; [apply Hdirect|].
  destruct (hasToolCalls X m); cbn [negb]; [|apply Hdirect].
  pose proof (forAwait_steps X 0 (fst (toolExecutor A m ctx2 w))
                (snd (toolExecutor A m ctx2 w))) as Htools.
  destruct (forAwait _ _) as [trTools sp w1|trTools sp w1];
    destruct Htools as [_ Htools].
  - destruct (dateNow X w1) as [now w2]. cbn [passTrace].
    split.
    + rewrite !modelCalls_app, Hthinking, Htools. simpl.
      now rewrite app_nil_r.
    + do 3 apply endsAt_app. eexists [], _. split; [reflexivity|].
      exact Hit.
  - pose proof (manageContextThresholdBy_calls (withScratchpad sp ctx2))
      as Hmanaged.
    destruct (manageContextThresholdBy _ _ _ _) as [trCleared sp1].
    cbn [fst] in Hmanaged. cbn [passTrace].
    split; [|reflexivity].
    rewrite !modelCalls_app, Hthinking, Htools, Hmanaged. simpl.
    now rewrite app_nil_r.
Qed.

Lemma passBy_calls (q : string) (overflowRetries : nat)
    (currentPrompt : string) (ctx : RunContext) (w : W) :
  length (modelCalls
            (passTrace (passBy X A prune q overflowRetries currentPrompt
                          ctx w)))
  <= S MAX_OVERFLOW_RETRIES
  /\ match passBy X A prune q overflowRetries currentPrompt ctx w with
     | Next _ retries _ _ _ _ => retries = 0
     | Return tr _ => endsAt (iteration ctx) tr
     end.
Proof.
  unfold passBy.
  destruct (callModelLoopBy_calls q (MAX_OVERFLOW_RETRIES - overflowRetries)
              overflowRetries currentPrompt ctx w eq_refl) as [Hcalls Hres].
  destruct (callModelLoopBy _ _ _ _ _ _ _ _) as [tr resp u r p c w1|tr w1];
    cbn [loopTrace passTrace] in *.
  - destruct Hres as [-> Hc].
    destruct (afterResponseBy_calls q tr resp u 0 c w1) as [Hsame Hnext].
    rewrite Hsame. split; [lia|]. rewrite <- Hc.
    destruct (afterResponseBy _ _ _ _ _ _ _ _ _ _); exact Hnext.
  - split; [lia | exact Hres].
Qed.

(** The main loop ends with a [done]; between the iteration it is entered
    with and the iteration that [done] reports, each pass has called the
    model at most [MAX_OVERFLOW_RETRIES + 1] times. *)
Lemma mainLoopBy_calls (q : string) (k : nat) :
  forall (overflowRetries : nat) (currentPrompt : string)
         (ctx : RunContext) (w : W),
    Z.to_nat (maxIterations A - Z.of_nat (iteration ctx)) = k ->
    exists pre d,
      fst (mainLoopBy X A prune q overflowRetries currentPrompt ctx w)
      = pre ++ [Yield (done d)]
      /\ iteration ctx <= iterations d
      /\ length (modelCalls
                   (fst (mainLoopBy X A prune q overflowRetries
                           currentPrompt ctx w)))
         <= S MAX_OVERFLOW_RETRIES * (iterations d - iteration ctx).
Proof.
  induction k as [|k IH]; intros r p ctx w Hk; rewrite mainLoopBy_eq.
  - assert (Hge : (Z.of_nat (iteration ctx) <? maxIterations A)%Z = false)
      by (apply Z.ltb_ge; lia).
    rewrite Hge. unfold maxIterationsReached.
    destruct (dateNow X w) as [now w1].
    eexists [], _. split; [reflexivity|]. simpl. lia.
  - assert (Hlt : (Z.of_nat (iteration ctx) <? maxIterations A)%Z = true)
      by (apply Z.ltb_lt; lia).
    rewrite Hlt.
    set (ctx1 := withIteration (S (iteration ctx)) ctx).
    destruct (passBy_calls q r p ctx1 w) as [Hpass Hres].
    destruct (passBy X A prune q r p ctx1 w) as [tr w1|tr r' p' sp tc w1];
      cbn [passTrace fst] in *.
    + destruct Hres as (pre & d & -> & Hd). exists pre, d.
      split; [reflexivity|]. subst ctx1. cbn [iteration withIteration] in Hd.
      rewrite Hd. unfold MAX_OVERFLOW_RETRIES in *. lia.
    + destruct (IH r' p' (withTokenCounter tc (withScratchpad sp ctx1)) w1)
        as (pre & d & Hrest & Hle & Hcount).
      { subst ctx1. simpl. lia. }
      subst ctx1. cbn [iteration withIteration withScratchpad
                        withTokenCounter] in Hle, Hcount.
      unfold prepend. cbn [fst]. rewrite Hrest.
      exists (tr ++ pre), d. split; [now rewrite app_assoc|].
      split; [lia|].
      rewrite <- Hrest, modelCalls_app, length_app.
      unfold MAX_OVERFLOW_RETRIES in *. lia.
Qed.

Lemma runBy_calls (q : string) (h : option InMemoryChatHistory) (w : W) :
  exists pre d,
    fst (runBy X A prune q h w) = pre ++ [Yield (done d)]
    /\ length (modelCalls (fst (runBy X A prune q h w)))
       <= S MAX_OVERFLOW_RETRIES * iterations d.
Proof.
  unfold runBy. destruct (dateNow X w) as [t0 w1].
  destruct (length (tools A) =? 0)%nat.
  - destruct (dateNow X w1) as [now w2].
    eexists [], _. split; [reflexivity|]. simpl. lia.
  - unfold createRunContext. destruct (dateNow X w1) as [t1 w2].
    destruct (mainLoopBy_calls q _ 0 (buildInitialPrompt X q h)
                (mkRunContext q 0 t1 Scratchpad.empty TokenCounter.empty)
                w2 eq_refl) as (pre & d & Hrun & _ & Hcount).
    exists pre, d. split; [exact Hrun|].
    cbn [iteration] in Hcount. now rewrite Nat.sub_0_r in Hcount.
Qed.

End AnyPruningFacts.

(** *** [run] is the loop over the pruning of the scratchpad *)

Section SpecPruning.

Context {W : Type} (X : Collaborators W) (A : Agent W).

Lemma callModelLoop_By (q : string) (n : nat) :
  forall (overflowRetries : nat) (currentPrompt : string) (ctx : RunContext)
         (w : W),
    MAX_OVERFLOW_RETRIES - overflowRetries = n ->
    callModelLoop X A q overflowRetries currentPrompt ctx w
    = callModelLoopBy X A Scratchpad.clearOldestToolResults q overflowRetries
        currentPrompt ctx w.
Proof.
  induction n as [n IH] using lt_wf_ind. intros r p ctx w Hn.
  rewrite callModelLoop_eq, callModelLoopBy_eq.
  destruct (callModel X A p w) as [[[response usage]|e] w1]; [reflexivity|].
  destruct (isContextOverflowError X e
            && (r <? MAX_OVERFLOW_RETRIES)%nat) eqn:Hretry; [|reflexivity].
  destruct (Scratchpad.clearOldestToolResults _ _) as [c sp].
  destruct (0 <? c)%nat; [|reflexivity].
  apply andb_prop in Hretry as [_ Hlt]. apply Nat.ltb_lt in Hlt.
  f_equal. apply (IH (MAX_OVERFLOW_RETRIES - S r)); [lia | reflexivity].
Qed.

Lemma pass_By (q : string) (overflowRetries : nat) (currentPrompt : string)
    (ctx : RunContext) (w : W) :
  pass X A q overflowRetries currentPrompt ctx w
  = passBy X A Scratchpad.clearOldestToolResults q overflowRetries
      currentPrompt ctx w.
Proof.
  unfold pass, passBy.
  now rewrite (callModelLoop_By q (MAX_OVERFLOW_RETRIES - overflowRetries)).
Qed.

Lemma mainLoop_By (q : string) (k : nat) :
  forall (overflowRetries : nat) (currentPrompt : string)
         (ctx : RunContext) (w : W),
    Z.to_nat (maxIterations A - Z.of_nat (iteration ctx)) = k ->
    mainLoop X A q overflowRetries currentPrompt ctx w
    = mainLoopBy X A Scratchpad.clearOldestToolResults q overflowRetries
        currentPrompt ctx w.
Proof.
  induction k as [|k IH]; intros r p ctx w Hk;
    rewrite mainLoop_eq, mainLoopBy_eq, pass_By.
  - assert (Hge : (Z.of_nat (iteration ctx) <? maxIterations A)%Z = false)
      by (apply Z.ltb_ge; lia).
    now rewrite Hge.
  - destruct (Z.of_nat (iteration ctx) <? maxIterations A)%Z; [|reflexivity].
    destruct (passBy _ _ _ _ _ _ _ _) as [tr w1|tr r' p' sp tc w1];
      [reflexivity|].
    f_equal. apply IH. simpl. lia.
Qed.

(** [Agent.run] is the loop over the pruning of the scratchpad. *)
Lemma run_By (q : string) (h : option InMemoryChatHistory) (w : W) :
  run X A q h w = runBy X A Scratchpad.clearOldestToolResults q h w.
Proof.
  unfold run, runBy. destruct (dateNow X w) as [t0 w1].
  destruct (length (tools A) =? 0)%nat; [reflexivity|].
  destruct (createRunContext X q w1) as [ctx w2].
  now apply (mainLoop_By q (Z.to_nat (maxIterations A
                                       - Z.of_nat (iteration ctx)))).
Qed.

(** *** Two overflows, then an answer *)



End SpecPruning.

(** ** The tool executor *)

Module ToolExecutorFacts.

Import ToolExecutor.

Section Facts.

Context {W : Type} (cfg : Config W).

Lemma approve_without_callback (toolName : string) (t : RegisteredTool W)
    (a : JsObject) (w : World W) :
  requestToolApproval cfg = None ->
  snd (approve cfg toolName t a w) = w
  /\ (fst (approve cfg toolName t a w) = false <->
      requiresApproval t = true /\ toolName ∉ sessionApprovedTools w).
Proof.
  intros Hnone. unfold approve. rewrite Hnone.
  destruct (requiresApproval t); simpl.
  - destruct (bool_decide_reflect (toolName ∈ sessionApprovedTools w))
      as [Hin | Hout]; simpl.
    + split; [reflexivity|].
      split; [discriminate | intros [_ Hn]; contradiction].
    + split; [reflexivity|]. now split.
  - split; [reflexivity|]. split; [discriminate | intros [? _]; discriminate].
Qed.

(** Without an approval callback, a batch that calls a registered tool
    which requires approval and is not approved for the session is denied:
    the executor yields a [tool_denied]. *)
Lemma executeCalls_denies_without_callback (calls : list ToolCall)
    (sp : Scratchpad.t) (w : World W) (tc : ToolCall)
    (t : RegisteredTool W) :
  requestToolApproval cfg = None ->
  In tc calls ->
  toolMap cfg !! tc_name tc = Some t ->
  requiresApproval t = true ->
  tc_name tc ∉ sessionApprovedTools w ->
  Exists (fun e => isToolDenied (ofToolEvent (fst e)) = true)
         (fst (executeCalls cfg calls sp w)).
Proof.
  intros Hnone Hin Hreg Hreq. revert sp w.
  induction calls as [|c calls IH]; intros sp w Hout; [contradiction|].
  simpl. destruct (toolMap cfg !! tc_name c) as [t0|] eqn:Hc.
  - destruct (approve_without_callback (tc_name c) t0 (tc_args c) w Hnone)
      as [Hw Hdenied].
    destruct (approve cfg (tc_name c) t0 (tc_args c) w) as [[|] w1];
      simpl in *; subst w1.
    + apply Exists_cons_tl. simpl. destruct Hin as [-> | Hin].
      * rewrite Hreg in Hc. injection Hc as <-.
        assert (true = false) by (apply Hdenied; now split). discriminate.
      * now apply IH.
    + now apply Exists_cons_hd.
  - apply Exists_cons_tl. simpl. destruct Hin as [-> | Hin].
    + rewrite Hreg in Hc. discriminate.
    + now apply IH.
Qed.

End Facts.

End ToolExecutorFacts.

(** ** financial_search *)

Module FinancialSearchFacts.

Import FinancialSearch.

Lemma getField_setField_eq (k : string) (v : JsValue) (o : JsObject) :
  getField k (setField k v o) = v.
Proof.
  induction o as [|[k' v'] o IH]; simpl.
  - now rewrite String.eqb_refl.
  - destruct (String.eqb k k') eqn:Hk; simpl.
    + now rewrite String.eqb_refl.
    + now rewrite Hk.
Qed.

Lemma getField_setField_ne (k k' : string) (v : JsValue) (o : JsObject) :
  k <> k' -> getField k' (setField k v o) = getField k' o.
Proof.
  intros Hne. induction o as [|[k0 v0] o IH]; simpl.
  - apply not_eq_sym in Hne. apply String.eqb_neq in Hne. now rewrite Hne.
  - destruct (String.eqb k k0) eqn:Hk; simpl.
    + apply String.eqb_eq in Hk. subst k0.
      apply not_eq_sym in Hne. apply String.eqb_neq in Hne. now rewrite Hne.
    + now rewrite IH.
Qed.

Section Facts.

Context {W : Type}
  (FINANCE_TOOLS : list FinanceTool)
  (callRouter : string -> string -> W -> Outcome Response * W)
  (JSON_stringify : JsValue -> string)
  (JSON_parse : string -> Outcome JsValue)
  (formatToolResult : JsValue -> list JsValue -> string)
  (capitalize : string -> string)
  (typeErrorMessage : string -> JsValue -> string)
  (numberToString : Z -> string).

Abbreviation runSubTool :=
  (runSubTool FINANCE_TOOLS JSON_stringify JSON_parse typeErrorMessage).
Abbreviation invokeSubTool :=
  (invokeSubTool FINANCE_TOOLS JSON_stringify JSON_parse typeErrorMessage).
Abbreviation toolMap := (FINANCE_TOOL_MAP FINANCE_TOOLS).
Abbreviation resultKey := (resultKey numberToString).
Abbreviation addData := (addData numberToString).
Abbreviation combineResults := (combineResults numberToString).
Abbreviation func :=
  (func FINANCE_TOOLS callRouter JSON_stringify JSON_parse formatToolResult
        capitalize typeErrorMessage numberToString).

(** The key of a tool with an ordinary name is ordinary: it is neither
    [_errors] nor [__proto__]. *)
Lemma resultKey_ordinary (r : SubResult) :
  ordinaryName (tool r) = true ->
  ordinaryName (resultKey r) = true
  /\ resultKey r <> "_errors"
  /\ resultKey r <> "__proto__".
Proof.
  intros Hname.
  assert (Hkey : ordinaryName (resultKey r) = true).
  { unfold FinancialSearch.resultKey. destruct (truthy _); [|exact Hname].
    destruct (tool r); [discriminate | exact Hname]. }
  split; [exact Hkey|].
  split; intros Heq; rewrite Heq in Hkey; discriminate.
Qed.


Lemma registered_in_FINANCE_TOOLS (n : string) (t : FinanceTool) :
  toolMap !! n = Some t -> In t FINANCE_TOOLS /\ ft_name t = n.
Proof.
  unfold FINANCE_TOOL_MAP. intros Hlook.
  apply elem_of_list_to_map_2, list_elem_of_In in Hlook.
  apply in_rev, in_map_iff in Hlook as (t' & Heq & Hin).
  injection Heq as <- <-. now split.
Qed.

Lemma runSubTool_tool (tc : ToolCall) :
  tool (runSubTool tc) = tc_name tc /\ args (runSubTool tc) = tc_args tc.
Proof.
  unfold FinancialSearch.runSubTool.
  destruct (invokeSubTool tc) as [[d urls]|msg]; now split.
Qed.

Lemma runSubTool_unregistered (tc : ToolCall) :
  toolMap !! tc_name tc = None ->
  runSubTool tc
  = mkSubResult (tc_name tc) (tc_args tc) JNull (JArr [])
      (Some ("Tool '" +:+ tc_name tc +:+ "' not found")).
Proof.
  intros Hnone.
  unfold FinancialSearch.runSubTool, FinancialSearch.invokeSubTool.
  now rewrite Hnone.
Qed.

Lemma runSubTool_throws (tc : ToolCall) (t : FinanceTool) (msg : string) :
  toolMap !! tc_name tc = Some t ->
  ft_invoke t (tc_args tc) = Throws msg ->
  runSubTool tc
  = mkSubResult (tc_name tc) (tc_args tc) JNull (JArr []) (Some msg).
Proof.
  intros Hsome Hthrows.
  unfold FinancialSearch.runSubTool, FinancialSearch.invokeSubTool.
  rewrite Hsome. simpl. now rewrite Hthrows.
Qed.

Lemma runSubTool_succeeded (tc : ToolCall) :
  succeeded (runSubTool tc) = true ->
  exists t, toolMap !! tc_name tc = Some t.
Proof.
  unfold FinancialSearch.runSubTool, FinancialSearch.invokeSubTool.
  destruct (toolMap !! tc_name tc) as [t|]; [now exists t|].
  discriminate.
Qed.

Lemma fold_addData_other (k : string) (l : list SubResult) (o : JsObject) :
  (forall r, In r l -> resultKey r <> k) ->
  getField k (fold_left addData l o) = getField k o.
Proof.
  revert o. induction l as [|r l IH]; intros o Hl; [reflexivity|].
  simpl. rewrite IH by (intros r' Hr'; apply Hl; now right).
  apply getField_setField_ne. apply Hl. now left.
Qed.

Lemma fold_addData_last (l1 l2 : list SubResult) (r : SubResult)
    (o : JsObject) :
  (forall r', In r' l2 -> resultKey r' <> resultKey r) ->
  getField (resultKey r) (fold_left addData (l1 ++ r :: l2) o) = data r.
Proof.
  intros Hl2. rewrite fold_left_app. simpl.
  rewrite fold_addData_other by exact Hl2.
  apply getField_setField_eq.
Qed.

Lemma combineResults_errors (results : list SubResult) (r : SubResult) :
  In r results ->
  succeeded r = false ->
  getField "_errors" (combineResults results)
  = JArr (map errorEntry
            (List.filter (fun r => negb (succeeded r)) results))
  /\ In (errorEntry r)
        (map errorEntry (List.filter (fun r => negb (succeeded r)) results)).
Proof.
  intros Hin Hfailed.
  assert (Hmem : In r (List.filter (fun r => negb (succeeded r)) results)).
  { apply filter_In. split; [exact Hin | now rewrite Hfailed]. }
  split; [|now apply in_map].
  unfold combineResults.
  destruct (List.filter (fun r => negb (succeeded r)) results) as [|f fs];
    [contradiction|].
  cbn [length Nat.ltb Nat.leb]. apply getField_setField_eq.
Qed.

Lemma combineResults_data (pre post : list SubResult) (r : SubResult) :
  succeeded r = true ->
  resultKey r <> "_errors" ->
  (forall r', In r' post -> succeeded r' = true ->
              resultKey r' <> resultKey r) ->
  getField (resultKey r) (combineResults (pre ++ r :: post)) = data r.
Proof.
  intros Hok Hkey Hpost. unfold combineResults.
  assert (Hdata :
    getField (resultKey r)
      (fold_left addData (List.filter succeeded (pre ++ r :: post)) [])
    = data r).
  { rewrite List.filter_app. simpl. rewrite Hok.
    apply (fold_addData_last (List.filter succeeded pre)
             (List.filter succeeded post) r []).
    intros r' Hr'. apply filter_In in Hr' as [Hin Hs]. now apply Hpost. }
  destruct (0 <? _)%nat; [|exact Hdata].
  rewrite getField_setField_ne by (now apply not_eq_sym). exact Hdata.
Qed.

(** The result of [func] once the router has asked for tools: the
    combined data and the collected URLs, formatted. *)
Lemma func_combines (model input_query : string) (w w1 : W)
    (aiMessage : AIMessage) :
  callRouter model input_query w = (Returns (RMessage aiMessage), w1) ->
  tool_calls aiMessage <> [] ->
  fst (fst (func model input_query w))
  = Returns (formatToolResult
               (JObj (combineResults (map runSubTool (tool_calls aiMessage))))
               (allUrls (map runSubTool (tool_calls aiMessage)))).
Proof.
  intros Hrouter Hcalls. unfold FinancialSearch.func. rewrite Hrouter.
  destruct (tool_calls aiMessage) as [|tc rest]; [contradiction|].
  reflexivity.
Qed.


End Facts.

End FinancialSearchFacts.

(** ** The loop in the concrete world *)

Module Examples.

Import Demo.

Lemma demo_always_requests_tools (maxIterations : Z) :
  alwaysRequestsTools (collaborators alwaysCallsTool 100000)
                      (agent maxIterations catalog).
Proof.
  intros prompt w.
  exists (mkAIMessage "" [priceCall]), None, w.
  split; [reflexivity|]. split; [reflexivity|].
  intros ctx w2. repeat constructor.
Qed.

(** Two iterations allowed, a model that always asks for the price. *)
Lemma max_iterations_run_witness :
  let X := collaborators alwaysCallsTool 100000 in
  let A := agent 2 catalog in
  iteration (fst (createRunContext X "q" (world []))) = 0
  /\ exists pre d,
       fst (run X A "q" None (world [])) = pre ++ [Yield (done d)]
       /\ map fst (modelCalls (fst (run X A "q" None (world [])))) = seq 1 2
       /\ length (modelCalls (fst (run X A "q" None (world [])))) = 2
       /\ Forall (fun c => 0 <= fst c <= 2)
                 (modelCalls (fst (run X A "q" None (world []))))
       /\ answer d
          = "Reached maximum iterations (" +:+ pretty (Z.of_nat 2)
            +:+ "). I was unable to complete the research in the allotted steps."
       /\ iterations d = 2.
Proof.
  apply (max_iterations_run (collaborators alwaysCallsTool 100000)
           (agent 2 catalog) 2 "q" None (world [])).
  - lia.
  - reflexivity.
  - discriminate.
  - apply demo_always_requests_tools.
Defined.

Example two_iterations_trace :
  modelCalls (fst (run (collaborators alwaysCallsTool 100000)
                       (agent 2 catalog) "q" None (world [])))
  = [(1, "q"); (2, "q | get_price: 42; | get_price;")].
Proof. vm_compute. reflexivity. Qed.

(** The batch asks for the price, then for a tool that requires approval,
    then for the price again; there is no approval callback. *)
Lemma denial_ends_run_witness :
  let X := collaborators scripted 100000 in
  let A := agent 3 catalog in
  let ctx := mkRunContext "q" 0 1000 Scratchpad.empty TokenCounter.empty in
  let w := world [requests [priceCall; writeCall; priceCall]; answers "no"] in
  let counter := TokenCounter.add None TokenCounter.empty in
  mainLoop X A "q" 0 "q" ctx w
  = ([ModelCall 1 "q";
      Yield (tool_progress "get_price" (Scratchpad.Success "42"));
      Yield (tool_denied "write_file" []);
      Yield (done (mkDone ""
               [Scratchpad.mkRecord "get_price" [] (Scratchpad.Success "42")]
               1 0
               (Some (TokenCounter.getUsage counter))
               (Some (TokenCounter.getTokensPerSecond counter 0))))],
     ToolExecutor.mkWorld ∅ (mkOutside [answers "no"] 1001))
  /\ modelCalls (fst (mainLoop X A "q" 0 "q" ctx w)) = [(1, "q")].
Proof.
  intros X A ctx w counter.
  pose (priced :=
    [Scratchpad.ToolUse
       (Scratchpad.mkRecord "get_price" [] (Scratchpad.Success "42")) true]).
  assert (Hallowed :
    Forall (fun e : ToolExecutionEvent * (Scratchpad.t * World) =>
              isToolDenied (ofToolEvent (fst e)) = false)
           [(ToolProgress "get_price" (Scratchpad.Success "42"),
             (priced, world [answers "no"]))])
    by (constructor; [reflexivity | constructor]).
  assert (Hbudget : (Z.of_nat (iteration ctx) < maxIterations A)%Z)
    by (simpl; lia).
  destruct (denial_ends_run X A "q" 0 "q" ctx w
              (mkAIMessage "" [priceCall; writeCall; priceCall]) None
              (world [answers "no"])
              [(ToolProgress "get_price" (Scratchpad.Success "42"),
                (priced, world [answers "no"]))]
              [] "write_file" [] priced (world [answers "no"]) 1000
              (ToolExecutor.mkWorld ∅ (mkOutside [answers "no"] 1001))
              Hbudget eq_refl eq_refl eq_refl Hallowed eq_refl)
    as (Hrun & Hcalls & _).
  split; [exact Hrun | exact Hcalls].
Defined.

Lemma run_without_tools_witness :
  let X := collaborators scripted 100000 in
  let A := agent 3 [] in
  exists d,
    fst (run X A "q" None (world [answers "unused"])) = [Yield (done d)]
    /\ answer d
       = "No tools available. Please check your API key configuration."
    /\ toolCalls d = []
    /\ iterations d = 0
    /\ modelCalls (fst (run X A "q" None (world [answers "unused"]))) = [].
Proof.
  apply (run_without_tools (collaborators scripted 100000) (agent 3 [])
           "q" None (world [answers "unused"])).
  reflexivity.
Defined.

(** The model answers at once. *)
Lemma direct_response_is_final_answer_witness :
  mainLoop (collaborators scripted 100000) (agent 3 catalog) "q" 0 "q"
    (mkRunContext "q" 0 1000 Scratchpad.empty TokenCounter.empty)
    (world [answers "The price is 42."])
  = ([ModelCall 1 "q";
      Yield (done (mkDone "The price is 42." [] 1 0
               (Some (mkTokenUsage 7 3 10))
               (Some (TokenCounter.getTokensPerSecond (mkTokenUsage 7 3 10)
                        0))))],
     ToolExecutor.mkWorld ∅ (mkOutside [] 1001)).
Proof.
  apply (direct_response_is_final_answer (collaborators scripted 100000)
           (agent 3 catalog) "q" 0 "q"
           (mkRunContext "q" 0 1000 Scratchpad.empty TokenCounter.empty)
           (world [answers "The price is 42."])
           (RMessage (mkAIMessage "The price is 42." []))
           (Some (mkTokenUsage 7 3 10))
           (ToolExecutor.mkWorld ∅ (mkOutside [] 1000))
           1000
           (ToolExecutor.mkWorld ∅ (mkOutside [] 1001))).
  - simpl. lia.
  - reflexivity.
  - reflexivity.
  - reflexivity.
Defined.

(** An overflow over five retained records is retried once; an overflow
    over an empty scratchpad ends the run. *)
Lemma overflow_retries_or_fails_witness :
  let X := collaborators scripted 100000 in
  let A := agent 3 catalog in
  (exists rest,
     loopTrace (callModelLoop X A "q" 0 "q" (contextOver fiveRecords)
                  (world [overflow; answers "ok"]))
     = ModelCall 1 "q"
       :: Yield (context_cleared 2 3)
       :: ModelCall 1
            "q | get_price: 3;get_price: 4;get_price: 5; | get_price;get_price;get_price;get_price;get_price;"
       :: rest)
  /\ pass X A "q" 0 "q" (contextOver []) (world [overflow; answers "ok"])
     = Return
         [ModelCall 1 "q";
          Yield (done (mkDone "Error: context_length_exceeded" [] 1 0
                   (Some (mkTokenUsage 0 0 0)) (Some 0%Q)))]
         (ToolExecutor.mkWorld ∅ (mkOutside [answers "ok"] 1001)).
Proof.
  split.
  - refine (proj2 (proj1 (overflow_retries_or_fails
                            (collaborators scripted 100000)
                            (agent 3 catalog) "q" 0 "q"
                            (contextOver fiveRecords)
                            (world [overflow; answers "ok"]) overflowMessage
                            (world [answers "ok"]) eq_refl) _ _ _)).
    + reflexivity.
    + unfold MAX_OVERFLOW_RETRIES. lia.
    + simpl. lia.
  - refine (proj2 (overflow_retries_or_fails
                     (collaborators scripted 100000)
                     (agent 3 catalog) "q" 0 "q" (contextOver [])
                     (world [overflow; answers "ok"]) overflowMessage
                     (world [answers "ok"]) eq_refl) _ 1000%Z _ _).
    + right. right. reflexivity.
    + reflexivity.
Defined.


Example third_prompt_after_two_prunes :
  iterationPrompt (collaborators scripted 100000) "q"
    (Scratchpad.discardOldest 1 (Scratchpad.discardOldest 1 fiveRecords))
  = "q | get_price: 3;get_price: 4;get_price: 5; | get_price;get_price;get_price;get_price;get_price;".
Proof. vm_compute. reflexivity. Qed.

(** With the scratchpad of the spec, the same model.  At the first model
    call of a run nothing is there to prune, so the first overflow ends the
    run: one model call, no [context_cleared], and the error as answer.  In
    a later pass, over five retained records, the first prune discards two
    of them and the call is retried; the second overflow finds nothing more
    to discard and ends the run with one [context_cleared]. *)
Example overflow_twice_with_idempotent_pruning :
  let X := collaborators scripted 100000 in
  let A := agent 3 catalog in
  let first :=
    fst (run X A "q" None
           (world [overflow; overflow; answers "The price is 42."])) in
  let later :=
    fst (run X A "q" None
           (world [requests [priceCall; priceCall; priceCall; priceCall;
                             priceCall];
                   overflow; overflow; answers "The price is 42."])) in
  (modelCalls first = [(1, "q")]
   /\ List.filter isContextCleared (events first) = []
   /\ events first
      = [done (mkDone "Error: context_length_exceeded" [] 1 1
                 (Some (mkTokenUsage 0 0 0)) (Some 0%Q))])
  /\ (map fst (modelCalls later) = [1; 2; 2]
      /\ List.filter isContextCleared (events later) = [context_cleared 2 3]
      /\ exists d, last (events later) = Some (done d)
                  /\ answer d = "Error: context_length_exceeded").
Proof. vm_compute. repeat split. eexists. split; reflexivity. Qed.

(** Six retained records and a threshold of ten tokens: one record is
    discarded; with a threshold of 100000 tokens nothing happens. *)
Lemma context_threshold_pruning_witness :
  manageContextThreshold (collaborators scripted 100000) (agent 3 catalog)
    (contextOver sixRecords)
  = ([], sixRecords)
  /\ fst (manageContextThreshold (collaborators scripted 10)
            (agent 3 catalog) (contextOver sixRecords))
     = [Yield (context_cleared 1 5)].
Proof.
  split.
  - refine (proj1 (context_threshold_pruning (collaborators scripted 100000)
                     (agent 3 catalog) (contextOver sixRecords)) _).
    vm_compute. discriminate.
  - refine (proj1 (proj2 (proj2 (proj1 (proj2
              (context_threshold_pruning (collaborators scripted 10)
                 (agent 3 catalog) (contextOver sixRecords))) _))) _).
    + vm_compute. reflexivity.
    + simpl. lia.
Defined.


Example financial_search_combined :
  FinancialSearch.combineResults printNumber
    (map (FinancialSearch.runSubTool financeTools (fun _ => "") parse
            typeError)
         financeCalls)
  = [("get_stock_price_AAPL", JObj [("price", JNum 101)]);
     ("_errors",
      JArr [JObj [("tool", JStr "get_unknown"); ("args", JObj []);
                  ("error", JStr "Tool 'get_unknown' not found")];
            JObj [("tool", JStr "get_key_ratios"); ("args", JObj apple);
                  ("error", JStr "rate limited")]])].
Proof. vm_compute. reflexivity. Qed.

End Examples.

(** ** financial_search: names, keys and URLs *)

Module FinancialSearchMore.

Import FinancialSearch.

Lemma split_not_nil (sep : ascii) (s : string) : split sep s <> [].
Proof.
  destruct s as [|c rest]; simpl; [discriminate|].
  destruct (Ascii.eqb c sep); [discriminate|].
  destruct (split sep rest); discriminate.
Qed.

Lemma length_append (a b : string) :
  String.length (a +:+ b) = String.length a + String.length b.
Proof. induction a as [|c a IH]; simpl; [reflexivity | now rewrite IH]. Qed.

Lemma includesChar_append (c : ascii) (a b : string) :
  includesChar c (a +:+ b) = includesChar c a || includesChar c b.
Proof.
  induction a as [|c' a IH]; simpl; [reflexivity|].
  now rewrite IH, orb_assoc.
Qed.

Lemma length_concat (sep : ascii) (words : list string) :
  String.length (String.concat (String sep EmptyString) words)
  = joinedLength words.
Proof.
  induction words as [|w [|w' rest] IH]; [reflexivity | reflexivity |].
  change (String.concat (String sep "") (w :: w' :: rest))
    with (w +:+ String sep "" +:+ String.concat (String sep "") (w' :: rest)).
  rewrite !length_append, IH. simpl. lia.
Qed.

Lemma joinedLength_split (sep : ascii) (s : string) :
  joinedLength (split sep s) = String.length s.
Proof.
  induction s as [|c rest IH]; [reflexivity|]. simpl.
  pose proof (split_not_nil sep rest) as Hne.
  destruct (Ascii.eqb c sep).
  - destruct (split sep rest) as [|w ws]; [contradiction|].
    simpl in *. lia.
  - destruct (split sep rest) as [|w [|w' ws]]; [contradiction| |];
      simpl in *; lia.
Qed.

Lemma joinedLength_map (f : string -> string) (words : list string) :
  (forall w, In w words -> String.length (f w) = String.length w) ->
  joinedLength (map f words) = joinedLength words.
Proof.
  intros Hf. induction words as [|w [|w' rest] IH];
    [reflexivity | apply Hf; now left |].
  change (String.length (f w) + 1 + joinedLength (map f (w' :: rest))
          = String.length w + 1 + joinedLength (w' :: rest)).
  rewrite Hf by now left.
  rewrite IH by (intros w0 Hw0; apply Hf; now right). reflexivity.
Qed.

Lemma split_words_clean (sep : ascii) (s : string) :
  Forall (fun w => includesChar sep w = false) (split sep s).
Proof.
  induction s as [|c rest IH]; simpl; [repeat constructor|].
  destruct (Ascii.eqb c sep) eqn:Hc.
  - constructor; [reflexivity | exact IH].
  - destruct (split sep rest) as [|w ws]; [repeat constructor; simpl|].
    + rewrite Ascii.eqb_sym, Hc. reflexivity.
    + inversion IH as [|? ? Hw Hws]; subst.
      constructor; [|exact Hws]. simpl.
      now rewrite Ascii.eqb_sym, Hc, Hw.
Qed.

Lemma concat_clean (sep c : ascii) (words : list string) :
  Ascii.eqb c sep = false ->
  Forall (fun w => includesChar c w = false) words ->
  includesChar c (String.concat (String sep EmptyString) words) = false.
Proof.
  intros Hsep. induction 1 as [|w [|w' rest] Hw Hrest IH];
    [reflexivity | exact Hw |].
  change (String.concat (String sep "") (w :: w' :: rest))
    with (w +:+ String sep "" +:+ String.concat (String sep "") (w' :: rest)).
  rewrite !includesChar_append, Hw, IH. simpl. now rewrite Hsep.
Qed.

(** X7. [formatSubToolName] turns the underscores of a tool name into
    spaces: no underscore is left in the result when capitalising a word
    brings none in, and the result has the length of the name when
    capitalising keeps the length of each of its words, as it does for the
    ASCII names of the finance tools. *)
Theorem formatSubToolName_replaces_underscores
    (capitalize : string -> string) (n : string) :
  ((forall w, includesChar "_" w = false ->
              includesChar "_" (capitalize w) = false) ->
   includesChar "_" (formatSubToolName capitalize n) = false)
  /\ ((forall w, In w (split "_" n) ->
                 String.length (capitalize w) = String.length w) ->
      String.length (formatSubToolName capitalize n) = String.length n).
Proof.
  unfold formatSubToolName. split.
  - intros Hclean. apply concat_clean; [reflexivity|].
    pose proof (split_words_clean "_" n) as Hwords.
    induction Hwords as [|w ws Hw _ IH]; simpl; constructor; [|exact IH].
    now apply Hclean.
  - intros Hlength. rewrite length_concat, joinedLength_map by exact Hlength.
    apply joinedLength_split.
Qed.

Section More.

Context {W : Type}
  (FINANCE_TOOLS : list FinanceTool)
  (callRouter : string -> string -> W -> Outcome Response * W)
  (JSON_stringify : JsValue -> string)
  (JSON_parse : string -> Outcome JsValue)
  (formatToolResult : JsValue -> list JsValue -> string)
  (capitalize : string -> string)
  (typeErrorMessage : string -> JsValue -> string)
  (numberToString : Z -> string).

Abbreviation run1 :=
  (runSubTool FINANCE_TOOLS JSON_stringify JSON_parse typeErrorMessage).
Abbreviation registry := (FINANCE_TOOL_MAP FINANCE_TOOLS).
Abbreviation resultKey := (resultKey numberToString).
Abbreviation addData := (addData numberToString).
Abbreviation combineResults := (combineResults numberToString).
Abbreviation func :=
  (func FINANCE_TOOLS callRouter JSON_stringify JSON_parse formatToolResult
        capitalize typeErrorMessage numberToString).

Lemma keys_setField (k : string) (v : JsValue) (o : JsObject) (k' : string) :
  In k' (keys (setField k v o)) -> k' = k \/ In k' (keys o).
Proof.
  unfold keys. induction o as [|[k0 v0] o IH]; simpl.
  - intros [<- | []]. now left.
  - destruct (String.eqb k k0) eqn:Hk; simpl.
    + intros [<- | Hin]; [now left | right; now right].
    + intros [<- | Hin]; [right; now left|].
      destruct (IH Hin) as [-> | Hin']; [now left | right; now right].
Qed.

Lemma keys_fold_addData (l : list SubResult) (o : JsObject) (k : string) :
  In k (keys (fold_left addData l o)) ->
  In k (keys o) \/ exists r, In r l /\ resultKey r = k.
Proof.
  revert o. induction l as [|r l IH]; intros o; simpl; [now left|].
  intros Hin. destruct (IH _ Hin) as [Hk | (r' & Hr' & Hkey)].
  - apply keys_setField in Hk as [-> | Hk]; [|now left].
    right. exists r. split; [now left | reflexivity].
  - right. exists r'. split; [now right | exact Hkey].
Qed.

(** X8. The keys of the combined result come from the calls: a key is
    that of a successful call, or it is [_errors] and some call failed.  A
    failed call never contributes a data key, and when the registered
    tools have ordinary names and every call succeeds there is no
    [_errors] key. *)
Theorem combined_keys_come_from_calls (toolCalls : list ToolCall)
    (k : string) :
  let results := map run1 toolCalls in
  (In k (keys (combineResults results)) ->
   (exists tc, In tc toolCalls /\ succeeded (run1 tc) = true
               /\ resultKey (run1 tc) = k)
   \/ (k = "_errors"
       /\ exists tc, In tc toolCalls /\ succeeded (run1 tc) = false))
  /\ ((forall t, In t FINANCE_TOOLS -> ordinaryName (ft_name t) = true) ->
      (forall tc, In tc toolCalls -> succeeded (run1 tc) = true) ->
      ~ In "_errors" (keys (combineResults results))).
Proof.
  intros results.
  assert (Hkeys :
    In k (keys (combineResults results)) ->
    (exists tc, In tc toolCalls /\ succeeded (run1 tc) = true
                /\ resultKey (run1 tc) = k)
    \/ (k = "_errors"
        /\ exists tc, In tc toolCalls /\ succeeded (run1 tc) = false)).
  { unfold FinancialSearch.combineResults.
    assert (Hdata : forall k0,
      In k0 (keys (fold_left addData (List.filter succeeded results) [])) ->
      exists tc, In tc toolCalls /\ succeeded (run1 tc) = true
                 /\ resultKey (run1 tc) = k0).
    { intros k0 Hin.
      apply keys_fold_addData in Hin as [[] | (r & Hr & Hkey)].
      apply filter_In in Hr as [Hr Hok].
      apply in_map_iff in Hr as (tc & <- & Htc). now exists tc. }
    destruct (List.filter (fun r => negb (succeeded r)) results)
      as [|f fs] eqn:Hfailed; cbn [length Nat.ltb Nat.leb].
    - intros Hin. left. now apply Hdata.
    - intros Hin. apply keys_setField in Hin as [-> | Hin];
        [|left; now apply Hdata].
      right. split; [reflexivity|].
      assert (Hf : In f (List.filter (fun r => negb (succeeded r)) results))
        by (rewrite Hfailed; now left).
      apply filter_In in Hf as [Hf Hbad].
      apply in_map_iff in Hf as (tc & <- & Htc).
      exists tc. split; [exact Htc | now destruct (succeeded (run1 tc))]. }
  split; [exact Hkeys|].
  intros Hnames Hall Hin. clear Hkeys.
  unfold FinancialSearch.combineResults in Hin.
  assert (Hnone : List.filter (fun r => negb (succeeded r)) results = []).
  { subst results. clear Hin.
    induction toolCalls as [|tc tcs IH]; [reflexivity|]. simpl.
    rewrite (Hall tc) by now left. simpl.
    apply IH. intros tc' Htc'. apply Hall. now right. }
  rewrite Hnone in Hin. cbn [length Nat.ltb Nat.leb] in Hin.
  apply keys_fold_addData in Hin as [[] | (r & Hr & Hkey)].
  apply filter_In in Hr as [Hr Hok].
  apply in_map_iff in Hr as (tc & <- & Htc).
  destruct (FinancialSearchFacts.runSubTool_succeeded FINANCE_TOOLS
              JSON_stringify JSON_parse typeErrorMessage tc Hok) as [t Ht].
  apply FinancialSearchFacts.registered_in_FINANCE_TOOLS in Ht as [Hin Hname].
  destruct (FinancialSearchFacts.runSubTool_tool FINANCE_TOOLS
              JSON_stringify JSON_parse typeErrorMessage tc) as [Htool _].
  destruct (FinancialSearchFacts.resultKey_ordinary numberToString (run1 tc))
    as (_ & Hne & _); [|contradiction].
  rewrite Htool, <- Hname. now apply Hnames.
Qed.

(** The URLs collected from a batch are those of its successful calls. *)
Lemma allUrls_successful (toolCalls : list ToolCall) :
  allUrls (map run1 toolCalls)
  = concat (map (fun tc => if succeeded (run1 tc)
                           then flatten1 (sourceUrls (run1 tc)) else [])
                toolCalls).
Proof.
  unfold allUrls. induction toolCalls as [|tc tcs IH]; [reflexivity|].
  simpl. rewrite IH. f_equal.
  unfold FinancialSearch.runSubTool.
  destruct (invokeSubTool FINANCE_TOOLS JSON_stringify JSON_parse
              typeErrorMessage tc)
    as [[d urls]|message]; reflexivity.
Qed.


Lemma registry_none (n : string) :
  registry !! n = None <-> forall t, In t FINANCE_TOOLS -> ft_name t <> n.
Proof.
  unfold FINANCE_TOOL_MAP. rewrite <- not_elem_of_list_to_map. split.
  - intros Hnot t Hin Hname. apply Hnot.
    apply list_elem_of_In, in_map_iff.
    exists (n, t). split; [reflexivity|].
    apply in_rev. rewrite rev_involutive.
    apply in_map_iff. exists t. now rewrite Hname.
  - intros Hnone Hin.
    apply list_elem_of_In, in_map_iff in Hin as ([n' t] & Hfst & Hin).
    simpl in Hfst. subst n'.
    apply in_rev, in_map_iff in Hin as (t' & Heq & Hin).
    injection Heq as Hname <-. now apply (Hnone t').
Qed.

Lemma registry_last (n : string) (before after : list FinanceTool)
    (t : FinanceTool) :
  FINANCE_TOOLS = before ++ t :: after ->
  ft_name t = n ->
  (forall t', In t' after -> ft_name t' <> n) ->
  registry !! n = Some t.
Proof.
  unfold FINANCE_TOOL_MAP. intros -> Hname Hafter.
  rewrite map_app, rev_app_distr. simpl. rewrite <- app_assoc. simpl.
  rewrite list_to_map_app. apply lookup_union_Some_raw. right. split.
  - apply not_elem_of_list_to_map. intros Hin.
    apply list_elem_of_In, in_map_iff in Hin as ([n' t'] & Hfst & Hin).
    simpl in Hfst. subst n'.
    apply in_rev, in_map_iff in Hin as (t0 & Heq & Hin).
    injection Heq as Hn <-. now apply (Hafter t0).
  - simpl. rewrite Hname. apply lookup_insert_eq.
Qed.

(** X10. The tool map resolves a name to the last tool of [FINANCE_TOOLS]
    that bears it, and to nothing exactly when no tool bears it. *)
Theorem FINANCE_TOOL_MAP_resolves_names (n : string) :
  (registry !! n = None <-> forall t, In t FINANCE_TOOLS -> ft_name t <> n)
  /\ (forall before t after,
        FINANCE_TOOLS = before ++ t :: after ->
        ft_name t = n ->
        (forall t', In t' after -> ft_name t' <> n) ->
        registry !! n = Some t).
Proof.
  split; [apply registry_none|].
  intros before t after. apply registry_last.
Qed.

(** X11. What a registered tool returns is judged by its JSON: an answer
    that does not parse, or parses to [null], makes the call a failure with
    the parser's message or with that of the TypeError the engine throws
    for reading [data] of [null]; an answer that parses to an object makes
    it a success whose data is the object's [data] field. *)
Theorem sub_tool_answer_is_parsed (tc : ToolCall) (t : FinanceTool)
    (raw : JsValue) :
  registry !! tc_name tc = Some t ->
  ft_invoke t (tc_args tc) = Returns raw ->
  let text := match raw with JStr s => s | _ => JSON_stringify raw end in
  (forall message,
     JSON_parse text = Throws message ->
     run1 tc
     = mkSubResult (tc_name tc) (tc_args tc) JNull (JArr []) (Some message))
  /\ (JSON_parse text = Returns JNull ->
      run1 tc
      = mkSubResult (tc_name tc) (tc_args tc) JNull (JArr [])
          (Some (typeErrorMessage "data" JNull)))
  /\ (forall fields,
        JSON_parse text = Returns (JObj fields) ->
        run1 tc
        = mkSubResult (tc_name tc) (tc_args tc) (getField "data" fields)
            (orElse (getField "sourceUrls" fields) (JArr [])) None).
Proof.
  intros Hreg Hraw text.
  unfold FinancialSearch.runSubTool, FinancialSearch.invokeSubTool.
  rewrite Hreg. cbn [mbind outcome_bind]. rewrite Hraw.
  change (Returns raw ≫= ?f) with (f raw). cbv beta. fold text.
  split; [|split].
  - intros message ->. reflexivity.
  - intros ->. reflexivity.
  - intros fields ->. reflexivity.
Qed.

End More.

End FinancialSearchMore.

(** ** get_stock_price *)

Module StockPriceFacts.

Import StockPrice.

Lemma nullish_defined (v : JsValue) : nullish v JNull <> JUndefined.
Proof. destruct v; discriminate. Qed.

Section Facts.

Context
  (quote : string -> Outcome Quote)
  (env : Env)
  (providers : Providers)
  (JSON_stringify : JsValue -> string)
  (JSON_parse : string -> Outcome JsValue)
  (formatToolResult : JsValue -> JsValue -> string)
  (trim toUpperCase : string -> string)
  (typeErrorMessage : string -> JsValue -> string).

Abbreviation stockPrice :=
  (func quote env providers JSON_stringify JSON_parse formatToolResult trim
        toUpperCase typeErrorMessage).
Abbreviation fallback :=
  (fallbackViaWebSearch env providers JSON_stringify JSON_parse
     typeErrorMessage).
Abbreviation search := (searchWith JSON_stringify JSON_parse typeErrorMessage).

(** The message of the error [func] throws when both sources fail. *)
Abbreviation bothFailed ticker yahooMessage fallbackMessage :=
  ("Failed to fetch current stock price for " +:+ ticker
   +:+ ". Yahoo Finance error: " +:+ yahooMessage
   +:+ ". Fallback error: " +:+ fallbackMessage).

(** X12. When Yahoo answers, the tool resolves with the Yahoo payload and
    the quote page of the normalised ticker as only source, and logs
    nothing.  No field of the payload is [undefined]: what the quote lacks
    is [null], so every key survives serialisation. *)
Theorem yahoo_answer_is_complete (input_ticker : string) (q : Quote) :
  let ticker := toUpperCase (trim input_ticker) in
  quote ticker = Returns q ->
  stockPrice input_ticker
  = (Returns (formatToolResult (JObj (yahooPayload ticker q))
                (JArr [JStr ("https://finance.yahoo.com/quote/" +:+ ticker)])),
     [])
  /\ Forall (fun field => snd field <> JUndefined) (yahooPayload ticker q)
  /\ getField "ticker" (yahooPayload ticker q) = JStr ticker.
Proof.
  intros ticker Hquote. split; [|split].
  - unfold func. fold ticker. now rewrite Hquote.
  - unfold yahooPayload.
    repeat (constructor; [first [discriminate | apply nullish_defined]|]).
    constructor.
  - reflexivity.
Qed.

(** X13. The tool throws exactly when Yahoo fails and the fallback fails
    too, and its message then carries both failures. *)
Theorem stock_price_throws_only_when_both_fail (input_ticker message : string) :
  let ticker := toUpperCase (trim input_ticker) in
  fst (stockPrice input_ticker) = Throws message
  <-> exists yahooMessage fallbackMessage,
        quote ticker = Throws yahooMessage
        /\ fallback ticker = Throws fallbackMessage
        /\ message = bothFailed ticker yahooMessage fallbackMessage.
Proof.
  intros ticker. unfold func. fold ticker. split.
  - destruct (quote ticker) as [q|y]; [discriminate|].
    destruct (fallback ticker) as [[d urls]|f]; [discriminate|].
    intros Heq. injection Heq as <-. now exists y, f.
  - intros (y & f & -> & -> & ->). reflexivity.
Qed.

Lemma searchWith_throws (s : JsObject -> Outcome JsValue) (query message : string) :
  s [("query", JStr query)] = Throws message ->
  search s query = Throws message.
Proof. intros Hs. unfold searchWith. now rewrite Hs. Qed.

(** X14. The fallback asks one provider only, the first that is configured
    in the order Exa, Perplexity, Tavily: when that provider fails, the
    fallback fails with its message, whatever else is configured. *)
Theorem fallback_does_not_cascade (ticker message : string) :
  let query := [("query", JStr (ticker +:+ " stock price today"))] in
  (configured (EXASEARCH_API_KEY env) = true ->
   exaSearch providers query = Throws message ->
   fallback ticker = Throws message)
  /\ (configured (EXASEARCH_API_KEY env) = false ->
      configured (PERPLEXITY_API_KEY env) = true ->
      perplexitySearch providers query = Throws message ->
      fallback ticker = Throws message)
  /\ (configured (EXASEARCH_API_KEY env) = false ->
      configured (PERPLEXITY_API_KEY env) = false ->
      configured (TAVILY_API_KEY env) = true ->
      tavilySearch providers query = Throws message ->
      fallback ticker = Throws message).
Proof.
  intros query. unfold fallbackViaWebSearch. split; [|split].
  - intros -> Hs. now apply searchWith_throws.
  - intros -> -> Hs. now apply searchWith_throws.
  - intros -> -> -> Hs. now apply searchWith_throws.
Qed.

Lemma searchWith_text (s : JsObject -> Outcome JsValue) (query text : string)
    (message : string) :
  s [("query", JStr query)] = Returns (JStr text) ->
  JSON_parse text = Throws message ->
  search s query = Returns (JStr text, JArr []).
Proof.
  intros Hs Hparse. unfold searchWith, parseToolResult. rewrite Hs.
  change (Returns (JStr text) ≫= ?f) with (f (JStr text)). cbv beta iota.
  now rewrite Hparse.
Qed.

(** X15. What a search provider answers need not be JSON: when Yahoo fails
    and the provider the fallback asks (Exa, else Perplexity, else Tavily,
    by the keys configured) answers with text that does not parse, the tool
    still resolves, with that text as the result and no source URL. *)
Theorem fallback_keeps_unparseable_text (input_ticker yahooMessage text
    parseError : string) :
  let ticker := toUpperCase (trim input_ticker) in
  let query := [("query", JStr (ticker +:+ " stock price today"))] in
  quote ticker = Throws yahooMessage ->
  JSON_parse text = Throws parseError ->
  (configured (EXASEARCH_API_KEY env) = true
   /\ exaSearch providers query = Returns (JStr text))
  \/ (configured (EXASEARCH_API_KEY env) = false
      /\ configured (PERPLEXITY_API_KEY env) = true
      /\ perplexitySearch providers query = Returns (JStr text))
  \/ (configured (EXASEARCH_API_KEY env) = false
      /\ configured (PERPLEXITY_API_KEY env) = false
      /\ configured (TAVILY_API_KEY env) = true
      /\ tavilySearch providers query = Returns (JStr text)) ->
  stockPrice input_ticker
  = (Returns (formatToolResult (JObj (fallbackPayload ticker (JStr text)))
                (JArr [])),
     [(warn, "[Stock Price] Yahoo Finance failed for " +:+ ticker +:+ ": "
             +:+ yahooMessage);
      (info, "[Stock Price] using web search fallback for " +:+ ticker)])
  /\ getField "result" (fallbackPayload ticker (JStr text)) = JStr text
  /\ getField "provider" (fallbackPayload ticker (JStr text))
     = JStr "web_search_fallback".
Proof.
  intros ticker query Hquote Hparse Hanswer. split; [|now split].
  unfold func. fold ticker. rewrite Hquote.
  unfold fallbackViaWebSearch.
  destruct Hanswer as [(-> & Hs) | [(-> & -> & Hs) | (-> & -> & -> & Hs)]];
    now rewrite (searchWith_text _ _ text parseError Hs Hparse).
Qed.

(** X16. Without any search provider configured (a key that is unset or
    empty), a Yahoo failure is final: the tool throws, naming the Yahoo
    error and the missing provider, and logs a warning and an error. *)
Theorem no_provider_configured (input_ticker yahooMessage : string) :
  let ticker := toUpperCase (trim input_ticker) in
  configured (EXASEARCH_API_KEY env) = false ->
  configured (PERPLEXITY_API_KEY env) = false ->
  configured (TAVILY_API_KEY env) = false ->
  quote ticker = Throws yahooMessage ->
  fst (stockPrice input_ticker)
  = Throws (bothFailed ticker yahooMessage
              "No web search provider configured for fallback")
  /\ map fst (snd (stockPrice input_ticker)) = [warn; error].
Proof.
  intros ticker Hexa Hpplx Htavily Hquote.
  unfold func. fold ticker. rewrite Hquote.
  unfold fallbackViaWebSearch. rewrite Hexa, Hpplx, Htavily. now split.
Qed.


End Facts.

End StockPriceFacts.

(** ** More of the loop and of the tools in the concrete worlds *)

Module MoreExamples.

Import Demo.
Import DemoStock.

Lemma run_begins_with_initial_prompt_witness :
  let X := collaborators scripted 100000 in
  let A := agent 3 catalog in
  (exists rest,
     fst (run X A "q" None (world [answers "The price is 42."]))
     = ModelCall 1 (buildInitialPrompt X "q" None) :: rest)
  /\ buildInitialPrompt X "q" None = "q".
Proof.
  apply (run_begins_with_initial_prompt (collaborators scripted 100000)
           (agent 3 catalog) "q" None (world [answers "The price is 42."])).
  - discriminate.
  - simpl. lia.
Defined.

Lemma run_without_budget_witness :
  let X := collaborators scripted 100000 in
  let A := agent 0 catalog in
  exists d,
    fst (run X A "q" None (world [answers "unused"])) = [Yield (done d)]
    /\ answer d = maximumIterationsMessage A
    /\ iterations d = 0
    /\ toolCalls d = [].
Proof.
  apply (run_without_budget (collaborators scripted 100000) (agent 0 catalog)
           "q" None (world [answers "unused"])).
  - discriminate.
  - simpl. lia.
Defined.

(** A run that meets an overflow in its second pass: two iterations, three
    model calls, one [context_cleared]. *)
Example invariants_on_an_overflowing_run :
  let tr :=
    fst (run (collaborators scripted 100000) (agent 3 catalog) "q" None
           (world [requests [priceCall; priceCall; priceCall; priceCall];
                   overflow; answers "The price is 42."])) in
  map fst (modelCalls tr) = [1; 2; 2]
  /\ List.filter isContextCleared (events tr) = [context_cleared 1 3].
Proof. vm_compute. split; reflexivity. Qed.

Lemma combined_keys_come_from_calls_witness :
  ((exists tc, In tc financeCalls
               /\ FinancialSearch.succeeded (run1 tc) = true
               /\ FinancialSearch.resultKey printNumber (run1 tc)
                  = "get_stock_price_AAPL")
   \/ ("get_stock_price_AAPL" = "_errors"
       /\ exists tc, In tc financeCalls
                     /\ FinancialSearch.succeeded (run1 tc) = false))
  /\ ~ In "_errors"
        (keys (FinancialSearch.combineResults printNumber
                 (map run1 [stockPriceCall]))).
Proof.
  split.
  - refine (proj1 (FinancialSearchMore.combined_keys_come_from_calls
                     financeTools (fun _ => "") parse typeError printNumber
                     financeCalls "get_stock_price_AAPL") _).
    left. reflexivity.
  - refine (proj2 (FinancialSearchMore.combined_keys_come_from_calls
                     financeTools (fun _ => "") parse typeError printNumber
                     [stockPriceCall] "_errors") _ _).
    + intros t [<- | [<- | []]]; reflexivity.
    + intros tc [<- | []]. reflexivity.
Defined.

Lemma FINANCE_TOOL_MAP_resolves_names_witness :
  FinancialSearch.FINANCE_TOOL_MAP
    (financeTools
     ++ [FinancialSearch.mkFinanceTool "get_stock_price"
           (fun _ => Throws "replaced")])
  !! "get_stock_price"
  = Some (FinancialSearch.mkFinanceTool "get_stock_price"
            (fun _ => Throws "replaced")).
Proof.
  refine (proj2 (FinancialSearchMore.FINANCE_TOOL_MAP_resolves_names
                   (financeTools
                    ++ [FinancialSearch.mkFinanceTool "get_stock_price"
                          (fun _ => Throws "replaced")])
                   "get_stock_price")
            financeTools _ [] eq_refl eq_refl _).
  intros t' [].
Defined.

Lemma sub_tool_answer_is_parsed_witness :
  run1 stockPriceCall
  = FinancialSearch.mkSubResult "get_stock_price" apple
      (JObj [("price", JNum 101)])
      (JArr [JStr "https://finance.yahoo.com/quote/AAPL"]) None.
Proof.
  refine (proj2 (proj2 (FinancialSearchMore.sub_tool_answer_is_parsed
                          financeTools (fun _ => "") parse typeError
                          stockPriceCall
                          (FinancialSearch.mkFinanceTool "get_stock_price"
                             (fun _ => Returns (JStr "quote")))
                          (JStr "quote") eq_refl eq_refl)) _ eq_refl).
Defined.

Import StockPrice DemoStock.

Lemma yahoo_answer_is_complete_witness :
  stockPrice noKeys searchProviders " aapl "
  = (Returns (showResult (JObj (yahooPayload "AAPL" appleQuote))
                (JArr [JStr "https://finance.yahoo.com/quote/AAPL"])),
     [])
  /\ Forall (fun field => snd field <> JUndefined)
            (yahooPayload "AAPL" appleQuote)
  /\ getField "ticker" (yahooPayload "AAPL" appleQuote) = JStr "AAPL".
Proof.
  apply (StockPriceFacts.yahoo_answer_is_complete yahoo noKeys
           searchProviders (fun _ => "") parse showResult
           (fun s => trimEnd (trimStart s)) upper typeError " aapl "
           appleQuote).
  reflexivity.
Defined.

Example yahoo_payload_nulls :
  getField "regular_market_change_percent" (yahooPayload "AAPL" appleQuote)
  = JNull.
Proof. reflexivity. Qed.

Lemma stock_price_throws_only_when_both_fail_witness :
  fst (stockPrice noKeys searchProviders "msft")
  = Throws "Failed to fetch current stock price for MSFT. Yahoo Finance error: Quote not found. Fallback error: No web search provider configured for fallback".
Proof.
  apply (StockPriceFacts.stock_price_throws_only_when_both_fail yahoo noKeys
           searchProviders (fun _ => "") parse showResult
           (fun s => trimEnd (trimStart s)) upper typeError "msft").
  exists "Quote not found", "No web search provider configured for fallback".
  repeat split.
Defined.

Lemma fallback_does_not_cascade_witness :
  fallbackViaWebSearch exaKey failingProviders (fun _ => "") parse typeError
    "MSFT"
  = Throws "exa is down".
Proof.
  refine (proj1 (StockPriceFacts.fallback_does_not_cascade exaKey
                   failingProviders (fun _ => "") parse typeError "MSFT"
                   "exa is down")
            eq_refl eq_refl).
Defined.

Lemma fallback_keeps_unparseable_text_witness :
  stockPrice exaKey searchProviders "msft"
  = (Returns (showResult
                (JObj (fallbackPayload "MSFT" (JStr "MSFT trades at 410")))
                (JArr [])),
     [(warn, "[Stock Price] Yahoo Finance failed for " +:+ "MSFT" +:+ ": "
             +:+ "Quote not found");
      (info, "[Stock Price] using web search fallback for " +:+ "MSFT")])
  /\ getField "result" (fallbackPayload "MSFT" (JStr "MSFT trades at 410"))
     = JStr "MSFT trades at 410"
  /\ getField "provider" (fallbackPayload "MSFT" (JStr "MSFT trades at 410"))
     = JStr "web_search_fallback".
Proof.
  apply (StockPriceFacts.fallback_keeps_unparseable_text yahoo exaKey
           searchProviders (fun _ => "") parse showResult
           (fun s => trimEnd (trimStart s)) upper typeError "msft"
           "Quote not found" "MSFT trades at 410" "Unexpected token").
  - reflexivity.
  - reflexivity.
  - left. split; reflexivity.
Defined.

Lemma no_provider_configured_witness :
  fst (stockPrice noKeys searchProviders "msft")
  = Throws ("Failed to fetch current stock price for " +:+ "MSFT"
            +:+ ". Yahoo Finance error: " +:+ "Quote not found"
            +:+ ". Fallback error: "
            +:+ "No web search provider configured for fallback")
  /\ map fst (snd (stockPrice noKeys searchProviders "msft")) = [warn; error].
Proof.
  apply (StockPriceFacts.no_provider_configured yahoo noKeys searchProviders
           (fun _ => "") parse showResult
           (fun s => trimEnd (trimStart s)) upper typeError "msft"
           "Quote not found");
    reflexivity.
Defined.



Example urls_of_the_finance_calls :
  concat (map (fun tc => if FinancialSearch.succeeded (run1 tc)
                         then flatten1 (FinancialSearch.sourceUrls (run1 tc))
                         else [])
              financeCalls)
  = [JStr "https://finance.yahoo.com/quote/AAPL"].
Proof. vm_compute. reflexivity. Qed.

Lemma capitalize_brings_no_underscore (w : string) :
  includesChar "_" w = false -> includesChar "_" (capitalize w) = false.
Proof.
  destruct w as [|c w]; [reflexivity|]. cbn [capitalize includesChar].
  assert (Hc : Ascii.eqb "_" (upperChar c) = Ascii.eqb "_" c)
    by (destruct c as [[] [] [] [] [] [] [] []]; reflexivity).
  now rewrite Hc.
Qed.

Lemma formatSubToolName_replaces_underscores_witness :
  includesChar "_" (FinancialSearch.formatSubToolName capitalize
                      "get_stock_price") = false
  /\ String.length (FinancialSearch.formatSubToolName capitalize
                       "get_stock_price")
     = String.length "get_stock_price".
Proof.
  split.
  - refine (proj1 (FinancialSearchMore.formatSubToolName_replaces_underscores
                     capitalize "get_stock_price") _).
    exact capitalize_brings_no_underscore.
  - refine (proj2 (FinancialSearchMore.formatSubToolName_replaces_underscores
                     capitalize "get_stock_price") _).
    intros w [<- | [<- | [<- | []]]]; reflexivity.
Defined.

Example formatSubToolName_of_get_stock_price :
  FinancialSearch.formatSubToolName capitalize "get_stock_price"
  = "Get Stock Price".
Proof. reflexivity. Qed.

End MoreExamples.
